(** * Scenario scripts of the edge-computing repository

    Two ns-3 scenario programs, [edgecloud_Stream2.cc] and [wifi_p2p.cc],
    embedded as monadic programs over a model of the simulator's object
    graph.  Every [uint32_t] of the sources is a [Z] reduced modulo [2^32];
    every [for] loop is run by an explicit fuel-driven loop combinator whose
    counter wraps like the machine counter does.  Each [main] is cut along
    the banner comments of its source (backbone, wired branches, mobile
    networks, applications, tracing, run); the statements keep their order. *)

From Stdlib Require Import ZArith QArith Lia.
From stdpp Require Import base tactics option list numbers strings.

Open Scope Z_scope.

(** ** Machine integers *)

Definition uint32_modulus : Z := 2 ^ 32.

(** Value of a mathematical integer once stored in a [uint32_t]. *)
Definition u32 (z : Z) : Z := z mod uint32_modulus.

Definition is_u32 (z : Z) : Prop := 0 <= z < uint32_modulus.

(** ** The simulator framework *)

Module Ns3.

(** Which container of the scripts created a node: the backbone container,
    the one-node container of the wired branch of backbone node [cell], or
    the station container of the wireless cell of backbone node [cell]. *)
Inductive role : Type :=
  | Backbone
  | Wired (cell : Z)
  | Station (cell : Z).

Record Node : Type := mkNode {
  node_id : Z;       (* Node::GetId, the position in the global NodeList *)
  node_role : role;
  node_slot : Z      (* position inside the container that created it *)
}.

Inductive link : Type :=
  | Csma
  | PointToPoint
  | WifiAdhoc
  | WifiSta (ssid : Z)
  | WifiAp (ssid : Z).

Inductive Time : Type :=
  | Seconds (s : Q).

Inductive Ipv4Address : Type :=
  | GetLocal (node : Z) (interface : Z) (index : Z).

Inductive app_kind : Type :=
  | UdpEchoServer
  | UdpEchoClient.

Record Application : Type := mkApp {
  app_kind_of : app_kind;
  app_node : Z;
  app_port : Z;
  app_remote : option Ipv4Address
}.

Inductive attribute : Type :=
  | UintegerValue (v : Z)
  | TimeValue (t : Time)
  | StringValue (s : string).

(** The two local pointers that receive the result of NodeList::GetNode. *)
Inductive local : Type :=
  | appSource
  | appSink.

(** Calls into the framework, in the order the program makes them.  A
    device or station set is recorded by the ids of its nodes, a wifi MAC
    type with its SSID by [WifiSta i] / [WifiAp i] for "wifi-infra<i>". *)
Inductive event : Type :=
  | EvSetResolution (unit : string)
  | EvLogComponentEnable (name : string)
  | EvChannelCreate
  | EvInstallDevices (l : link) (ids : list Z)
  | EvInternetInstall (ids : list Z)
  | EvSetBase (base mask : string)
  | EvAssign (ids : list Z)
  | EvNewNetwork
  | EvGridPositionAllocator (minX minY deltaX deltaY : Q) (gridWidth : Z)
  | EvPositionAdd (x y z : Z)
  | EvPushReferenceMobilityModel (node : Z)
  | EvSetMobilityModel (name : string)
  | EvMobilityInstall (ids : list Z)
  | EvPopulateRoutingTables
  | EvGetNode (v : local) (index : Z)
  | EvSetAttribute (name : string) (value : attribute)
  | EvInstallApp (a : Application)
  | EvStart (a : Application) (t : Time)
  | EvStop (a : Application) (t : Time)
  | EvEnablePcap (prefix : string) (node : Z) (device : Z)
  | EvEnablePcapDevices (prefix : string) (ids : list Z)
  | EvEnablePcapAll (prefix : string)
  | EvCreateFileStream (name : string)
  | EvEnableAsciiAll
  | EvEnableAsciiIpv4All
  | EvAnimationInterface (file : string)
  | EvSimulatorStop (t : option Time)
  | EvSimulatorRun
  | EvSimulatorDestroy.

(** The simulation's object graph as far as the scripts touch it: the global
    node list and the chronological record of framework calls. *)
Record world : Type := mkWorld {
  nodes : list Node;
  log : list event
}.

Definition empty_world : world := mkWorld [] [].

Inductive fault : Type :=
  | NodeIndexOutOfRange (index : Z)
  | ContainerIndexOutOfRange (index : Z).

Inductive outcome (A : Type) : Type :=
  | Done (a : A) (w : world)
  | Fault (f : fault) (w : world)
  | OutOfFuel.
Arguments Done {A} a w.
Arguments Fault {A} f w.
Arguments OutOfFuel {A}.

(** State-and-fault monad of the scripts. *)
Definition M (A : Type) : Type := world -> outcome A.

#[export] Instance M_ret : MRet M := fun A a w => Done a w.

#[export] Instance M_bind : MBind M := fun A B f c w =>
  match c w with
  | Done a w' => f a w'
  | Fault e w' => Fault e w'
  | OutOfFuel => OutOfFuel
  end.

Definition emit (e : event) : M unit :=
  fun w => Done tt (mkWorld (nodes w) (log w ++ [e])).

Definition fresh (r : role) (base : nat) (count : nat) : list Node :=
  (fun s : nat => mkNode (u32 (Z.of_nat (base + s))) r (Z.of_nat s)) <$> seq 0 count.

(** Modelled from the spec: NodeContainer::Create is framework code absent
    from the sources; it builds [n] nodes, each registered at the end of the
    global node list ("the created node set"), and returns them. *)
Definition Create (r : role) (n : Z) : M (list Node) :=
  fun w =>
    let new := fresh r (length (nodes w)) (Z.to_nat n) in
    Done new (mkWorld (nodes w ++ new) (log w)).

(** Modelled from the spec: NodeList::GetNode is framework code absent from
    the sources; an index outside the created node set is an out-of-range
    container access, a framework-level failure the scripts do not handle. *)
Definition GetNode (v : local) (n : Z) : M Node :=
  fun w =>
    let w' := mkWorld (nodes w) (log w ++ [EvGetNode v n]) in
    match nodes w !! Z.to_nat n with
    | Some nd => Done nd w'
    | None => Fault (NodeIndexOutOfRange n) w'
    end.

(** Modelled from the spec: NodeContainer::Get is framework code absent from
    the sources; it indexes the container without translating a failure. *)
Definition Get (c : list Node) (i : Z) : M Node :=
  fun w =>
    match c !! Z.to_nat i with
    | Some nd => Done nd w
    | None => Fault (ContainerIndexOutOfRange i) w
    end.

(** NodeContainer::GetN returns the container size as a [uint32_t]. *)
Definition GetN (c : list Node) : Z := u32 (Z.of_nat (length c)).

Definition ids (c : list Node) : list Z := node_id <$> c.

Definition Install (a : Application) : M Application :=
  _ ← emit (EvInstallApp a); mret a.

(** [for (uint32_t i = start; i < bound; ++i) body], with the loop-carried
    locals threaded through [body].  The counter is incremented in
    [uint32_t]; nothing in the combinator forces the loop to stop. *)
Fixpoint for_u32 {L : Type} (fuel : nat) (i bound : Z)
    (body : Z -> L -> M L) (l : L) : M L :=
  match fuel with
  | O => fun _ => OutOfFuel
  | S fuel' =>
      if i <? bound
      then l' ← body i l; for_u32 fuel' (u32 (i + 1)) bound body l'
      else mret l
  end.

End Ns3.

Import Ns3.

(** ** edgecloud_Stream2.cc *)

Module edgecloud_Stream2.

Record params : Type := mkParams {
  nWifis : Z;
  nStas : Z
}.

(** Initial values of the locals, kept when the command line overrides
    nothing. *)
Definition default_params : params := mkParams 6 4.

Definition p2pNode : Z := 1.

Definition construct_backbone (nWifis : Z) : M (list Node) :=
  backboneNodes ← Create Backbone nWifis;
  _ ← emit EvChannelCreate;
  _ ← emit (EvSetAttribute "DataRate" (StringValue "5Mbps"));
  _ ← emit (EvSetAttribute "Delay" (StringValue "5ms"));
  _ ← emit (EvInstallDevices Csma (ids backboneNodes));
  _ ← emit (EvInternetInstall (ids backboneNodes));
  _ ← emit (EvSetBase "192.168.0.0" "255.255.255.0");
  _ ← emit (EvAssign (ids backboneNodes));
  _ ← emit (EvGridPositionAllocator 20.0 20.0 500.0 20.0 5);
  _ ← emit (EvSetMobilityModel "ns3::ConstantPositionMobilityModel");
  _ ← emit (EvMobilityInstall (ids backboneNodes));
  mret backboneNodes.

Definition p2p_network (fuel : nat) (backboneNodes : list Node)
    (i : Z) (_ : unit) : M unit :=
  p2pNodes ← Create (Wired i) 1;
  b ← Get backboneNodes i;
  let p2pNetwork := b :: p2pNodes in
  _ ← emit (EvSetAttribute "DataRate" (StringValue "5Mbps"));
  _ ← emit (EvSetAttribute "Delay" (StringValue "5ms"));
  _ ← emit (EvInstallDevices PointToPoint (ids p2pNetwork));
  _ ← emit (EvInternetInstall (ids p2pNodes));
  _ ← emit (EvAssign (ids p2pNetwork));
  _ ← emit EvNewNetwork;
  _ ← for_u32 fuel 0 (GetN p2pNodes)
        (fun j _ => emit (EvPositionAdd 0 (u32 (u32 (j * 10) + 10)) 0)) tt;
  b' ← Get backboneNodes i;
  _ ← emit (EvPushReferenceMobilityModel (node_id b'));
  _ ← emit (EvSetMobilityModel "ns3::ConstantPositionMobilityModel");
  emit (EvMobilityInstall (ids p2pNodes)).

Definition construct_p2p (fuel : nat) (nWifis : Z)
    (backboneNodes : list Node) : M unit :=
  _ ← emit (EvSetBase "172.16.0.0" "255.255.255.0");
  for_u32 fuel 0 nWifis (p2p_network fuel backboneNodes) tt.

(** Coordinates are [double]s holding integers below [2^53]; they are kept
    as integers. *)
Definition sta_position (j : Z) (temps : Z * Z) : M (Z * Z) :=
  let '(temp1, temp2) := temps in
  _ ← emit (EvPositionAdd (15 + temp1) (u32 (j + 2)) (15 + temp2));
  mret (u32 (temp1 + 3), u32 (temp2 + 15)).

Definition mobile_network (fuel : nat) (nStas : Z) (backboneNodes : list Node)
    (i : Z) (_ : unit) : M unit :=
  stas ← Create (Station i) nStas;
  b ← Get backboneNodes i;
  let infra := b :: stas in
  _ ← emit EvChannelCreate;
  _ ← emit (EvInstallDevices (WifiSta i) (ids stas));
  b' ← Get backboneNodes i;
  _ ← emit (EvInstallDevices (WifiAp i) [node_id b']);
  let sta_ap_Devices := node_id b' :: ids stas in
  _ ← emit (EvInternetInstall (ids stas));
  _ ← emit (EvAssign sta_ap_Devices);
  _ ← emit EvNewNetwork;
  _ ← for_u32 fuel 0 (GetN infra) sta_position (0, 0);
  b'' ← Get backboneNodes i;
  _ ← emit (EvPushReferenceMobilityModel (node_id b''));
  _ ← emit (EvSetMobilityModel "ns3::ConstantPositionMobilityModel");
  emit (EvMobilityInstall (ids stas)).

Definition construct_mobile (fuel : nat) (nWifis nStas : Z)
    (backboneNodes : list Node) : M unit :=
  _ ← emit (EvSetBase "10.0.0.0" "255.255.255.0");
  _ ← for_u32 fuel 0 nWifis (mobile_network fuel nStas backboneNodes) tt;
  emit EvPopulateRoutingTables.

Definition firstNodeIndex (nWifis k : Z) : Z := u32 (nWifis + k).

Definition lastNodeIndex (nWifis j : Z) : Z :=
  u32 (u32 (nWifis + u32 (nWifis * p2pNode)) + j).

(** Body of the inner application loop; the carried local is [j]. *)
Definition echo_pair (nWifis : Z) (appSource : Node) (sourceAddr : Ipv4Address)
    (m : Z) (j : Z) : M Z :=
  appSink ← GetNode appSink (lastNodeIndex nWifis j);
  serverApps ← Install (mkApp UdpEchoServer (node_id appSource) 9 None);
  _ ← emit (EvStart serverApps (Seconds 1.0));
  let MaxPacketSize := 1024 in
  let interPacketInterval := Seconds 0.01 in
  let maxPacketCount := 3500 in
  _ ← emit (EvSetAttribute "MaxPackets" (UintegerValue maxPacketCount));
  _ ← emit (EvSetAttribute "Interval" (TimeValue interPacketInterval));
  _ ← emit (EvSetAttribute "PacketSize" (UintegerValue MaxPacketSize));
  clientApps ← Install (mkApp UdpEchoClient (node_id appSink) 9 (Some sourceAddr));
  _ ← emit (EvStart clientApps (Seconds 2.0));
  let j := u32 (j + 1) in
  _ ← emit (EvEnablePcap "edgecloud_Stream" (node_id appSink) 0);
  mret j.

(** Body of the outer application loop; the carried locals are [(j, k)]. *)
Definition echo_cell (fuel : nat) (nWifis nStas : Z)
    (i : Z) (jk : Z * Z) : M (Z * Z) :=
  let '(j, k) := jk in
  let k := if i mod 2 =? 0 then u32 (k + 2) else k in
  appSource ← GetNode appSource (firstNodeIndex nWifis k);
  let sourceAddr := GetLocal (node_id appSource) 1 0 in
  j ← for_u32 fuel 0 nStas (echo_pair nWifis appSource sourceAddr) j;
  mret (j, k).

Definition configure_applications (fuel : nat) (nWifis nStas : Z) : M (Z * Z) :=
  let j := 0 in
  let k := u32 (-2) in
  for_u32 fuel 0 nWifis (echo_cell fuel nWifis nStas) (j, k).

Definition configure_tracing : M unit :=
  _ ← emit (EvCreateFileStream "edgecloud_Stream.tr");
  _ ← emit EvEnableAsciiAll;
  _ ← emit EvEnableAsciiIpv4All;
  _ ← emit (EvEnablePcapAll "edgecloud_Stream");
  emit (EvAnimationInterface "edgecloud_Stream.xml").

Definition run_simulation : M unit :=
  _ ← emit (EvSimulatorStop None);
  _ ← emit EvSimulatorRun;
  emit EvSimulatorDestroy.

(** [main], on the parameters left by [cmd.Parse]; the result is the exit
    status of the process. *)
Definition main (fuel : nat) (p : params) : M Z :=
  _ ← emit (EvSetResolution "NS");
  _ ← emit (EvLogComponentEnable "UdpTraceClient");
  _ ← emit (EvLogComponentEnable "UdpEchoServerApplication");
  backboneNodes ← construct_backbone (nWifis p);
  _ ← construct_p2p fuel (nWifis p) backboneNodes;
  _ ← construct_mobile fuel (nWifis p) (nStas p) backboneNodes;
  _ ← configure_applications fuel (nWifis p) (nStas p);
  _ ← configure_tracing;
  _ ← run_simulation;
  mret 0.

End edgecloud_Stream2.

(** ** wifi_p2p.cc *)

Module wifi_p2p.

Record params : Type := mkParams {
  backboneNodes : Z;
  infraNodes : Z;
  lanNodes : Z
}.

Definition default_params : params := mkParams 3 2 1.

Definition construct_backbone (backboneNodes : Z) : M (list Node) :=
  backbone ← Create Backbone backboneNodes;
  _ ← emit EvChannelCreate;
  _ ← emit (EvInstallDevices WifiAdhoc (ids backbone));
  _ ← emit (EvInternetInstall (ids backbone));
  _ ← emit (EvSetBase "192.168.0.0" "255.255.255.0");
  _ ← emit (EvAssign (ids backbone));
  _ ← emit (EvGridPositionAllocator 20.0 20.0 20.0 20.0 5);
  _ ← emit (EvSetMobilityModel "ns3::ConstantPositionMobilityModel");
  _ ← emit (EvMobilityInstall (ids backbone));
  mret backbone.

Definition lan_network (fuel : nat) (backbone : list Node)
    (i : Z) (_ : unit) : M unit :=
  newLanNodes ← Create (Wired i) 1;
  b ← Get backbone i;
  let lan := b :: newLanNodes in
  _ ← emit (EvSetAttribute "DataRate" (StringValue "5Mbps"));
  _ ← emit (EvSetAttribute "Delay" (StringValue "2ms"));
  _ ← emit (EvInstallDevices PointToPoint (ids lan));
  _ ← emit (EvInternetInstall (ids newLanNodes));
  _ ← emit (EvAssign (ids lan));
  _ ← emit EvNewNetwork;
  _ ← for_u32 fuel 0 (GetN newLanNodes)
        (fun j _ => emit (EvPositionAdd 0 (u32 (u32 (j * 10) + 10)) 0)) tt;
  b' ← Get backbone i;
  _ ← emit (EvPushReferenceMobilityModel (node_id b'));
  _ ← emit (EvSetMobilityModel "ns3::ConstantPositionMobilityModel");
  emit (EvMobilityInstall (ids newLanNodes)).

Definition construct_lans (fuel : nat) (backboneNodes : Z)
    (backbone : list Node) : M unit :=
  _ ← emit (EvSetBase "172.16.0.0" "255.255.255.0");
  for_u32 fuel 0 backboneNodes (lan_network fuel backbone) tt.

Definition mobile_network (fuel : nat) (infraNodes : Z) (backbone : list Node)
    (i : Z) (_ : unit) : M unit :=
  stas ← Create (Station i) infraNodes;
  b ← Get backbone i;
  let infra := b :: stas in
  _ ← emit EvChannelCreate;
  _ ← emit (EvInstallDevices (WifiSta i) (ids stas));
  b' ← Get backbone i;
  _ ← emit (EvInstallDevices (WifiAp i) [node_id b']);
  let infraDevices := node_id b' :: ids stas in
  _ ← emit (EvInternetInstall (ids stas));
  _ ← emit (EvAssign infraDevices);
  _ ← emit EvNewNetwork;
  _ ← for_u32 fuel 0 (GetN infra)
        (fun j _ => emit (EvPositionAdd 0 j 0)) tt;
  b'' ← Get backbone i;
  _ ← emit (EvPushReferenceMobilityModel (node_id b''));
  _ ← emit (EvSetMobilityModel "ns3::ConstantPositionMobilityModel");
  emit (EvMobilityInstall (ids stas)).

Definition construct_mobile (fuel : nat) (backboneNodes infraNodes : Z)
    (backbone : list Node) : M unit :=
  _ ← emit (EvSetBase "10.0.0.0" "255.255.255.0");
  _ ← for_u32 fuel 0 backboneNodes (mobile_network fuel infraNodes backbone) tt;
  emit EvPopulateRoutingTables.

Definition firstNodeIndex (backboneNodes : Z) : Z := u32 (backboneNodes + 2).

Definition lastNodeIndex (backboneNodes lanNodes : Z) : Z :=
  u32 (backboneNodes + u32 (backboneNodes * lanNodes)).

(** The application section is straight-line code; it returns [appSink],
    which the tracing section uses. *)
Definition configure_applications (backboneNodes lanNodes : Z) : M Node :=
  appSource ← GetNode appSource (firstNodeIndex backboneNodes);
  let sourceAddr := GetLocal (node_id appSource) 1 0 in
  appSink ← GetNode appSink (lastNodeIndex backboneNodes lanNodes);
  serverApps ← Install (mkApp UdpEchoServer (node_id appSource) 9 None);
  _ ← emit (EvStart serverApps (Seconds 1.0));
  _ ← emit (EvStop serverApps (Seconds 10.0));
  _ ← emit (EvSetAttribute "MaxPackets" (UintegerValue 1));
  _ ← emit (EvSetAttribute "Interval" (TimeValue (Seconds 3.0)));
  _ ← emit (EvSetAttribute "PacketSize" (UintegerValue 1024));
  clientApps ← Install (mkApp UdpEchoClient (node_id appSink) 9 (Some sourceAddr));
  _ ← emit (EvStart clientApps (Seconds 2.0));
  _ ← emit (EvStop clientApps (Seconds 10.0));
  mret appSink.

Definition configure_tracing (backbone : list Node) (appSink : Node) : M unit :=
  _ ← emit (EvCreateFileStream "wifimodified.tr");
  _ ← emit EvEnableAsciiAll;
  _ ← emit EvEnableAsciiIpv4All;
  _ ← emit (EvEnablePcapDevices "wifimodified" (ids backbone));
  _ ← emit (EvEnablePcap "wifimodified" (node_id appSink) 0);
  emit (EvAnimationInterface "wifi-p2p.xml").

Definition run_simulation : M unit :=
  _ ← emit (EvSimulatorStop (Some (Seconds 10.0)));
  _ ← emit EvSimulatorRun;
  emit EvSimulatorDestroy.

Definition main (fuel : nat) (p : params) : M Z :=
  _ ← emit (EvSetResolution "NS");
  _ ← emit (EvLogComponentEnable "UdpEchoClientApplication");
  _ ← emit (EvLogComponentEnable "UdpEchoServerApplication");
  backbone ← construct_backbone (backboneNodes p);
  _ ← construct_lans fuel (backboneNodes p) backbone;
  _ ← construct_mobile fuel (backboneNodes p) (infraNodes p) backbone;
  appSink ← configure_applications (backboneNodes p) (lanNodes p);
  _ ← configure_tracing backbone appSink;
  _ ← run_simulation;
  mret 0.

End wifi_p2p.

(** ** Observations on a run *)

(** The base/mask pairs handed to Ipv4AddressHelper::SetBase, in call order. *)
Definition setbases (l : list event) : list (string * string) :=
  omap (fun e => match e with EvSetBase b m => Some (b, m) | _ => None end) l.

(** The indices handed to NodeList::GetNode for the pointer [v], in call
    order. *)
Definition lookups (v : local) (l : list event) : list Z :=
  omap (fun e =>
          match e, v with
          | EvGetNode appSource i, appSource => Some i
          | EvGetNode appSink i, appSink => Some i
          | _, _ => None
          end) l.

Inductive sched : Type :=
  | Installed (k : app_kind)
  | Started (k : app_kind) (t : Time)
  | Stopped (k : app_kind) (t : Time).

(** Installation, start and stop of the echo applications, in call order. *)
Definition schedule (l : list event) : list sched :=
  omap (fun e =>
          match e with
          | EvInstallApp a => Some (Installed (app_kind_of a))
          | EvStart a t => Some (Started (app_kind_of a) t)
          | EvStop a t => Some (Stopped (app_kind_of a) t)
          | _ => None
          end) l.

(** The calls on the Simulator singleton, in call order. *)
Definition simulator_calls (l : list event) : list event :=
  omap (fun e =>
          match e with
          | EvSimulatorStop _ | EvSimulatorRun | EvSimulatorDestroy => Some e
          | _ => None
          end) l.

(** The nodes on which an echo application of kind [k] was installed. *)
Definition installed_on (k : app_kind) (l : list event) : list Z :=
  omap (fun e =>
          match e with
          | EvInstallApp (mkApp UdpEchoServer n _ _) =>
              match k with UdpEchoServer => Some n | _ => None end
          | EvInstallApp (mkApp UdpEchoClient n _ _) =>
              match k with UdpEchoClient => Some n | _ => None end
          | _ => None
          end) l.

Record view : Type := mkView {
  v_count : Z;                         (* size of the global node list *)
  v_setbases : list (string * string);
  v_sources : list Z;
  v_sinks : list Z;
  v_schedule : list sched;
  v_simulator : list event
}.

Definition view_of (w : world) : view :=
  mkView (Z.of_nat (length (nodes w))) (setbases (log w))
         (lookups appSource (log w)) (lookups appSink (log w))
         (schedule (log w)) (simulator_calls (log w)).

(** Effect of one framework call on the observations. *)
Definition view_emit (v : view) (e : event) : view :=
  match e with
  | EvSetBase b m =>
      mkView (v_count v) (v_setbases v ++ [(b, m)]) (v_sources v) (v_sinks v)
             (v_schedule v) (v_simulator v)
  | EvGetNode appSource i =>
      mkView (v_count v) (v_setbases v) (v_sources v ++ [i]) (v_sinks v)
             (v_schedule v) (v_simulator v)
  | EvGetNode appSink i =>
      mkView (v_count v) (v_setbases v) (v_sources v) (v_sinks v ++ [i])
             (v_schedule v) (v_simulator v)
  | EvInstallApp a =>
      mkView (v_count v) (v_setbases v) (v_sources v) (v_sinks v)
             (v_schedule v ++ [Installed (app_kind_of a)]) (v_simulator v)
  | EvStart a t =>
      mkView (v_count v) (v_setbases v) (v_sources v) (v_sinks v)
             (v_schedule v ++ [Started (app_kind_of a) t]) (v_simulator v)
  | EvStop a t =>
      mkView (v_count v) (v_setbases v) (v_sources v) (v_sinks v)
             (v_schedule v ++ [Stopped (app_kind_of a) t]) (v_simulator v)
  | EvSimulatorStop _ | EvSimulatorRun | EvSimulatorDestroy =>
      mkView (v_count v) (v_setbases v) (v_sources v) (v_sinks v)
             (v_schedule v) (v_simulator v ++ [e])
  | _ => v
  end.

(** The three address plans of the scripts. *)
Definition address_plan : list (string * string) :=
  [("192.168.0.0", "255.255.255.0");
   ("172.16.0.0", "255.255.255.0");
   ("10.0.0.0", "255.255.255.0")].

(** Schedule left by one pass through the inner application loop of
    edgecloud_Stream2. *)
Definition echo_pair_schedule : list sched :=
  [Installed UdpEchoServer; Started UdpEchoServer (Seconds 1.0);
   Installed UdpEchoClient; Started UdpEchoClient (Seconds 2.0)].

(** Schedule left by the application section of wifi_p2p. *)
Definition wifi_schedule : list sched :=
  [Installed UdpEchoServer; Started UdpEchoServer (Seconds 1.0);
   Stopped UdpEchoServer (Seconds 10.0);
   Installed UdpEchoClient; Started UdpEchoClient (Seconds 2.0);
   Stopped UdpEchoClient (Seconds 10.0)].

(** Total correctness from a precondition: the computation returns, without
    a framework fault and without exhausting its fuel. *)
Definition hoare {A : Type} (P : world -> Prop) (c : M A)
    (Q : A -> world -> Prop) : Prop :=
  forall w, P w -> exists a w', c w = Done a w' /\ Q a w'.

(** The world a run leaves behind, whether it returned or stopped at a
    framework fault. *)
Definition final_world {A : Type} (o : outcome A) : option world :=
  match o with
  | Done _ w => Some w
  | Fault _ w => Some w
  | OutOfFuel => None
  end.

(** The parameters are [uint32_t] values and the fuel lets every loop of the
    program reach its bound. *)
Definition edgecloud_ready (fuel : nat) (p : edgecloud_Stream2.params) : Prop :=
  is_u32 (edgecloud_Stream2.nWifis p) /\
  is_u32 (edgecloud_Stream2.nStas p) /\
  edgecloud_Stream2.nWifis p < Z.of_nat fuel /\
  edgecloud_Stream2.nStas p + 1 < Z.of_nat fuel.

Definition wifi_ready (fuel : nat) (p : wifi_p2p.params) : Prop :=
  is_u32 (wifi_p2p.backboneNodes p) /\
  is_u32 (wifi_p2p.infraNodes p) /\
  is_u32 (wifi_p2p.lanNodes p) /\
  wifi_p2p.backboneNodes p < Z.of_nat fuel /\
  wifi_p2p.infraNodes p + 1 < Z.of_nat fuel.

(** [o'] is the outcome [o] of the same computation run with more fuel. *)
Definition refines {A : Type} (o o' : outcome A) : Prop :=
  o = OutOfFuel \/ o = o'.

(** ** Closed forms of the runs *)

(** The node at position [n] of the global node list, in a topology of
    [cells] backbone nodes, one wired node per backbone node and [per]
    stations per backbone node, created in that order. *)
Definition node_at (cells per n : Z) : Node :=
  if n <? cells then mkNode (u32 n) Backbone n
  else if n <? 2 * cells then mkNode (u32 n) (Wired (n - cells)) 0
  else mkNode (u32 n) (Station ((n - 2 * cells) / per)) ((n - 2 * cells) mod per).

(** The nodes at positions [first], ..., [first + count - 1]. *)
Definition block (cells per first count : Z) : list Node :=
  node_at cells per <$> seqZ first count.

(** The echo applications installed, in call order. *)
Definition installs (l : list event) : list Application :=
  omap (fun e => match e with EvInstallApp a => Some a | _ => None end) l.

(** The positions handed to the list position allocators, in call order. *)
Definition positions (l : list event) : list (Z * Z * Z) :=
  omap (fun e => match e with EvPositionAdd x y z => Some (x, y, z) | _ => None end) l.

(** The device sets handed to Ipv4AddressHelper::Assign, each by the ids of
    its nodes, in call order. *)
Definition assigns (l : list event) : list (list Z) :=
  omap (fun e => match e with EvAssign ds => Some ds | _ => None end) l.

(** The nodes whose device 0 is captured by EnablePcap, in call order. *)
Definition pcaps (l : list event) : list Z :=
  omap (fun e => match e with EvEnablePcap _ n 0 => Some n | _ => None end) l.

(** The node sets handed to InternetStackHelper::Install and to
    MobilityHelper::Install, each by the ids of its nodes, in call order. *)
Definition internet_installs (l : list event) : list (list Z) :=
  omap (fun e => match e with EvInternetInstall ds => Some ds | _ => None end) l.

Definition mobility_installs (l : list event) : list (list Z) :=
  omap (fun e => match e with EvMobilityInstall ds => Some ds | _ => None end) l.

(** ** Which devices are addressed under which base

    One call of Ipv4AddressHelper::Assign as the log shows it: the base and
    mask of the last SetBase before it, the number of NewNetwork calls since
    that SetBase, the device installs (link type and nodes) made since the
    previous Assign, and the nodes of the devices it is given. *)
Record assignment : Type := mkAssignment {
  a_base : option (string * string);
  a_new_networks : Z;
  a_installed : list (link * list Z);
  a_assigned : list Z
}.

Record addressing_state : Type := mkAddressing {
  cur_base : option (string * string);
  cur_new_networks : Z;
  cur_installed : list (link * list Z)
}.

Definition addressing_step (st : addressing_state) (e : event)
    : addressing_state * list assignment :=
  match e with
  | EvSetBase b m => (mkAddressing (Some (b, m)) 0 (cur_installed st), [])
  | EvNewNetwork =>
      (mkAddressing (cur_base st) (cur_new_networks st + 1) (cur_installed st), [])
  | EvInstallDevices k ds =>
      (mkAddressing (cur_base st) (cur_new_networks st)
                    (cur_installed st ++ [(k, ds)]), [])
  | EvAssign ds =>
      (mkAddressing (cur_base st) (cur_new_networks st) [],
       [mkAssignment (cur_base st) (cur_new_networks st) (cur_installed st) ds])
  | _ => (st, [])
  end.

Fixpoint addressing_after (st : addressing_state) (l : list event)
    : addressing_state :=
  match l with
  | [] => st
  | e :: l' => addressing_after (fst (addressing_step st e)) l'
  end.

Fixpoint addressing_from (st : addressing_state) (l : list event)
    : list assignment :=
  match l with
  | [] => []
  | e :: l' =>
      snd (addressing_step st e) ++ addressing_from (fst (addressing_step st e)) l'
  end.

(** The Assign calls of a log, each with the base in force and the devices
    installed for it. *)
Definition addressing (l : list event) : list assignment :=
  addressing_from (mkAddressing None 0 []) l.

(** A call that neither sets a base, nor starts a network, nor installs or
    addresses devices. *)
Definition addressing_silent (e : event) : Prop :=
  forall st, addressing_step st e = (st, []).

(** The calls of Ipv4GlobalRoutingHelper::PopulateRoutingTables. *)
Definition routing_calls (l : list event) : list unit :=
  omap (fun e => match e with EvPopulateRoutingTables => Some tt | _ => None end) l.

(** The routing tables are populated exactly once, after every call that
    builds the topology or hands out addresses, and before every node lookup
    and application install. *)
Definition routed_after_topology (l : list event) : Prop :=
  exists pre post,
    l = pre ++ EvPopulateRoutingTables :: post /\
    routing_calls l = [tt] /\
    lookups appSource pre = [] /\ lookups appSink pre = [] /\
    installs pre = [] /\
    setbases post = [] /\ assigns post = [] /\
    internet_installs post = [] /\ mobility_installs post = [].

Module edgecloud_trace.

Definition backbone (W S : Z) : list event :=
  let backboneNodes := block W S 0 W in
  [EvChannelCreate;
   EvSetAttribute "DataRate" (StringValue "5Mbps");
   EvSetAttribute "Delay" (StringValue "5ms");
   EvInstallDevices Csma (ids backboneNodes);
   EvInternetInstall (ids backboneNodes);
   EvSetBase "192.168.0.0" "255.255.255.0";
   EvAssign (ids backboneNodes);
   EvGridPositionAllocator 20.0 20.0 500.0 20.0 5;
   EvSetMobilityModel "ns3::ConstantPositionMobilityModel";
   EvMobilityInstall (ids backboneNodes)].

Definition p2p_network (W S i : Z) : list event :=
  let b := node_at W S i in
  let p2pNodes := block W S (W + i) 1 in
  [EvSetAttribute "DataRate" (StringValue "5Mbps");
   EvSetAttribute "Delay" (StringValue "5ms");
   EvInstallDevices PointToPoint (ids (b :: p2pNodes));
   EvInternetInstall (ids p2pNodes);
   EvAssign (ids (b :: p2pNodes));
   EvNewNetwork;
   EvPositionAdd 0 10 0;
   EvPushReferenceMobilityModel (node_id b);
   EvSetMobilityModel "ns3::ConstantPositionMobilityModel";
   EvMobilityInstall (ids p2pNodes)].

Definition sta_position (j : Z) : event :=
  EvPositionAdd (15 + u32 (3 * j)) (u32 (j + 2)) (15 + u32 (15 * j)).

Definition mobile_network (W S i : Z) : list event :=
  let b := node_at W S i in
  let stas := block W S (2 * W + i * S) S in
  [EvChannelCreate;
   EvInstallDevices (WifiSta i) (ids stas);
   EvInstallDevices (WifiAp i) [node_id b];
   EvInternetInstall (ids stas);
   EvAssign (node_id b :: ids stas);
   EvNewNetwork] ++
  (sta_position <$> seqZ 0 (u32 (1 + S))) ++
  [EvPushReferenceMobilityModel (node_id b);
   EvSetMobilityModel "ns3::ConstantPositionMobilityModel";
   EvMobilityInstall (ids stas)].

(** Index of the source node of cell [i], and of the sink node reached after
    [t] inner iterations. *)
Definition source (W i : Z) : Z := edgecloud_Stream2.firstNodeIndex W (2 * (i / 2)).
Definition sink (W t : Z) : Z := edgecloud_Stream2.lastNodeIndex W (u32 t).

Definition echo_pair (W S i m : Z) : list event :=
  let appSource := node_at W S (source W i) in
  let appSink := node_at W S (sink W (i * S + m)) in
  let serverApps := mkApp UdpEchoServer (node_id appSource) 9 None in
  let clientApps :=
    mkApp UdpEchoClient (node_id appSink) 9
          (Some (GetLocal (node_id appSource) 1 0)) in
  [EvGetNode Ns3.appSink (sink W (i * S + m));
   EvInstallApp serverApps;
   EvStart serverApps (Seconds 1.0);
   EvSetAttribute "MaxPackets" (UintegerValue 3500);
   EvSetAttribute "Interval" (TimeValue (Seconds 0.01));
   EvSetAttribute "PacketSize" (UintegerValue 1024);
   EvInstallApp clientApps;
   EvStart clientApps (Seconds 2.0);
   EvEnablePcap "edgecloud_Stream" (node_id appSink) 0].

Definition echo_cell (W S i : Z) : list event :=
  EvGetNode Ns3.appSource (source W i) :: (seqZ 0 S ≫= echo_pair W S i).

Definition tracing : list event :=
  [EvCreateFileStream "edgecloud_Stream.tr";
   EvEnableAsciiAll;
   EvEnableAsciiIpv4All;
   EvEnablePcapAll "edgecloud_Stream";
   EvAnimationInterface "edgecloud_Stream.xml"].

Definition run : list event :=
  [EvSimulatorStop None; EvSimulatorRun; EvSimulatorDestroy].

(** The framework calls of a whole run, in order. *)
Definition whole (W S : Z) : list event :=
  [EvSetResolution "NS";
   EvLogComponentEnable "UdpTraceClient";
   EvLogComponentEnable "UdpEchoServerApplication"] ++
  backbone W S ++
  [EvSetBase "172.16.0.0" "255.255.255.0"] ++
  (seqZ 0 W ≫= p2p_network W S) ++
  [EvSetBase "10.0.0.0" "255.255.255.0"] ++
  (seqZ 0 W ≫= mobile_network W S) ++
  [EvPopulateRoutingTables] ++
  (seqZ 0 W ≫= echo_cell W S) ++
  tracing ++ run.

End edgecloud_trace.

Module wifi_trace.

Definition backbone (B K : Z) : list event :=
  let backbone := block B K 0 B in
  [EvChannelCreate;
   EvInstallDevices WifiAdhoc (ids backbone);
   EvInternetInstall (ids backbone);
   EvSetBase "192.168.0.0" "255.255.255.0";
   EvAssign (ids backbone);
   EvGridPositionAllocator 20.0 20.0 20.0 20.0 5;
   EvSetMobilityModel "ns3::ConstantPositionMobilityModel";
   EvMobilityInstall (ids backbone)].

Definition lan_network (B K i : Z) : list event :=
  let b := node_at B K i in
  let newLanNodes := block B K (B + i) 1 in
  [EvSetAttribute "DataRate" (StringValue "5Mbps");
   EvSetAttribute "Delay" (StringValue "2ms");
   EvInstallDevices PointToPoint (ids (b :: newLanNodes));
   EvInternetInstall (ids newLanNodes);
   EvAssign (ids (b :: newLanNodes));
   EvNewNetwork;
   EvPositionAdd 0 10 0;
   EvPushReferenceMobilityModel (node_id b);
   EvSetMobilityModel "ns3::ConstantPositionMobilityModel";
   EvMobilityInstall (ids newLanNodes)].

Definition mobile_network (B K i : Z) : list event :=
  let b := node_at B K i in
  let stas := block B K (2 * B + i * K) K in
  [EvChannelCreate;
   EvInstallDevices (WifiSta i) (ids stas);
   EvInstallDevices (WifiAp i) [node_id b];
   EvInternetInstall (ids stas);
   EvAssign (node_id b :: ids stas);
   EvNewNetwork] ++
  ((fun j => EvPositionAdd 0 j 0) <$> seqZ 0 (u32 (1 + K))) ++
  [EvPushReferenceMobilityModel (node_id b);
   EvSetMobilityModel "ns3::ConstantPositionMobilityModel";
   EvMobilityInstall (ids stas)].

(** The calls made before the application section. *)
Definition construction (B K : Z) : list event :=
  [EvSetResolution "NS";
   EvLogComponentEnable "UdpEchoClientApplication";
   EvLogComponentEnable "UdpEchoServerApplication"] ++
  backbone B K ++
  [EvSetBase "172.16.0.0" "255.255.255.0"] ++
  (seqZ 0 B ≫= lan_network B K) ++
  [EvSetBase "10.0.0.0" "255.255.255.0"] ++
  (seqZ 0 B ≫= mobile_network B K) ++
  [EvPopulateRoutingTables].

(** The calls made from the application section on, when both node lookups
    succeed. *)
Definition applications (B K f l : Z) : list event :=
  let appSource := node_at B K f in
  let appSink := node_at B K l in
  let serverApps := mkApp UdpEchoServer (node_id appSource) 9 None in
  let clientApps :=
    mkApp UdpEchoClient (node_id appSink) 9
          (Some (GetLocal (node_id appSource) 1 0)) in
  [EvGetNode Ns3.appSource f;
   EvGetNode Ns3.appSink l;
   EvInstallApp serverApps;
   EvStart serverApps (Seconds 1.0);
   EvStop serverApps (Seconds 10.0);
   EvSetAttribute "MaxPackets" (UintegerValue 1);
   EvSetAttribute "Interval" (TimeValue (Seconds 3.0));
   EvSetAttribute "PacketSize" (UintegerValue 1024);
   EvInstallApp clientApps;
   EvStart clientApps (Seconds 2.0);
   EvStop clientApps (Seconds 10.0);
   EvCreateFileStream "wifimodified.tr";
   EvEnableAsciiAll;
   EvEnableAsciiIpv4All;
   EvEnablePcapDevices "wifimodified" (ids (block B K 0 B));
   EvEnablePcap "wifimodified" (node_id appSink) 0;
   EvAnimationInterface "wifi-p2p.xml";
   EvSimulatorStop (Some (Seconds 10.0));
   EvSimulatorRun;
   EvSimulatorDestroy].

End wifi_trace.

(** ** Arithmetic of [uint32_t] *)

Lemma u32_small z : is_u32 z -> u32 z = z.
Proof. intros H. unfold u32. apply Z.mod_small. exact H. Qed.

Lemma u32_range z : is_u32 (u32 z).
Proof. unfold is_u32, u32. apply Z.mod_pos_bound. reflexivity. Qed.

Lemma u32_le z : 0 <= z -> u32 z <= z.
Proof. intros H. unfold u32. apply Z.mod_le; [exact H | reflexivity]. Qed.

Lemma u32_add_l a b : u32 (u32 a + b) = u32 (a + b).
Proof. unfold u32. apply Zplus_mod_idemp_l. Qed.

Lemma u32_add_r a b : u32 (a + u32 b) = u32 (a + b).
Proof. unfold u32. apply Zplus_mod_idemp_r. Qed.

(** A wrapped sum of two machine integers is the sum, or the sum less
    [2^32]. *)
Lemma u32_add_cases a b :
  is_u32 a -> is_u32 b ->
  (u32 (a + b) = a + b /\ a + b < uint32_modulus) \/
  (u32 (a + b) = a + b - uint32_modulus /\ uint32_modulus <= a + b).
Proof.
  unfold is_u32, u32, uint32_modulus. intros Ha Hb.
  destruct (Z_lt_ge_dec (a + b) (2 ^ 32)) as [Hlt | Hge].
  - left. split; [apply Z.mod_small; lia | exact Hlt].
  - right. split; [| lia].
    rewrite <- (Z.mod_small (a + b - 2 ^ 32) (2 ^ 32)) by lia.
    replace (a + b) with (a + b - 2 ^ 32 + 1 * 2 ^ 32) at 1 by lia.
    apply Z_mod_plus_full.
Qed.

Lemma k_step i k :
  0 <= i ->
  k = u32 (2 * ((i + 1) / 2) - 2) ->
  (if i mod 2 =? 0 then u32 (k + 2) else k) = u32 (2 * (i / 2)) /\
  u32 (2 * (i / 2)) = u32 (2 * ((i + 1 + 1) / 2) - 2).
Proof.
  intros Hi ->. split.
  - destruct (Z.eqb_spec (i mod 2) 0) as [He | Ho].
    + rewrite u32_add_l. f_equal. Z.div_mod_to_equations. lia.
    + f_equal. Z.div_mod_to_equations. lia.
  - f_equal. Z.div_mod_to_equations. lia.
Qed.

Lemma seqZ_snoc m n : 0 <= n -> seqZ m (n + 1) = seqZ m n ++ [m + n].
Proof.
  intros Hn. rewrite seqZ_app by lia. reflexivity.
Qed.

Lemma replicate_join_snoc {A : Type} (n : Z) (x : list A) :
  0 <= n ->
  mjoin (replicate (Z.to_nat (n + 1)) x) = mjoin (replicate (Z.to_nat n) x) ++ x.
Proof.
  intros Hn. rewrite Z2Nat.inj_add by lia. change (Z.to_nat 1) with 1%nat.
  rewrite Nat.add_1_r, replicate_S_end, join_app. simpl.
  rewrite app_nil_r. reflexivity.
Qed.

Lemma replicate_join_add {A : Type} (n m : Z) (x : list A) :
  0 <= n -> 0 <= m ->
  mjoin (replicate (Z.to_nat (n + m)) x) =
  mjoin (replicate (Z.to_nat n) x) ++ mjoin (replicate (Z.to_nat m) x).
Proof.
  intros Hn Hm. rewrite Z2Nat.inj_add by lia.
  rewrite replicate_add, join_app. reflexivity.
Qed.

(** ** Program logic *)

Section rules.
Context {A B : Type}.

Lemma hoare_ret (a : A) (P : world -> Prop) :
  hoare P (mret a) (fun a' w => a' = a /\ P w).
Proof. intros w Hw. exists a, w. split; [reflexivity | split; [reflexivity | exact Hw]]. Qed.

Lemma hoare_bind (P : world -> Prop) (c : M A) (Q : A -> world -> Prop)
    (f : A -> M B) (R : B -> world -> Prop) :
  hoare P c Q -> (forall a, hoare (Q a) (f a) R) -> hoare P (c ≫= f) R.
Proof.
  intros Hc Hf w Hw. destruct (Hc w Hw) as (a & w1 & Ec & HQ).
  destruct (Hf a w1 HQ) as (b & w2 & Ef & HR).
  exists b, w2. split; [| exact HR].
  unfold mbind, M_bind. rewrite Ec. exact Ef.
Qed.

Lemma hoare_conseq (P P' : world -> Prop) (c : M A) (Q Q' : A -> world -> Prop) :
  (forall w, P' w -> P w) -> (forall a w, Q a w -> Q' a w) ->
  hoare P c Q -> hoare P' c Q'.
Proof.
  intros HP HQ Hc w Hw. destruct (Hc w (HP w Hw)) as (a & w1 & Ec & Hq).
  exists a, w1. split; [exact Ec | apply HQ, Hq].
Qed.

Lemma hoare_pure (phi : Prop) (P : world -> Prop) (c : M A) (Q : A -> world -> Prop) :
  (phi -> hoare P c Q) -> hoare (fun w => phi /\ P w) c Q.
Proof. intros H w [Hphi Hw]. exact (H Hphi w Hw). Qed.
End rules.

Lemma view_of_emit w e :
  view_of (mkWorld (nodes w) (log w ++ [e])) = view_emit (view_of w) e.
Proof.
  unfold view_of, setbases, lookups, schedule, simulator_calls. simpl.
  rewrite !omap_app.
  destruct e; try (match goal with v : local |- _ => destruct v end);
    simpl; rewrite ?app_nil_r; reflexivity.
Qed.

Lemma hoare_emit v e :
  hoare (fun w => view_of w = v) (emit e) (fun _ w => view_of w = view_emit v e).
Proof.
  intros w <-. eexists tt, _. split; [reflexivity |]. apply view_of_emit.
Qed.

Lemma length_fresh r base count : length (fresh r base count) = count.
Proof. unfold fresh. rewrite length_fmap. apply length_seq. Qed.

Lemma hoare_Create v r n :
  0 <= n ->
  hoare (fun w => view_of w = v) (Create r n)
        (fun c w => length c = Z.to_nat n /\
                    view_of w = mkView (v_count v + n) (v_setbases v) (v_sources v)
                                       (v_sinks v) (v_schedule v) (v_simulator v)).
Proof.
  intros Hn w <-. eexists _, _. split; [reflexivity |]. split.
  - apply length_fresh.
  - unfold view_of. simpl. f_equal.
    rewrite length_app, length_fresh. lia.
Qed.

Lemma hoare_Get (c : list Node) i (P : world -> Prop) :
  0 <= i < Z.of_nat (length c) ->
  hoare P (Get c i) (fun _ w => P w).
Proof.
  intros Hi w Hw. unfold Get.
  destruct (lookup_lt_is_Some_2 c (Z.to_nat i)) as [nd ->]; [lia |].
  exists nd, w. split; [reflexivity | exact Hw].
Qed.

Lemma hoare_GetNode v x n :
  0 <= n < v_count v ->
  hoare (fun w => view_of w = v) (GetNode x n)
        (fun _ w => view_of w = view_emit v (EvGetNode x n)).
Proof.
  intros Hn w <-. unfold GetNode.
  destruct (lookup_lt_is_Some_2 (nodes w) (Z.to_nat n)) as [nd ->].
  { unfold view_of in Hn. simpl in Hn. lia. }
  eexists nd, _. split; [reflexivity |]. apply view_of_emit.
Qed.

Lemma hoare_Install v a :
  hoare (fun w => view_of w = v) (Install a)
        (fun a' w => a' = a /\ view_of w = view_emit v (EvInstallApp a)).
Proof.
  intros w <-. eexists a, _. split; [reflexivity |].
  split; [reflexivity | apply view_of_emit].
Qed.

(** The counted loop runs its body at [start], [start + 1], ... up to
    [bound - 1] and stops, given fuel for [bound - start + 1] tests of the
    condition: the counter never wraps before it reaches the bound. *)
Lemma for_u32_from {L : Type} (I : Z -> L -> world -> Prop)
    (bound : Z) (body : Z -> L -> M L) (start : Z) :
  bound < uint32_modulus ->
  (forall i l, start <= i < bound ->
     hoare (I i l) (body i l) (fun l' w => I (i + 1) l' w)) ->
  forall (fuel : nat) i l,
    0 <= start <= i -> i <= bound -> bound - i < Z.of_nat fuel ->
    hoare (I i l) (for_u32 fuel i bound body l) (fun l' w => I bound l' w).
Proof.
  intros Hb Hbody fuel. induction fuel as [| fuel IH]; intros i l Hs Hi Hf.
  - lia.
  - simpl. destruct (Z.ltb_spec i bound) as [Hlt | Hge].
    + eapply hoare_bind; [apply Hbody; lia |]. intros l'.
      rewrite u32_small by (unfold is_u32; lia).
      apply IH; lia.
    + assert (i = bound) as -> by lia.
      intros w Hw. exists l, w. split; [reflexivity | exact Hw].
Qed.

Lemma hoare_for {L : Type} (I : Z -> L -> world -> Prop)
    (fuel : nat) (bound : Z) (body : Z -> L -> M L) (l : L) :
  is_u32 bound -> bound < Z.of_nat fuel ->
  (forall i l, 0 <= i < bound ->
     hoare (I i l) (body i l) (fun l' w => I (i + 1) l' w)) ->
  hoare (I 0 l) (for_u32 fuel 0 bound body l) (fun l' w => I bound l' w).
Proof.
  intros [Hb0 Hb] Hf Hbody.
  apply (for_u32_from I bound body 0); [exact Hb | exact Hbody | lia..].
Qed.

(** One step of a straight-line block: run the first command of a bind by
    the given rule and normalise the resulting view. *)
Ltac hnorm :=
  cbn beta;
  cbn [view_emit v_count v_setbases v_sources v_sinks v_schedule v_simulator
       app_kind_of].

Ltac hnorm_in H :=
  cbn beta in H;
  cbn [view_emit v_count v_setbases v_sources v_sinks v_schedule v_simulator
       app_kind_of] in H.

Ltac hstep rule :=
  eapply hoare_bind; [apply rule | intros ?; hnorm; try (apply hoare_pure; intros ?)].

Ltac hemit := hstep hoare_emit.

Ltac hlast rule :=
  eapply hoare_conseq; [| | apply rule];
  [intros ? Hpre; exact Hpre | hnorm].

Lemma GetN_u32 c : is_u32 (GetN c).
Proof. apply u32_range. Qed.

Lemma GetN_le c : GetN c <= Z.of_nat (length c).
Proof. apply u32_le. lia. Qed.

(** A loop whose body only makes calls the observations ignore. *)
Lemma hoare_for_silent (fuel : nat) (bound : Z) (f : Z -> event) v :
  is_u32 bound -> bound < Z.of_nat fuel ->
  (forall j, view_emit v (f j) = v) ->
  hoare (fun w => view_of w = v)
        (for_u32 fuel 0 bound (fun j _ => emit (f j)) tt)
        (fun _ w => view_of w = v).
Proof.
  intros Hb Hf Hsilent.
  apply (hoare_for (fun _ _ w => view_of w = v)); [exact Hb | exact Hf |].
  intros j [] Hj. eapply hoare_conseq; [| | apply hoare_emit].
  - intros w Hw. exact Hw.
  - intros ? w Hw. rewrite Hsilent in Hw. exact Hw.
Qed.

(** ** edgecloud_Stream2: the construction sections *)

Section edgecloud_construction.
Import edgecloud_Stream2.
Variable fuel : nat.
Variables nWifis nStas : Z.
Hypothesis nWifis_u32 : is_u32 nWifis.
Hypothesis nStas_u32 : is_u32 nStas.
Hypothesis fuel_nWifis : nWifis < Z.of_nat fuel.
Hypothesis fuel_nStas : nStas + 1 < Z.of_nat fuel.

Lemma construct_backbone_spec v :
  hoare (fun w => view_of w = v) (construct_backbone nWifis)
    (fun c w => length c = Z.to_nat nWifis /\
                view_of w = mkView (v_count v + nWifis)
                              (v_setbases v ++ [("192.168.0.0", "255.255.255.0")])
                              (v_sources v) (v_sinks v) (v_schedule v)
                              (v_simulator v)).
Proof.
  destruct nWifis_u32 as [H0 _]. unfold construct_backbone.
  hstep hoare_Create; [exact H0 |].
  repeat hemit.
  intros w Hw. eexists _, w. split; [reflexivity |]. split; assumption.
Qed.

Variable backboneNodes : list Node.
Hypothesis backboneNodes_length : length backboneNodes = Z.to_nat nWifis.

Lemma p2p_network_spec i v :
  0 <= i < nWifis ->
  hoare (fun w => view_of w = v) (p2p_network fuel backboneNodes i tt)
    (fun _ w => view_of w = mkView (v_count v + 1) (v_setbases v) (v_sources v)
                              (v_sinks v) (v_schedule v) (v_simulator v)).
Proof.
  intros Hi. unfold p2p_network.
  hstep hoare_Create; [lia |].
  hstep hoare_Get; [lia |].
  repeat hemit.
  hstep hoare_for_silent;
    [apply GetN_u32 | pose proof (GetN_le a); lia | reflexivity |].
  hstep hoare_Get; [lia |].
  repeat hemit.
  hlast hoare_emit. intros ? w Hw. exact Hw.
Qed.

Lemma construct_p2p_spec v :
  hoare (fun w => view_of w = v) (construct_p2p fuel nWifis backboneNodes)
    (fun _ w => view_of w = mkView (v_count v + nWifis)
                              (v_setbases v ++ [("172.16.0.0", "255.255.255.0")])
                              (v_sources v) (v_sinks v) (v_schedule v)
                              (v_simulator v)).
Proof.
  unfold construct_p2p. hemit.
  eapply hoare_conseq;
    [| | apply (hoare_for
                  (fun i _ w => view_of w =
                     mkView (v_count v + i)
                       (v_setbases v ++ [("172.16.0.0", "255.255.255.0")])
                       (v_sources v) (v_sinks v) (v_schedule v) (v_simulator v)))].
  - intros w Hw. cbn beta. rewrite Hw. f_equal. lia.
  - intros ? w Hw. exact Hw.
  - exact nWifis_u32.
  - exact fuel_nWifis.
  - intros i [] Hi. eapply hoare_conseq; [| | apply p2p_network_spec; exact Hi].
    + intros w Hw. exact Hw.
    + intros ? w Hw. cbn beta in *. rewrite Hw. hnorm. f_equal. lia.
Qed.

Lemma sta_position_loop_spec bound temps v :
  is_u32 bound -> bound < Z.of_nat fuel ->
  hoare (fun w => view_of w = v) (for_u32 fuel 0 bound sta_position temps)
        (fun _ w => view_of w = v).
Proof.
  intros Hb Hf.
  apply (hoare_for (fun _ _ w => view_of w = v)); [exact Hb | exact Hf |].
  intros j [temp1 temp2] Hj. unfold sta_position.
  hemit. intros w Hw. eexists _, w. split; [reflexivity | exact Hw].
Qed.

Lemma mobile_network_spec i v :
  0 <= i < nWifis ->
  hoare (fun w => view_of w = v) (mobile_network fuel nStas backboneNodes i tt)
    (fun _ w => view_of w = mkView (v_count v + nStas) (v_setbases v) (v_sources v)
                              (v_sinks v) (v_schedule v) (v_simulator v)).
Proof.
  intros Hi. destruct nStas_u32 as [Hs0 Hs]. unfold mobile_network.
  hstep hoare_Create; [lia |].
  hstep hoare_Get; [lia |].
  repeat hemit.
  hstep hoare_Get; [lia |].
  repeat hemit.
  hstep sta_position_loop_spec;
    [apply GetN_u32 | pose proof (GetN_le (a0 :: a)); simpl length in *; lia |].
  hstep hoare_Get; [lia |].
  repeat hemit.
  hlast hoare_emit. intros ? w Hw. exact Hw.
Qed.

Lemma construct_mobile_spec v :
  hoare (fun w => view_of w = v) (construct_mobile fuel nWifis nStas backboneNodes)
    (fun _ w => view_of w = mkView (v_count v + nWifis * nStas)
                              (v_setbases v ++ [("10.0.0.0", "255.255.255.0")])
                              (v_sources v) (v_sinks v) (v_schedule v)
                              (v_simulator v)).
Proof.
  unfold construct_mobile. hemit.
  eapply hoare_bind.
  - eapply hoare_conseq;
      [| | apply (hoare_for
                    (fun i _ w => view_of w =
                       mkView (v_count v + i * nStas)
                         (v_setbases v ++ [("10.0.0.0", "255.255.255.0")])
                         (v_sources v) (v_sinks v) (v_schedule v) (v_simulator v)))].
    + intros w Hw. cbn beta. rewrite Hw. f_equal. lia.
    + intros ? w Hw. exact Hw.
    + exact nWifis_u32.
    + exact fuel_nWifis.
    + intros i [] Hi. eapply hoare_conseq; [| | apply mobile_network_spec; exact Hi].
      * intros w Hw. exact Hw.
      * intros ? w Hw. cbn beta in *. rewrite Hw. hnorm. f_equal. lia.
  - intros ?. hlast hoare_emit. intros ? w Hw. exact Hw.
Qed.
End edgecloud_construction.

(** ** edgecloud_Stream2: the application section *)

(** The sink index, as a function of the number [t] of inner iterations
    completed so far. *)
Lemma lastNodeIndex_wrap nWifis t :
  edgecloud_Stream2.lastNodeIndex nWifis (u32 t) =
  u32 (nWifis + nWifis * edgecloud_Stream2.p2pNode + t).
Proof.
  unfold edgecloud_Stream2.lastNodeIndex. rewrite u32_add_l, u32_add_r.
  replace (nWifis + u32 (nWifis * edgecloud_Stream2.p2pNode) + t)
    with (u32 (nWifis * edgecloud_Stream2.p2pNode) + (nWifis + t)) by lia.
  rewrite u32_add_l. f_equal. lia.
Qed.

Lemma sink_in_range nWifis nStas t :
  is_u32 nWifis ->
  0 <= t < nWifis * nStas ->
  0 <= edgecloud_Stream2.lastNodeIndex nWifis (u32 t) < nWifis * (2 + nStas).
Proof.
  intros [H0 _] Ht. rewrite lastNodeIndex_wrap. unfold edgecloud_Stream2.p2pNode.
  pose proof (u32_range (nWifis + nWifis * 1 + t)) as [Hr _].
  pose proof (u32_le (nWifis + nWifis * 1 + t)). lia.
Qed.

Lemma source_in_range nWifis nStas i :
  is_u32 nStas ->
  0 <= i < nWifis ->
  0 <= edgecloud_Stream2.firstNodeIndex nWifis (2 * (i / 2)) < nWifis * (2 + nStas).
Proof.
  intros [Hs0 _] Hi. unfold edgecloud_Stream2.firstNodeIndex.
  pose proof (u32_range (nWifis + 2 * (i / 2))) as [Hr _].
  pose proof (u32_le (nWifis + 2 * (i / 2))).
  assert (0 <= 2 * (i / 2) <= i) by (Z.div_mod_to_equations; lia).
  nia.
Qed.

Section edgecloud_applications.
Import edgecloud_Stream2.
Variable fuel : nat.
Variables nWifis nStas : Z.
Hypothesis nWifis_u32 : is_u32 nWifis.
Hypothesis nStas_u32 : is_u32 nStas.
Hypothesis fuel_nWifis : nWifis < Z.of_nat fuel.
Hypothesis fuel_nStas : nStas + 1 < Z.of_nat fuel.

Variable v : view.
Hypothesis v_nodes : v_count v = nWifis * (2 + nStas).

Lemma echo_pair_spec appSource sourceAddr m t (sources sinks : list Z) (sch : list sched) :
  0 <= t < nWifis * nStas ->
  hoare (fun w => view_of w = mkView (v_count v) (v_setbases v) sources
                                 sinks sch (v_simulator v))
        (echo_pair nWifis appSource sourceAddr m (u32 t))
        (fun j w => j = u32 (t + 1) /\
                    view_of w = mkView (v_count v) (v_setbases v) sources
                                  (sinks ++ [lastNodeIndex nWifis (u32 t)])
                                  (sch ++ echo_pair_schedule) (v_simulator v)).
Proof.
  intros Ht. unfold echo_pair.
  hstep hoare_GetNode;
    [hnorm; rewrite v_nodes; apply sink_in_range; [exact nWifis_u32 | exact Ht] |].
  hstep hoare_Install. subst.
  repeat hemit.
  hstep hoare_Install. subst.
  repeat hemit.
  intros w Hw. eexists _, w. split; [reflexivity |]. split.
  - apply u32_add_l.
  - rewrite Hw. unfold echo_pair_schedule. rewrite <- !app_assoc. reflexivity.
Qed.

Lemma echo_pairs_spec appSource sourceAddr t0 (sources sinks : list Z) (sch : list sched) :
  0 <= t0 -> t0 + nStas <= nWifis * nStas ->
  hoare (fun w => view_of w = mkView (v_count v) (v_setbases v) sources
                                 sinks sch (v_simulator v))
        (for_u32 fuel 0 nStas (echo_pair nWifis appSource sourceAddr) (u32 t0))
        (fun j w => j = u32 (t0 + nStas) /\
                    view_of w =
                      mkView (v_count v) (v_setbases v) sources
                        (sinks ++ ((fun t => lastNodeIndex nWifis (u32 t)) <$> seqZ t0 nStas))
                        (sch ++ mjoin (replicate (Z.to_nat nStas) echo_pair_schedule))
                        (v_simulator v)).
Proof.
  intros Ht0 Hend.
  eapply hoare_conseq;
    [| | apply (hoare_for
                  (fun m j w => j = u32 (t0 + m) /\
                     view_of w =
                       mkView (v_count v) (v_setbases v) sources
                         (sinks ++ ((fun t => lastNodeIndex nWifis (u32 t)) <$> seqZ t0 m))
                         (sch ++ mjoin (replicate (Z.to_nat m) echo_pair_schedule))
                         (v_simulator v)))].
  - intros w Hw. cbn beta. split; [f_equal; lia |].
    rewrite Hw. simpl. rewrite !app_nil_r. reflexivity.
  - intros j w Hw. exact Hw.
  - exact nStas_u32.
  - lia.
  - intros m j Hm. cbn beta. apply hoare_pure. intros ->.
    eapply hoare_conseq; [| | apply (echo_pair_spec _ _ m (t0 + m)); lia].
    + intros w Hw. exact Hw.
    + intros j w [-> Hw]. cbn beta. split; [f_equal; lia |].
      rewrite Hw. rewrite seqZ_snoc, fmap_app, replicate_join_snoc by lia.
      rewrite !app_assoc. reflexivity.
Qed.

Lemma echo_cell_spec i (sources sinks : list Z) (sch : list sched) k :
  0 <= i < nWifis ->
  k = u32 (2 * ((i + 1) / 2) - 2) ->
  hoare (fun w => view_of w = mkView (v_count v) (v_setbases v) sources
                                 sinks sch (v_simulator v))
        (echo_cell fuel nWifis nStas i (u32 (i * nStas), k))
        (fun jk w => jk = (u32 ((i + 1) * nStas), u32 (2 * ((i + 1 + 1) / 2) - 2)) /\
                     view_of w =
                       mkView (v_count v) (v_setbases v)
                         (sources ++ [firstNodeIndex nWifis (2 * (i / 2))])
                         (sinks ++ ((fun t => lastNodeIndex nWifis (u32 t))
                                      <$> seqZ (i * nStas) nStas))
                         (sch ++ mjoin (replicate (Z.to_nat nStas) echo_pair_schedule))
                         (v_simulator v)).
Proof.
  intros Hi Hk. unfold echo_cell.
  destruct (k_step i k (proj1 Hi) Hk) as [-> Hnext].
  assert (u32 (2 * (i / 2)) = 2 * (i / 2)) as Hsmall.
  { apply u32_small. destruct nWifis_u32. unfold is_u32.
    Z.div_mod_to_equations. lia. }
  rewrite <- Hnext, Hsmall.
  hstep hoare_GetNode;
    [hnorm; rewrite v_nodes; apply source_in_range; [exact nStas_u32 | exact Hi] |].
  eapply hoare_bind.
  - apply (echo_pairs_spec a (GetLocal (node_id a) 1 0) (i * nStas));
      destruct nStas_u32; nia.
  - intros j. cbn beta. apply hoare_pure. intros ->.
    intros w Hw. eexists _, w. split; [reflexivity |]. split; [| exact Hw].
    f_equal. f_equal. lia.
Qed.

Lemma configure_applications_spec :
  hoare (fun w => view_of w = v) (configure_applications fuel nWifis nStas)
    (fun _ w =>
       view_of w =
         mkView (v_count v) (v_setbases v)
           (v_sources v ++ ((fun i => firstNodeIndex nWifis (2 * (i / 2)))
                              <$> seqZ 0 nWifis))
           (v_sinks v ++ ((fun t => lastNodeIndex nWifis (u32 t))
                            <$> seqZ 0 (nWifis * nStas)))
           (v_schedule v ++
              mjoin (replicate (Z.to_nat (nWifis * nStas)) echo_pair_schedule))
           (v_simulator v)).
Proof.
  unfold configure_applications.
  destruct nStas_u32 as [Hs0 _].
  eapply hoare_conseq;
    [| | apply (hoare_for
                  (fun i jk w =>
                     jk = (u32 (i * nStas), u32 (2 * ((i + 1) / 2) - 2)) /\
                     view_of w =
                       mkView (v_count v) (v_setbases v)
                         (v_sources v ++ ((fun i => firstNodeIndex nWifis (2 * (i / 2)))
                                            <$> seqZ 0 i))
                         (v_sinks v ++ ((fun t => lastNodeIndex nWifis (u32 t))
                                          <$> seqZ 0 (i * nStas)))
                         (v_schedule v ++
                            mjoin (replicate (Z.to_nat (i * nStas)) echo_pair_schedule))
                         (v_simulator v)))].
  - intros w Hw. cbn beta. split; [reflexivity |].
    rewrite Hw. simpl. rewrite !app_nil_r. destruct v; reflexivity.
  - intros jk w [_ Hw]. exact Hw.
  - exact nWifis_u32.
  - exact fuel_nWifis.
  - intros i jk Hi. cbn beta. apply hoare_pure. intros ->.
    eapply hoare_conseq; [| | apply (echo_cell_spec i); [exact Hi | reflexivity]].
    + intros w Hw. exact Hw.
    + intros jk w [-> Hw]. cbn beta. split; [reflexivity |].
      rewrite Hw. f_equal.
      * rewrite seqZ_snoc, fmap_app by lia. rewrite <- app_assoc. reflexivity.
      * replace ((i + 1) * nStas) with (i * nStas + nStas) by lia.
        rewrite seqZ_app, fmap_app by nia. rewrite <- app_assoc. reflexivity.
      * replace ((i + 1) * nStas) with (i * nStas + nStas) by lia.
        rewrite replicate_join_add by nia. rewrite <- app_assoc. reflexivity.
Qed.
End edgecloud_applications.

(** ** edgecloud_Stream2: the whole program *)

Lemma edgecloud_configure_tracing_spec v :
  hoare (fun w => view_of w = v) edgecloud_Stream2.configure_tracing
        (fun _ w => view_of w = v).
Proof.
  unfold edgecloud_Stream2.configure_tracing. repeat hemit.
  hlast hoare_emit. intros ? w Hw. exact Hw.
Qed.

Lemma edgecloud_run_simulation_spec v :
  hoare (fun w => view_of w = v) edgecloud_Stream2.run_simulation
        (fun _ w =>
           view_of w = mkView (v_count v) (v_setbases v) (v_sources v) (v_sinks v)
                         (v_schedule v)
                         (v_simulator v ++
                            [EvSimulatorStop None; EvSimulatorRun; EvSimulatorDestroy]) /\
           exists pre, log w =
                         pre ++ [EvSimulatorStop None; EvSimulatorRun; EvSimulatorDestroy]).
Proof.
  intros w <-. eexists tt, _. split; [reflexivity |]. split.
  - rewrite !view_of_emit. simpl. rewrite <- !app_assoc. reflexivity.
  - exists (log w). simpl. rewrite <- !app_assoc. reflexivity.
Qed.

(** Everything the claims need to know about a run of edgecloud_Stream2, for
    all parameter values: it returns 0, creates [nWifis * (2 + nStas)] nodes,
    and leaves the observations below. *)
Lemma edgecloud_main_spec (fuel : nat) (p : edgecloud_Stream2.params) :
  let nWifis := edgecloud_Stream2.nWifis p in
  let nStas := edgecloud_Stream2.nStas p in
  is_u32 nWifis -> is_u32 nStas ->
  nWifis < Z.of_nat fuel -> nStas + 1 < Z.of_nat fuel ->
  exists w,
    edgecloud_Stream2.main fuel p empty_world = Done 0 w /\
    view_of w =
      mkView (nWifis * (2 + nStas)) address_plan
        ((fun i => edgecloud_Stream2.firstNodeIndex nWifis (2 * (i / 2)))
           <$> seqZ 0 nWifis)
        ((fun t => edgecloud_Stream2.lastNodeIndex nWifis (u32 t))
           <$> seqZ 0 (nWifis * nStas))
        (mjoin (replicate (Z.to_nat (nWifis * nStas)) echo_pair_schedule))
        [EvSimulatorStop None; EvSimulatorRun; EvSimulatorDestroy] /\
    exists pre, log w =
                  pre ++ [EvSimulatorStop None; EvSimulatorRun; EvSimulatorDestroy].
Proof.
  intros nWifis nStas Hw Hs Hfw Hfs.
  assert (hoare (fun w => view_of w = mkView 0 [] [] [] [] [])
            (edgecloud_Stream2.main fuel p)
            (fun a w =>
               a = 0 /\
               view_of w =
                 mkView (nWifis * (2 + nStas)) address_plan
                   ((fun i => edgecloud_Stream2.firstNodeIndex nWifis (2 * (i / 2)))
                      <$> seqZ 0 nWifis)
                   ((fun t => edgecloud_Stream2.lastNodeIndex nWifis (u32 t))
                      <$> seqZ 0 (nWifis * nStas))
                   (mjoin (replicate (Z.to_nat (nWifis * nStas)) echo_pair_schedule))
                   [EvSimulatorStop None; EvSimulatorRun; EvSimulatorDestroy] /\
               exists pre, log w =
                  pre ++ [EvSimulatorStop None; EvSimulatorRun; EvSimulatorDestroy]))
    as Hmain.
  { unfold edgecloud_Stream2.main. fold nWifis nStas.
    repeat hemit.
    hstep (construct_backbone_spec nWifis Hw).
    hstep (construct_p2p_spec fuel nWifis Hw Hfw); [eassumption |].
    hstep (construct_mobile_spec fuel nWifis nStas Hw Hs Hfw Hfs); [eassumption |].
    hstep (configure_applications_spec fuel nWifis nStas Hw Hs Hfw Hfs);
      [hnorm; lia |].
    hstep edgecloud_configure_tracing_spec.
    hstep edgecloud_run_simulation_spec.
    intros w [Hv Hpre]. exists 0, w. split; [reflexivity |].
    split; [reflexivity |]. split; [| exact Hpre].
    rewrite Hv. simpl. f_equal. lia. }
  destruct (Hmain empty_world eq_refl) as (a & w & Hrun & -> & Hv & Hpre).
  exists w. auto.
Qed.

(** ** wifi_p2p: the construction sections *)

Section wifi_construction.
Import wifi_p2p.
Variable fuel : nat.
Variables backboneNodes infraNodes : Z.
Hypothesis backboneNodes_u32 : is_u32 backboneNodes.
Hypothesis infraNodes_u32 : is_u32 infraNodes.
Hypothesis fuel_backboneNodes : backboneNodes < Z.of_nat fuel.
Hypothesis fuel_infraNodes : infraNodes + 1 < Z.of_nat fuel.

Lemma wifi_construct_backbone_spec v :
  hoare (fun w => view_of w = v) (construct_backbone backboneNodes)
    (fun c w => length c = Z.to_nat backboneNodes /\
                view_of w = mkView (v_count v + backboneNodes)
                              (v_setbases v ++ [("192.168.0.0", "255.255.255.0")])
                              (v_sources v) (v_sinks v) (v_schedule v)
                              (v_simulator v)).
Proof.
  destruct backboneNodes_u32 as [H0 _]. unfold construct_backbone.
  hstep hoare_Create; [exact H0 |].
  repeat hemit.
  intros w Hw. eexists _, w. split; [reflexivity |]. split; assumption.
Qed.

Variable backbone : list Node.
Hypothesis backbone_length : length backbone = Z.to_nat backboneNodes.

Lemma lan_network_spec i v :
  0 <= i < backboneNodes ->
  hoare (fun w => view_of w = v) (lan_network fuel backbone i tt)
    (fun _ w => view_of w = mkView (v_count v + 1) (v_setbases v) (v_sources v)
                              (v_sinks v) (v_schedule v) (v_simulator v)).
Proof.
  intros Hi. unfold lan_network.
  hstep hoare_Create; [lia |].
  hstep hoare_Get; [lia |].
  repeat hemit.
  hstep hoare_for_silent;
    [apply GetN_u32 | pose proof (GetN_le a); lia | reflexivity |].
  hstep hoare_Get; [lia |].
  repeat hemit.
  hlast hoare_emit. intros ? w Hw. exact Hw.
Qed.

Lemma construct_lans_spec v :
  hoare (fun w => view_of w = v) (construct_lans fuel backboneNodes backbone)
    (fun _ w => view_of w = mkView (v_count v + backboneNodes)
                              (v_setbases v ++ [("172.16.0.0", "255.255.255.0")])
                              (v_sources v) (v_sinks v) (v_schedule v)
                              (v_simulator v)).
Proof.
  unfold construct_lans. hemit.
  eapply hoare_conseq;
    [| | apply (hoare_for
                  (fun i _ w => view_of w =
                     mkView (v_count v + i)
                       (v_setbases v ++ [("172.16.0.0", "255.255.255.0")])
                       (v_sources v) (v_sinks v) (v_schedule v) (v_simulator v)))].
  - intros w Hw. cbn beta. rewrite Hw. f_equal. lia.
  - intros ? w Hw. exact Hw.
  - exact backboneNodes_u32.
  - exact fuel_backboneNodes.
  - intros i [] Hi. eapply hoare_conseq; [| | apply lan_network_spec; exact Hi].
    + intros w Hw. exact Hw.
    + intros ? w Hw. cbn beta in *. rewrite Hw. hnorm. f_equal. lia.
Qed.

Lemma wifi_mobile_network_spec i v :
  0 <= i < backboneNodes ->
  hoare (fun w => view_of w = v) (mobile_network fuel infraNodes backbone i tt)
    (fun _ w => view_of w = mkView (v_count v + infraNodes) (v_setbases v)
                              (v_sources v) (v_sinks v) (v_schedule v)
                              (v_simulator v)).
Proof.
  intros Hi. destruct infraNodes_u32 as [Hs0 Hs]. unfold mobile_network.
  hstep hoare_Create; [lia |].
  hstep hoare_Get; [lia |].
  repeat hemit.
  hstep hoare_Get; [lia |].
  repeat hemit.
  hstep hoare_for_silent;
    [apply GetN_u32
    | pose proof (GetN_le (a0 :: a)); simpl length in *; lia
    | reflexivity |].
  hstep hoare_Get; [lia |].
  repeat hemit.
  hlast hoare_emit. intros ? w Hw. exact Hw.
Qed.

Lemma wifi_construct_mobile_spec v :
  hoare (fun w => view_of w = v)
    (construct_mobile fuel backboneNodes infraNodes backbone)
    (fun _ w => view_of w = mkView (v_count v + backboneNodes * infraNodes)
                              (v_setbases v ++ [("10.0.0.0", "255.255.255.0")])
                              (v_sources v) (v_sinks v) (v_schedule v)
                              (v_simulator v)).
Proof.
  unfold construct_mobile. hemit.
  eapply hoare_bind.
  - eapply hoare_conseq;
      [| | apply (hoare_for
                    (fun i _ w => view_of w =
                       mkView (v_count v + i * infraNodes)
                         (v_setbases v ++ [("10.0.0.0", "255.255.255.0")])
                         (v_sources v) (v_sinks v) (v_schedule v) (v_simulator v)))].
    + intros w Hw. cbn beta. rewrite Hw. f_equal. lia.
    + intros ? w Hw. exact Hw.
    + exact backboneNodes_u32.
    + exact fuel_backboneNodes.
    + intros i [] Hi.
      eapply hoare_conseq; [| | apply wifi_mobile_network_spec; exact Hi].
      * intros w Hw. exact Hw.
      * intros ? w Hw. cbn beta in *. rewrite Hw. hnorm. f_equal. lia.
  - intros ?. hlast hoare_emit. intros ? w Hw. exact Hw.
Qed.
End wifi_construction.

(** ** wifi_p2p: the application section and the whole program *)

Lemma bind_run {A B : Type} (c : M A) (f : A -> M B) w a w' :
  c w = Done a w' -> (c ≫= f) w = f a w'.
Proof. intros E. unfold mbind, M_bind. rewrite E. reflexivity. Qed.

Lemma bind_fault {A B : Type} (c : M A) (f : A -> M B) w e w' :
  c w = Fault e w' -> (c ≫= f) w = Fault e w'.
Proof. intros E. unfold mbind, M_bind. rewrite E. reflexivity. Qed.

Lemma GetNode_fault x n w :
  0 <= n -> Z.of_nat (length (nodes w)) <= n ->
  GetNode x n w =
  Fault (NodeIndexOutOfRange n) (mkWorld (nodes w) (log w ++ [EvGetNode x n])).
Proof.
  intros H0 Hn. unfold GetNode.
  rewrite lookup_ge_None_2 by lia. reflexivity.
Qed.

Lemma GetNode_done x n w :
  0 <= n < Z.of_nat (length (nodes w)) ->
  exists nd, nodes w !! Z.to_nat n = Some nd /\
    GetNode x n w = Done nd (mkWorld (nodes w) (log w ++ [EvGetNode x n])).
Proof.
  intros Hn. unfold GetNode.
  destruct (lookup_lt_is_Some_2 (nodes w) (Z.to_nat n)) as [nd E]; [lia |].
  exists nd. rewrite E. split; reflexivity.
Qed.

Lemma hoare_bind_run {A B : Type} (P : world -> Prop) (c : M A)
    (Q : A -> world -> Prop) (f : A -> M B) w :
  hoare P c Q -> P w -> exists a w', Q a w' /\ (c ≫= f) w = f a w'.
Proof.
  intros Hc Hw. destruct (Hc w Hw) as (a & w' & E & HQ).
  exists a, w'. split; [exact HQ | apply bind_run, E].
Qed.

(** Run the first command of the program in the goal by a triple whose
    precondition is the known view of the current world. *)
Tactic Notation "hrun" constr(spec) "as" ident(a) ident(w') ident(HQ) :=
  match goal with
  | Hv : view_of ?w = _ |- context [mbind ?f ?c ?w] =>
      let E := fresh "E" in
      destruct (hoare_bind_run _ c _ f w spec Hv) as (a & w' & HQ & E);
      rewrite E; clear E Hv; hnorm_in HQ; hnorm
  end.

Lemma wifi_main_prefix (fuel : nat) (p : wifi_p2p.params) :
  let bb := wifi_p2p.backboneNodes p in
  let infra := wifi_p2p.infraNodes p in
  is_u32 bb -> is_u32 infra ->
  bb < Z.of_nat fuel -> infra + 1 < Z.of_nat fuel ->
  exists backbone w,
    view_of w = mkView (bb * (2 + infra)) address_plan [] [] [] [] /\
    wifi_p2p.main fuel p empty_world =
      (appSink ← wifi_p2p.configure_applications bb (wifi_p2p.lanNodes p);
       _ ← wifi_p2p.configure_tracing backbone appSink;
       _ ← wifi_p2p.run_simulation;
       mret 0) w.
Proof.
  intros bb infra Hb Hi Hfb Hfi. unfold wifi_p2p.main. fold bb infra.
  assert (view_of empty_world = mkView 0 [] [] [] [] []) as Hv by reflexivity.
  hrun (hoare_emit (mkView 0 [] [] [] [] []) (EvSetResolution "NS")) as u1 w1 Hv1.
  hrun (hoare_emit (mkView 0 [] [] [] [] [])
          (EvLogComponentEnable "UdpEchoClientApplication")) as u2 w2 Hv2.
  hrun (hoare_emit (mkView 0 [] [] [] [] [])
          (EvLogComponentEnable "UdpEchoServerApplication")) as u3 w3 Hv3.
  hrun (wifi_construct_backbone_spec bb Hb (mkView 0 [] [] [] [] []))
    as backbone w4 Hv4.
  destruct Hv4 as [Hlen Hv4].
  hrun (construct_lans_spec fuel bb Hb Hfb backbone Hlen
          (mkView (0 + bb) ([] ++ [("192.168.0.0", "255.255.255.0")]) [] [] [] []))
    as u5 w5 Hv5.
  hrun (wifi_construct_mobile_spec fuel bb infra Hb Hi Hfb Hfi backbone Hlen
          (mkView (0 + bb + bb)
             (([] ++ [("192.168.0.0", "255.255.255.0")]) ++
                [("172.16.0.0", "255.255.255.0")]) [] [] [] []))
    as u6 w6 Hv6.
  exists backbone, w6. split; [| reflexivity].
  rewrite Hv6. unfold address_plan. simpl. f_equal. lia.
Qed.

Lemma wifi_configure_applications_spec bb lan v :
  0 <= wifi_p2p.firstNodeIndex bb < v_count v ->
  0 <= wifi_p2p.lastNodeIndex bb lan < v_count v ->
  hoare (fun w => view_of w = v) (wifi_p2p.configure_applications bb lan)
    (fun _ w =>
       view_of w = mkView (v_count v) (v_setbases v)
                     (v_sources v ++ [wifi_p2p.firstNodeIndex bb])
                     (v_sinks v ++ [wifi_p2p.lastNodeIndex bb lan])
                     (v_schedule v ++ wifi_schedule) (v_simulator v)).
Proof.
  intros Hf Hl. unfold wifi_p2p.configure_applications.
  hstep hoare_GetNode; [exact Hf |].
  hstep hoare_GetNode; [exact Hl |].
  hstep hoare_Install. subst.
  repeat hemit.
  hstep hoare_Install. subst.
  repeat hemit.
  intros w Hw. eexists _, w. split; [reflexivity |].
  rewrite Hw. unfold wifi_schedule. rewrite <- !app_assoc. reflexivity.
Qed.

Lemma wifi_configure_tracing_spec backbone appSink v :
  hoare (fun w => view_of w = v) (wifi_p2p.configure_tracing backbone appSink)
        (fun _ w => view_of w = v).
Proof.
  unfold wifi_p2p.configure_tracing. repeat hemit.
  hlast hoare_emit. intros ? w Hw. exact Hw.
Qed.

Lemma wifi_run_simulation_spec v :
  hoare (fun w => view_of w = v) wifi_p2p.run_simulation
        (fun _ w =>
           view_of w = mkView (v_count v) (v_setbases v) (v_sources v) (v_sinks v)
                         (v_schedule v)
                         (v_simulator v ++
                            [EvSimulatorStop (Some (Seconds 10.0)); EvSimulatorRun;
                             EvSimulatorDestroy]) /\
           exists pre, log w =
                         pre ++ [EvSimulatorStop (Some (Seconds 10.0)); EvSimulatorRun;
                                 EvSimulatorDestroy]).
Proof.
  intros w <-. eexists tt, _. split; [reflexivity |]. split.
  - rewrite !view_of_emit. simpl. rewrite <- !app_assoc. reflexivity.
  - exists (log w). simpl. rewrite <- !app_assoc. reflexivity.
Qed.

(** Everything the claims need to know about a run of wifi_p2p, for all
    parameter values.  With [N] nodes created, the run stops at the first
    node lookup whose index is not below [N]; otherwise it returns 0. *)
Lemma wifi_main_spec (fuel : nat) (p : wifi_p2p.params) :
  let bb := wifi_p2p.backboneNodes p in
  let infra := wifi_p2p.infraNodes p in
  let N := bb * (2 + infra) in
  let f := wifi_p2p.firstNodeIndex bb in
  let l := wifi_p2p.lastNodeIndex bb (wifi_p2p.lanNodes p) in
  is_u32 bb -> is_u32 infra ->
  bb < Z.of_nat fuel -> infra + 1 < Z.of_nat fuel ->
  (N <= f /\
   exists w, wifi_p2p.main fuel p empty_world = Fault (NodeIndexOutOfRange f) w /\
             view_of w = mkView N address_plan [f] [] [] []) \/
  (f < N <= l /\
   exists w, wifi_p2p.main fuel p empty_world = Fault (NodeIndexOutOfRange l) w /\
             view_of w = mkView N address_plan [f] [l] [] []) \/
  (f < N /\ l < N /\
   exists w, wifi_p2p.main fuel p empty_world = Done 0 w /\
             view_of w =
               mkView N address_plan [f] [l] wifi_schedule
                 [EvSimulatorStop (Some (Seconds 10.0)); EvSimulatorRun;
                  EvSimulatorDestroy] /\
             exists pre, log w =
                           pre ++ [EvSimulatorStop (Some (Seconds 10.0));
                                   EvSimulatorRun; EvSimulatorDestroy]).
Proof.
  intros bb infra N f l Hb Hi Hfb Hfi.
  destruct (wifi_main_prefix fuel p Hb Hi Hfb Hfi) as (backbone & w & Hv & ->).
  fold bb infra N in Hv. fold bb.
  assert (Z.of_nat (length (nodes w)) = N) as Hcount
    by exact (f_equal v_count Hv).
  pose proof (u32_range (bb + 2)) as [Hf0 _]. fold (wifi_p2p.firstNodeIndex bb) in Hf0.
  fold f in Hf0.
  assert (0 <= l) as Hl0 by apply u32_range.
  destruct (Z_lt_ge_dec f N) as [Hf | Hf].
  - destruct (Z_lt_ge_dec l N) as [Hl | Hl].
    + right. right. split; [exact Hf |]. split; [exact Hl |].
      hrun (wifi_configure_applications_spec bb (wifi_p2p.lanNodes p)
              (mkView N address_plan [] [] [] [])
              (conj Hf0 Hf) (conj Hl0 Hl)) as appSink w1 Hv1.
      hrun (wifi_configure_tracing_spec backbone appSink
              (mkView N address_plan ([] ++ [f]) ([] ++ [l]) ([] ++ wifi_schedule) []))
        as u2 w2 Hv2.
      hrun (wifi_run_simulation_spec
              (mkView N address_plan ([] ++ [f]) ([] ++ [l]) ([] ++ wifi_schedule) []))
        as u3 w3 Hv3.
      destruct Hv3 as [Hv3 Hpre].
      exists w3. split; [reflexivity |]. split; [exact Hv3 | exact Hpre].
    + right. left. split; [lia |].
      destruct (GetNode_done appSource f w) as (nd & _ & E1); [lia |].
      eexists. split.
      * apply bind_fault. unfold wifi_p2p.configure_applications.
        fold f l. rewrite (bind_run _ _ _ _ _ E1).
        apply bind_fault. apply GetNode_fault; [exact Hl0 | simpl; lia].
      * rewrite !view_of_emit, Hv. reflexivity.
  - left. split; [lia |].
    eexists. split.
    + apply bind_fault. unfold wifi_p2p.configure_applications. fold f.
      apply bind_fault. apply GetNode_fault; [exact Hf0 | lia].
    + rewrite view_of_emit, Hv. reflexivity.
Qed.

(** ** Fuel only decides whether a run is cut short *)

Lemma refines_refl {A : Type} (o : outcome A) : refines o o.
Proof. right. reflexivity. Qed.

Lemma bind_mono {A B : Type} (c c' : M A) (k k' : A -> M B) w :
  refines (c w) (c' w) ->
  (forall a w1, refines (k a w1) (k' a w1)) ->
  refines ((c ≫= k) w) ((c' ≫= k') w).
Proof.
  intros [Hc | Hc] Hk; unfold mbind, M_bind.
  - left. rewrite Hc. reflexivity.
  - rewrite <- Hc. destruct (c w) as [a w1 | e w1 |].
    + apply Hk.
    + right. reflexivity.
    + left. reflexivity.
Qed.

Lemma for_u32_mono {L : Type} (body body' : Z -> L -> M L) :
  (forall i l w, refines (body i l w) (body' i l w)) ->
  forall (fuel fuel' : nat) i bound l w,
    (fuel <= fuel')%nat ->
    refines (for_u32 fuel i bound body l w) (for_u32 fuel' i bound body' l w).
Proof.
  intros Hbody fuel. induction fuel as [| fuel IH]; intros fuel' i bound l w Hle.
  - left. reflexivity.
  - destruct fuel' as [| fuel']; [lia |]. simpl.
    destruct (i <? bound).
    + apply bind_mono; [apply Hbody |].
      intros l' w1. apply IH. lia.
    + apply refines_refl.
Qed.

Ltac mono_steps Hle :=
  repeat first
    [ apply refines_refl
    | apply for_u32_mono; [intros ? ? ? | exact Hle]
    | apply bind_mono; [| intros ? ?] ].

Lemma edgecloud_main_mono (fuel fuel' : nat) p w :
  (fuel <= fuel')%nat ->
  refines (edgecloud_Stream2.main fuel p w) (edgecloud_Stream2.main fuel' p w).
Proof.
  intros Hle.
  unfold edgecloud_Stream2.main, edgecloud_Stream2.construct_p2p,
    edgecloud_Stream2.construct_mobile, edgecloud_Stream2.configure_applications.
  mono_steps Hle.
  unfold edgecloud_Stream2.echo_cell. destruct l as [j k]. mono_steps Hle.
Qed.

Lemma wifi_main_mono (fuel fuel' : nat) p w :
  (fuel <= fuel')%nat ->
  refines (wifi_p2p.main fuel p w) (wifi_p2p.main fuel' p w).
Proof.
  intros Hle.
  unfold wifi_p2p.main, wifi_p2p.construct_lans, wifi_p2p.construct_mobile.
  mono_steps Hle.
Qed.

Lemma refines_done {A : Type} (o o' : outcome A) a w :
  refines o o' -> o = Done a w -> o' = Done a w.
Proof. intros [-> | ->] H; [discriminate | exact H]. Qed.

Lemma refines_fault {A : Type} (o o' : outcome A) e w :
  refines o o' -> o = Fault e w -> o' = Fault e w.
Proof. intros [-> | ->] H; [discriminate | exact H]. Qed.

(** * The claims *)

(** C1.  With the default parameters (nWifis = 6, nStas = 4) the application
    loop of edgecloud_Stream2 makes exactly nWifis x nStas = 24 calls of
    echoServer.Install, one per inner iteration; the run returns 0 for every
    fuel that lets the loops finish. *)
Theorem C1_default_echo_server_count (fuel : nat) :
  (7 <= fuel)%nat ->
  exists w,
    edgecloud_Stream2.main fuel edgecloud_Stream2.default_params empty_world
      = Done 0 w /\
    edgecloud_Stream2.nWifis edgecloud_Stream2.default_params = 6 /\
    edgecloud_Stream2.nStas edgecloud_Stream2.default_params = 4 /\
    Z.of_nat (length (installed_on UdpEchoServer (log w))) =
      edgecloud_Stream2.nWifis edgecloud_Stream2.default_params *
      edgecloud_Stream2.nStas edgecloud_Stream2.default_params.
Proof.
  intros Hle. eexists. split.
  - eapply refines_done; [apply (edgecloud_main_mono 7), Hle |].
    vm_compute. reflexivity.
  - vm_compute. repeat split; reflexivity.
Qed.

Lemma C1_default_echo_server_count_witness :
  (7 <= 8)%nat /\
  exists w,
    edgecloud_Stream2.main 8 edgecloud_Stream2.default_params empty_world
      = Done 0 w /\
    edgecloud_Stream2.nWifis edgecloud_Stream2.default_params = 6 /\
    edgecloud_Stream2.nStas edgecloud_Stream2.default_params = 4 /\
    Z.of_nat (length (installed_on UdpEchoServer (log w))) =
      edgecloud_Stream2.nWifis edgecloud_Stream2.default_params *
      edgecloud_Stream2.nStas edgecloud_Stream2.default_params.
Proof.
  split; [lia | apply (C1_default_echo_server_count 8); lia].
Defined.

(** C2.  wifi_p2p looks up node backboneNodes + 2 without checking it against
    the created node set: whenever that index is not below the number of
    nodes created, backboneNodes * (2 + infraNodes), the lookup is still made
    and falls outside the node list.  The parameters (1, 1, 1) are such a
    combination: index 3 with 3 nodes. *)
Theorem C2_wifi_p2p_source_lookup_out_of_range (fuel : nat) (p : wifi_p2p.params) :
  is_u32 (wifi_p2p.backboneNodes p) ->
  is_u32 (wifi_p2p.infraNodes p) ->
  is_u32 (wifi_p2p.lanNodes p) ->
  wifi_p2p.backboneNodes p < Z.of_nat fuel ->
  wifi_p2p.infraNodes p + 1 < Z.of_nat fuel ->
  wifi_p2p.backboneNodes p * (2 + wifi_p2p.infraNodes p)
    <= wifi_p2p.firstNodeIndex (wifi_p2p.backboneNodes p) ->
  exists w,
    wifi_p2p.main fuel p empty_world =
      Fault (NodeIndexOutOfRange (wifi_p2p.firstNodeIndex (wifi_p2p.backboneNodes p))) w /\
    Z.of_nat (length (nodes w)) =
      wifi_p2p.backboneNodes p * (2 + wifi_p2p.infraNodes p) /\
    lookups appSource (log w) = [wifi_p2p.firstNodeIndex (wifi_p2p.backboneNodes p)] /\
    nodes w !! Z.to_nat (wifi_p2p.firstNodeIndex (wifi_p2p.backboneNodes p)) = None.
Proof.
  intros Hb Hi _ Hfb Hfi Hout.
  destruct (wifi_main_spec fuel p Hb Hi Hfb Hfi)
    as [(_ & w & Hrun & Hv) | [([Hlt _] & _) | (Hlt & _)]]; [| lia | lia].
  exists w. split; [exact Hrun |].
  pose proof (f_equal v_count Hv) as Hcount.
  pose proof (f_equal v_sources Hv) as Hsrc.
  cbn [view_of v_count v_sources] in Hcount, Hsrc.
  split; [exact Hcount |]. split; [exact Hsrc |].
  apply lookup_ge_None_2.
  pose proof (u32_range (wifi_p2p.backboneNodes p + 2)) as [H0 _].
  unfold wifi_p2p.firstNodeIndex in *. lia.
Qed.

Lemma C2_wifi_p2p_source_lookup_out_of_range_witness :
  is_u32 1 /\ is_u32 1 /\ is_u32 1 /\
  1 < Z.of_nat 3 /\ 1 + 1 < Z.of_nat 3 /\
  1 * (2 + 1) <= wifi_p2p.firstNodeIndex 1 /\
  exists w,
    wifi_p2p.main 3 (wifi_p2p.mkParams 1 1 1) empty_world =
      Fault (NodeIndexOutOfRange 3) w /\
    Z.of_nat (length (nodes w)) = 3 /\
    lookups appSource (log w) = [1 + 2] /\
    nodes w !! 3%nat = None.
Proof.
  assert (is_u32 1) as H1 by (unfold is_u32, uint32_modulus; lia).
  assert (1 * (2 + 1) <= wifi_p2p.firstNodeIndex 1) as Hout
    by (vm_compute; discriminate).
  assert (1 < Z.of_nat 3) as Hfb by lia.
  assert (1 + 1 < Z.of_nat 3) as Hfi by lia.
  repeat split; try apply H1; try exact Hfb; try exact Hfi; try exact Hout.
  exact (C2_wifi_p2p_source_lookup_out_of_range 3 (wifi_p2p.mkParams 1 1 1)
           H1 H1 H1 Hfb Hfi Hout).
Defined.

(** C10.  With the default parameters (3, 2, 1) wifi_p2p creates nodes 0..2
    in the backbone container, nodes 3..5 as the single wired node of each
    backbone node, and nodes 6..11 as the stations; the echo server goes on
    node backboneNodes + 2 = 5, the wired node of the last backbone node, and
    the echo client on node backboneNodes + backboneNodes * lanNodes = 6, the
    first station of the first cell. *)
Theorem C10_wifi_p2p_default_endpoints (fuel : nat) :
  (4 <= fuel)%nat ->
  exists w,
    wifi_p2p.main fuel wifi_p2p.default_params empty_world = Done 0 w /\
    wifi_p2p.default_params = wifi_p2p.mkParams 3 2 1 /\
    node_id <$> nodes w = [0; 1; 2; 3; 4; 5; 6; 7; 8; 9; 10; 11] /\
    node_role <$> nodes w =
      [Backbone; Backbone; Backbone; Wired 0; Wired 1; Wired 2;
       Station 0; Station 0; Station 1; Station 1; Station 2; Station 2] /\
    wifi_p2p.firstNodeIndex 3 = 3 + 2 /\
    wifi_p2p.lastNodeIndex 3 1 = 3 + 3 * 1 /\
    lookups appSource (log w) = [5] /\
    lookups appSink (log w) = [6] /\
    installed_on UdpEchoServer (log w) = [5] /\
    installed_on UdpEchoClient (log w) = [6] /\
    nodes w !! 5%nat = Some (mkNode 5 (Wired 2) 0) /\
    nodes w !! 6%nat = Some (mkNode 6 (Station 0) 0).
Proof.
  intros Hle. eexists. split.
  - eapply refines_done; [apply (wifi_main_mono 4), Hle |].
    vm_compute. reflexivity.
  - vm_compute. repeat split; reflexivity.
Qed.

Lemma C10_wifi_p2p_default_endpoints_witness :
  (4 <= 4)%nat /\
  exists w,
    wifi_p2p.main 4 wifi_p2p.default_params empty_world = Done 0 w /\
    wifi_p2p.default_params = wifi_p2p.mkParams 3 2 1 /\
    node_id <$> nodes w = [0; 1; 2; 3; 4; 5; 6; 7; 8; 9; 10; 11] /\
    node_role <$> nodes w =
      [Backbone; Backbone; Backbone; Wired 0; Wired 1; Wired 2;
       Station 0; Station 0; Station 1; Station 1; Station 2; Station 2] /\
    wifi_p2p.firstNodeIndex 3 = 3 + 2 /\
    wifi_p2p.lastNodeIndex 3 1 = 3 + 3 * 1 /\
    lookups appSource (log w) = [5] /\
    lookups appSink (log w) = [6] /\
    installed_on UdpEchoServer (log w) = [5] /\
    installed_on UdpEchoClient (log w) = [6] /\
    nodes w !! 5%nat = Some (mkNode 5 (Wired 2) 0) /\
    nodes w !! 6%nat = Some (mkNode 6 (Station 0) 0).
Proof.
  split; [lia | apply (C10_wifi_p2p_default_endpoints 4); lia].
Defined.

Ltac ready :=
  unfold edgecloud_ready, wifi_ready, is_u32, uint32_modulus; cbn; lia.





(** C7.  A loop [for (uint32_t i = 0; i < bound; ++i)] runs its body exactly
    [bound] times and stops, for every [uint32_t] bound.  Every loop of the
    two programs has this form, with a bound computed from the parameters
    before the loop starts, so for every value of the parameters there is an
    amount of fuel, computed from the parameters alone, from which no run of
    either program is cut short: edgecloud_Stream2 returns, and wifi_p2p
    returns or stops at a node lookup of its loop-free application
    section. *)
Theorem C7_loops_terminate
    (pe : edgecloud_Stream2.params) (pw : wifi_p2p.params) :
  is_u32 (edgecloud_Stream2.nWifis pe) ->
  is_u32 (edgecloud_Stream2.nStas pe) ->
  is_u32 (wifi_p2p.backboneNodes pw) ->
  is_u32 (wifi_p2p.infraNodes pw) ->
  is_u32 (wifi_p2p.lanNodes pw) ->
  exists fuel0 : nat,
    forall fuel, (fuel0 <= fuel)%nat ->
      (forall bound w, is_u32 bound -> bound < Z.of_nat fuel ->
         for_u32 fuel 0 bound (fun _ count => mret (count + 1)) 0 w
           = Done bound w) /\
      (exists w, edgecloud_Stream2.main fuel pe empty_world = Done 0 w) /\
      (exists w, final_world (wifi_p2p.main fuel pw empty_world) = Some w).
Proof.
  intros He1 He2 Hw1 Hw2 _.
  exists (Z.to_nat (edgecloud_Stream2.nWifis pe + edgecloud_Stream2.nStas pe +
                    wifi_p2p.backboneNodes pw + wifi_p2p.infraNodes pw + 2)).
  intros fuel Hfuel.
  assert (edgecloud_Stream2.nWifis pe < Z.of_nat fuel /\
          edgecloud_Stream2.nStas pe + 1 < Z.of_nat fuel /\
          wifi_p2p.backboneNodes pw < Z.of_nat fuel /\
          wifi_p2p.infraNodes pw + 1 < Z.of_nat fuel) as (He3 & He4 & Hw4 & Hw5).
  { unfold is_u32 in *. lia. }
  split; [| split].
  - intros bound w Hb Hf.
    destruct (hoare_for (fun i count w' => count = i /\ w' = w) fuel bound
                (fun _ count => mret (count + 1)) 0 Hb Hf) with (w := w)
      as (count & w' & Hrun & -> & ->).
    + intros i count Hi w0 [-> ->]. exists (i + 1), w. auto.
    + auto.
    + exact Hrun.
  - destruct (edgecloud_main_spec fuel pe He1 He2 He3 He4) as (w & Hrun & _).
    exists w. exact Hrun.
  - destruct (wifi_main_spec fuel pw Hw1 Hw2 Hw4 Hw5)
      as [(_ & w & Hrun & _) | [(_ & w & Hrun & _) | (_ & _ & w & Hrun & _)]];
      exists w; rewrite Hrun; reflexivity.
Qed.

Lemma C7_loops_terminate_witness :
  is_u32 6 /\ is_u32 4 /\ is_u32 3 /\ is_u32 2 /\ is_u32 1 /\
  exists fuel0 : nat,
    forall fuel, (fuel0 <= fuel)%nat ->
      (forall bound w, is_u32 bound -> bound < Z.of_nat fuel ->
         for_u32 fuel 0 bound (fun _ count => mret (count + 1)) 0 w
           = Done bound w) /\
      (exists w, edgecloud_Stream2.main fuel edgecloud_Stream2.default_params
                   empty_world = Done 0 w) /\
      (exists w, final_world (wifi_p2p.main fuel wifi_p2p.default_params
                                empty_world) = Some w).
Proof.
  assert (is_u32 6) as H6 by (unfold is_u32, uint32_modulus; lia).
  assert (is_u32 4) as H4 by (unfold is_u32, uint32_modulus; lia).
  assert (is_u32 3) as H3 by (unfold is_u32, uint32_modulus; lia).
  assert (is_u32 2) as H2 by (unfold is_u32, uint32_modulus; lia).
  assert (is_u32 1) as H1 by (unfold is_u32, uint32_modulus; lia).
  repeat (split; [assumption |]).
  exact (C7_loops_terminate edgecloud_Stream2.default_params wifi_p2p.default_params
           H6 H4 H3 H2 H1).
Defined.

(** C9.  In edgecloud_Stream2, for every nWifis >= 1 and every nStas, the run
    creates nWifis * (2 + nStas) nodes and every index handed to
    NodeList::GetNode is below that count: a source index is at most
    nWifis + 2 * (i / 2) <= 2 * nWifis - 1 and a sink index is at most
    2 * nWifis + j <= nWifis * (2 + nStas) - 1. *)
Theorem C9_edgecloud_indices_in_range (fuel : nat) (p : edgecloud_Stream2.params) :
  edgecloud_ready fuel p ->
  1 <= edgecloud_Stream2.nWifis p ->
  exists w,
    edgecloud_Stream2.main fuel p empty_world = Done 0 w /\
    Z.of_nat (length (nodes w)) =
      edgecloud_Stream2.nWifis p * (2 + edgecloud_Stream2.nStas p) /\
    (forall x index, index ∈ lookups x (log w) ->
       0 <= index < Z.of_nat (length (nodes w))) /\
    (forall i, 0 <= i < edgecloud_Stream2.nWifis p ->
       edgecloud_Stream2.firstNodeIndex (edgecloud_Stream2.nWifis p) (2 * (i / 2))
         <= edgecloud_Stream2.nWifis p + 2 * (i / 2)
         <= 2 * edgecloud_Stream2.nWifis p - 1) /\
    (forall j, 0 <= j < edgecloud_Stream2.nWifis p * edgecloud_Stream2.nStas p ->
       edgecloud_Stream2.lastNodeIndex (edgecloud_Stream2.nWifis p) (u32 j)
         <= 2 * edgecloud_Stream2.nWifis p + j
         <= edgecloud_Stream2.nWifis p * (2 + edgecloud_Stream2.nStas p) - 1).
Proof.
  intros (He1 & He2 & He3 & He4) Hpos.
  destruct (edgecloud_main_spec fuel p He1 He2 He3 He4) as (w & Hrun & Hv & _).
  set (nWifis := edgecloud_Stream2.nWifis p) in *.
  set (nStas := edgecloud_Stream2.nStas p) in *.
  pose proof (f_equal v_count Hv) as Hcount.
  pose proof (f_equal v_sources Hv) as Hsrc.
  pose proof (f_equal v_sinks Hv) as Hsnk.
  cbn [view_of v_count v_sources v_sinks] in Hcount, Hsrc, Hsnk.
  exists w. split; [exact Hrun |]. split; [exact Hcount |]. split; [| split].
  - intros x index Hin. rewrite Hcount. destruct x.
    + rewrite Hsrc in Hin. apply list_elem_of_fmap in Hin as (i & -> & Hi).
      apply elem_of_seqZ in Hi. apply source_in_range; [exact He2 | lia].
    + rewrite Hsnk in Hin. apply list_elem_of_fmap in Hin as (t & -> & Ht).
      apply elem_of_seqZ in Ht. apply sink_in_range; [exact He1 | lia].
  - intros i Hi. unfold edgecloud_Stream2.firstNodeIndex. split.
    + apply u32_le. Z.div_mod_to_equations. lia.
    + Z.div_mod_to_equations. lia.
  - intros j Hj. rewrite lastNodeIndex_wrap. unfold edgecloud_Stream2.p2pNode. split.
    + etransitivity; [apply u32_le |]; lia.
    + lia.
Qed.

Lemma C9_edgecloud_indices_in_range_witness :
  edgecloud_ready 8 edgecloud_Stream2.default_params /\
  1 <= edgecloud_Stream2.nWifis edgecloud_Stream2.default_params /\
  exists w,
    edgecloud_Stream2.main 8 edgecloud_Stream2.default_params empty_world
      = Done 0 w /\
    Z.of_nat (length (nodes w)) = 6 * (2 + 4) /\
    (forall x index, index ∈ lookups x (log w) ->
       0 <= index < Z.of_nat (length (nodes w))) /\
    (forall i, 0 <= i < 6 ->
       edgecloud_Stream2.firstNodeIndex 6 (2 * (i / 2))
         <= 6 + 2 * (i / 2) <= 2 * 6 - 1) /\
    (forall j, 0 <= j < 6 * 4 ->
       edgecloud_Stream2.lastNodeIndex 6 (u32 j) <= 2 * 6 + j <= 6 * (2 + 4) - 1).
Proof.
  assert (edgecloud_ready 8 edgecloud_Stream2.default_params) as He by ready.
  assert (1 <= edgecloud_Stream2.nWifis edgecloud_Stream2.default_params) as Hpos
    by (cbn; lia).
  split; [exact He |]. split; [exact Hpos |].
  exact (C9_edgecloud_indices_in_range 8 _ He Hpos).
Defined.

(** Fuel for any loop over a [uint32_t] counter. *)
Lemma ample_fuel : exists fuel : nat, Z.of_nat fuel = uint32_modulus.
Proof. exists (Z.to_nat uint32_modulus). apply Z2Nat.id. discriminate. Qed.

Lemma head_fmap_seqZ {A : Type} (f : Z -> A) (n : Z) :
  0 < n -> head (f <$> seqZ 0 n) = Some (f 0).
Proof. intros Hn. rewrite seqZ_cons by lia. reflexivity. Qed.

Lemma last_fmap_seqZ {A : Type} (f : Z -> A) (n : Z) :
  0 < n -> last (f <$> seqZ 0 n) = Some (f (n - 1)).
Proof.
  intros Hn. replace n with (n - 1 + 1) at 1 by lia.
  rewrite seqZ_snoc, fmap_snoc, last_snoc by lia. reflexivity.
Qed.

(** The node lookups of a run of edgecloud_Stream2, for all parameters. *)
Lemma edgecloud_lookups (fuel : nat) (p : edgecloud_Stream2.params) :
  edgecloud_ready fuel p ->
  exists w,
    edgecloud_Stream2.main fuel p empty_world = Done 0 w /\
    lookups appSource (log w) =
      (fun i => edgecloud_Stream2.firstNodeIndex (edgecloud_Stream2.nWifis p)
                  (2 * (i / 2)))
        <$> seqZ 0 (edgecloud_Stream2.nWifis p) /\
    lookups appSink (log w) =
      (fun t => edgecloud_Stream2.lastNodeIndex (edgecloud_Stream2.nWifis p) (u32 t))
        <$> seqZ 0 (edgecloud_Stream2.nWifis p * edgecloud_Stream2.nStas p).
Proof.
  intros (He1 & He2 & He3 & He4).
  destruct (edgecloud_main_spec fuel p He1 He2 He3 He4) as (w & Hrun & Hv & _).
  exists w. split; [exact Hrun |].
  split; [exact (f_equal v_sources Hv) | exact (f_equal v_sinks Hv)].
Qed.

Lemma lookup_fmap_seqZ {A : Type} (f : Z -> A) (n i : Z) :
  0 <= i < n -> (f <$> seqZ 0 n) !! Z.to_nat i = Some (f i).
Proof.
  intros Hi. rewrite list_lookup_fmap.
  assert (seqZ 0 n !! Z.to_nat i = Some i) as -> by (apply lookup_seqZ; lia).
  reflexivity.
Qed.

(** C3, as amended.  At the inner iteration reached after [j] completed inner
    iterations (j = 0, 1, ..., nWifis * nStas - 1, in order) the sink index
    is (nWifis + nWifis * p2pNode + j) mod 2^32, with p2pNode = 1; it is
    exactly nWifis + nWifis * p2pNode + j whenever the nWifis * (2 + nStas)
    nodes of the topology number at most 2^32. *)
Theorem C3_sink_index_formula (fuel : nat) (p : edgecloud_Stream2.params) :
  edgecloud_ready fuel p ->
  exists w,
    edgecloud_Stream2.main fuel p empty_world = Done 0 w /\
    edgecloud_Stream2.p2pNode = 1 /\
    lookups appSink (log w) =
      (fun j => u32 (edgecloud_Stream2.nWifis p +
                     edgecloud_Stream2.nWifis p * edgecloud_Stream2.p2pNode + j))
        <$> seqZ 0 (edgecloud_Stream2.nWifis p * edgecloud_Stream2.nStas p) /\
    (edgecloud_Stream2.nWifis p * (2 + edgecloud_Stream2.nStas p) <= 2 ^ 32 ->
     lookups appSink (log w) =
       (fun j => edgecloud_Stream2.nWifis p +
                 edgecloud_Stream2.nWifis p * edgecloud_Stream2.p2pNode + j)
         <$> seqZ 0 (edgecloud_Stream2.nWifis p * edgecloud_Stream2.nStas p)).
Proof.
  intros (He1 & He2 & He3 & He4).
  destruct (edgecloud_main_spec fuel p He1 He2 He3 He4) as (w & Hrun & Hv & _).
  set (nWifis := edgecloud_Stream2.nWifis p) in *.
  set (nStas := edgecloud_Stream2.nStas p) in *.
  pose proof (f_equal v_sinks Hv) as Hsnk. cbn [view_of v_sinks] in Hsnk.
  assert (lookups appSink (log w) =
            (fun j => u32 (nWifis + nWifis * edgecloud_Stream2.p2pNode + j))
              <$> seqZ 0 (nWifis * nStas)) as Hwrap.
  { rewrite Hsnk. apply list_fmap_ext. intros _ t _. apply lastNodeIndex_wrap. }
  exists w. split; [exact Hrun |]. split; [reflexivity |].
  split; [exact Hwrap |].
  intros Hfit. rewrite Hwrap. apply list_fmap_ext. intros n t Ht.
  apply lookup_seqZ in Ht as [-> Hn].
  apply u32_small. destruct He1 as [H0 _].
  unfold is_u32, uint32_modulus, edgecloud_Stream2.p2pNode. lia.
Qed.

Lemma C3_sink_index_formula_witness :
  edgecloud_ready 8 edgecloud_Stream2.default_params /\
  exists w,
    edgecloud_Stream2.main 8 edgecloud_Stream2.default_params empty_world
      = Done 0 w /\
    edgecloud_Stream2.p2pNode = 1 /\
    lookups appSink (log w) =
      (fun j => u32 (6 + 6 * edgecloud_Stream2.p2pNode + j)) <$> seqZ 0 (6 * 4) /\
    (6 * (2 + 4) <= 2 ^ 32 ->
     lookups appSink (log w) =
       (fun j => 6 + 6 * edgecloud_Stream2.p2pNode + j) <$> seqZ 0 (6 * 4)).
Proof.
  assert (edgecloud_ready 8 edgecloud_Stream2.default_params) as He by ready.
  split; [exact He |].
  exact (C3_sink_index_formula 8 _ He).
Defined.

(** C3, as stated, fails for nWifis = 2^31, nStas = 1: at the first inner
    iteration (i = 0, m = 0, j = 0) the sink index is
    (2^31 + 2^31 * 1 + 0) mod 2^32 = 0, not 2^31 + 2^31 * 1 + 0 = 2^32. *)
Lemma C3_sink_index_counterexample :
  exists fuel w,
    edgecloud_Stream2.main fuel (edgecloud_Stream2.mkParams (2 ^ 31) 1) empty_world
      = Done 0 w /\
    head (lookups appSink (log w)) = Some 0 /\
    0 <> 2 ^ 31 + 2 ^ 31 * edgecloud_Stream2.p2pNode + 0.
Proof.
  destruct ample_fuel as [fuel Hfuel]. unfold uint32_modulus in Hfuel.
  exists fuel.
  destruct (edgecloud_lookups fuel (edgecloud_Stream2.mkParams (2 ^ 31) 1))
    as (w & Hrun & _ & Hsnk).
  - unfold edgecloud_ready, is_u32, uint32_modulus.
    cbn [edgecloud_Stream2.nWifis edgecloud_Stream2.nStas]. lia.
  - exists w. split; [exact Hrun |]. split.
    + rewrite Hsnk, head_fmap_seqZ
        by (cbn [edgecloud_Stream2.nWifis edgecloud_Stream2.nStas]; lia).
      reflexivity.
    + unfold edgecloud_Stream2.p2pNode. lia.
Qed.

(** C8, as amended.  The counter k starts at uint32_t (-2) = 2^32 - 2 and
    wraps to 0 at the first iteration, so at outer iteration i the source
    index is (nWifis + 2 * (i / 2)) mod 2^32; it is exactly
    nWifis + 2 * (i / 2) whenever nWifis <= 2^31.  Iterations 2t and 2t + 1
    use the same source node, and no node nWifis + o with o odd and
    o < nWifis is ever a source. *)
Theorem C8_source_index_formula (fuel : nat) (p : edgecloud_Stream2.params) :
  edgecloud_ready fuel p ->
  u32 (-2) = 2 ^ 32 - 2 /\
  u32 (u32 (-2) + 2) = 0 /\
  exists w,
    edgecloud_Stream2.main fuel p empty_world = Done 0 w /\
    lookups appSource (log w) =
      (fun i => u32 (edgecloud_Stream2.nWifis p + 2 * (i / 2)))
        <$> seqZ 0 (edgecloud_Stream2.nWifis p) /\
    (edgecloud_Stream2.nWifis p <= 2 ^ 31 ->
     lookups appSource (log w) =
       (fun i => edgecloud_Stream2.nWifis p + 2 * (i / 2))
         <$> seqZ 0 (edgecloud_Stream2.nWifis p)) /\
    (forall t, 0 <= t -> 2 * t + 1 < edgecloud_Stream2.nWifis p ->
       is_Some (lookups appSource (log w) !! Z.to_nat (2 * t)) /\
       lookups appSource (log w) !! Z.to_nat (2 * t) =
       lookups appSource (log w) !! Z.to_nat (2 * t + 1)) /\
    (forall index o, index ∈ lookups appSource (log w) ->
       0 <= o < edgecloud_Stream2.nWifis p ->
       index = edgecloud_Stream2.nWifis p + o -> o mod 2 = 0).
Proof.
  intros (He1 & He2 & He3 & He4).
  split; [reflexivity |]. split; [reflexivity |].
  destruct (edgecloud_main_spec fuel p He1 He2 He3 He4) as (w & Hrun & Hv & _).
  set (nWifis := edgecloud_Stream2.nWifis p) in *.
  pose proof (f_equal v_sources Hv) as Hsrc.
  cbn [view_of v_sources] in Hsrc.
  unfold edgecloud_Stream2.firstNodeIndex in Hsrc.
  exists w. split; [exact Hrun |]. split; [exact Hsrc |].
  destruct He1 as [H0 Hmax]. unfold uint32_modulus in Hmax.
  split; [| split].
  - intros Hfit. rewrite Hsrc. apply list_fmap_ext. intros n i Hi.
    apply lookup_seqZ in Hi as [-> Hn].
    apply u32_small. unfold is_u32, uint32_modulus.
    Z.div_mod_to_equations. lia.
  - intros t Ht Hlt. rewrite Hsrc.
    rewrite !lookup_fmap_seqZ by lia. split; [eexists; reflexivity |].
    do 3 f_equal. Z.div_mod_to_equations. lia.
  - intros index o Hin Ho Hidx. rewrite Hsrc in Hin.
    apply list_elem_of_fmap in Hin as (i & Hi & Hrange).
    apply elem_of_seqZ in Hrange.
    assert (0 <= 2 * (i / 2) <= i) as Hk by (Z.div_mod_to_equations; lia).
    destruct (u32_add_cases nWifis (2 * (i / 2))) as [[Heq _] | [Heq _]].
    + unfold is_u32, uint32_modulus. lia.
    + unfold is_u32, uint32_modulus. lia.
    + rewrite Heq in Hi. Z.div_mod_to_equations. lia.
    + rewrite Heq in Hi. unfold uint32_modulus in Hi. lia.
Qed.

Lemma C8_source_index_formula_witness :
  edgecloud_ready 8 edgecloud_Stream2.default_params /\
  u32 (-2) = 2 ^ 32 - 2 /\
  u32 (u32 (-2) + 2) = 0 /\
  exists w,
    edgecloud_Stream2.main 8 edgecloud_Stream2.default_params empty_world
      = Done 0 w /\
    lookups appSource (log w) = (fun i => u32 (6 + 2 * (i / 2))) <$> seqZ 0 6 /\
    (6 <= 2 ^ 31 ->
     lookups appSource (log w) = (fun i => 6 + 2 * (i / 2)) <$> seqZ 0 6) /\
    (forall t, 0 <= t -> 2 * t + 1 < 6 ->
       is_Some (lookups appSource (log w) !! Z.to_nat (2 * t)) /\
       lookups appSource (log w) !! Z.to_nat (2 * t) =
       lookups appSource (log w) !! Z.to_nat (2 * t + 1)) /\
    (forall index o, index ∈ lookups appSource (log w) ->
       0 <= o < 6 -> index = 6 + o -> o mod 2 = 0).
Proof.
  assert (edgecloud_ready 8 edgecloud_Stream2.default_params) as He by ready.
  split; [exact He |].
  exact (C8_source_index_formula 8 _ He).
Defined.

(** C8, as stated, fails for nWifis = 2^31 + 1, nStas = 0: at the last outer
    iteration, i = 2^31, the counter k is 2^31 and the source index is
    (2^31 + 1 + 2^31) mod 2^32 = 1, not nWifis + 2 * (i / 2) = 2^32 + 1. *)
Lemma C8_source_index_counterexample :
  exists fuel w,
    edgecloud_Stream2.main fuel (edgecloud_Stream2.mkParams (2 ^ 31 + 1) 0)
      empty_world = Done 0 w /\
    last (lookups appSource (log w)) = Some 1 /\
    1 <> (2 ^ 31 + 1) + 2 * (2 ^ 31 / 2).
Proof.
  destruct ample_fuel as [fuel Hfuel]. unfold uint32_modulus in Hfuel.
  exists fuel.
  destruct (edgecloud_lookups fuel (edgecloud_Stream2.mkParams (2 ^ 31 + 1) 0))
    as (w & Hrun & Hsrc & _).
  - unfold edgecloud_ready, is_u32, uint32_modulus.
    cbn [edgecloud_Stream2.nWifis edgecloud_Stream2.nStas]. lia.
  - exists w. split; [exact Hrun |]. split.
    + rewrite Hsrc, last_fmap_seqZ
        by (cbn [edgecloud_Stream2.nWifis edgecloud_Stream2.nStas]; lia).
      reflexivity.
    + Z.div_mod_to_equations. lia.
Qed.

(** * The complete run in closed form *)

(** ** Rules on the exact state *)

Lemma exact_emit L X e :
  hoare (fun w => w = mkWorld L X) (emit e) (fun _ w => w = mkWorld L (X ++ [e])).
Proof. intros w ->. exists tt. eexists. split; reflexivity. Qed.

Lemma exact_Get (c : list Node) i nd (P : world -> Prop) :
  c !! Z.to_nat i = Some nd ->
  hoare P (Get c i) (fun r w => r = nd /\ P w).
Proof.
  intros Hc w Hw. unfold Get. rewrite Hc.
  exists nd, w. split; [reflexivity | split; [reflexivity | exact Hw]].
Qed.

Lemma exact_GetNode L X x n nd :
  L !! Z.to_nat n = Some nd ->
  hoare (fun w => w = mkWorld L X) (GetNode x n)
        (fun r w => r = nd /\ w = mkWorld L (X ++ [EvGetNode x n])).
Proof.
  intros HL w ->. unfold GetNode. cbn [nodes log]. rewrite HL.
  exists nd. eexists. split; [reflexivity | split; reflexivity].
Qed.

Lemma exact_Install L X a :
  hoare (fun w => w = mkWorld L X) (Install a)
        (fun r w => r = a /\ w = mkWorld L (X ++ [EvInstallApp a])).
Proof. intros w ->. exists a. eexists. split; [reflexivity | split; reflexivity]. Qed.

Lemma exact_for_emit (fuel : nat) (bound : Z) (f : Z -> event) L X :
  is_u32 bound -> bound < Z.of_nat fuel ->
  hoare (fun w => w = mkWorld L X)
        (for_u32 fuel 0 bound (fun j _ => emit (f j)) tt)
        (fun _ w => w = mkWorld L (X ++ (f <$> seqZ 0 bound))).
Proof.
  intros Hb Hf.
  eapply hoare_conseq;
    [| | apply (hoare_for (fun j _ w => w = mkWorld L (X ++ (f <$> seqZ 0 j))))].
  - intros w ->. cbn beta. rewrite app_nil_r. reflexivity.
  - intros ? w Hw. exact Hw.
  - exact Hb.
  - exact Hf.
  - intros j [] Hj. eapply hoare_conseq; [| | apply exact_emit].
    + intros w Hw. exact Hw.
    + intros ? w ->. cbn beta.
      rewrite seqZ_snoc, fmap_app by lia. rewrite app_assoc. reflexivity.
Qed.

Lemma bind_seqZ_snoc {A : Type} (f : Z -> list A) (n : Z) :
  0 <= n -> seqZ 0 (n + 1) ≫= f = (seqZ 0 n ≫= f) ++ f n.
Proof.
  intros Hn. rewrite seqZ_snoc, bind_app, bind_singleton by lia. reflexivity.
Qed.

(** ** The node list *)

Lemma node_id_node_at cells per n : node_id (node_at cells per n) = u32 n.
Proof. unfold node_at. destruct (n <? cells), (n <? 2 * cells); reflexivity. Qed.

Lemma length_block cells per first count :
  length (block cells per first count) = Z.to_nat count.
Proof. unfold block. rewrite length_fmap. apply length_seqZ. Qed.

Lemma lookup_block cells per count n :
  0 <= n < count ->
  block cells per 0 count !! Z.to_nat n = Some (node_at cells per n).
Proof. apply lookup_fmap_seqZ. Qed.

Lemma block_app cells per c n :
  0 <= c -> 0 <= n ->
  block cells per 0 c ++ block cells per c n = block cells per 0 (c + n).
Proof.
  intros Hc Hn. unfold block. rewrite seqZ_app, fmap_app by lia. reflexivity.
Qed.

Lemma fresh_block cells per r c n :
  0 <= c -> 0 <= n ->
  (forall s, 0 <= s < n -> node_at cells per (c + s) = mkNode (u32 (c + s)) r s) ->
  fresh r (Z.to_nat c) (Z.to_nat n) = block cells per c n.
Proof.
  intros Hc Hn Hat. unfold fresh, block, seqZ.
  rewrite <- list_fmap_compose. apply list_fmap_ext. intros k s Hs.
  apply lookup_seq in Hs as [-> Hk]. cbn [compose].
  rewrite Z.add_comm, Hat by lia. f_equal. f_equal. lia.
Qed.

Lemma exact_Create cells per c X r n :
  0 <= c -> 0 <= n ->
  (forall s, 0 <= s < n -> node_at cells per (c + s) = mkNode (u32 (c + s)) r s) ->
  hoare (fun w => w = mkWorld (block cells per 0 c) X) (Create r n)
        (fun k w => k = block cells per c n /\
                    w = mkWorld (block cells per 0 (c + n)) X).
Proof.
  intros Hc Hn Hat w ->. unfold Create. cbn [nodes log].
  rewrite length_block, (fresh_block cells per r c n Hc Hn Hat).
  eexists _, _. split; [reflexivity |]. split; [reflexivity |].
  rewrite block_app by lia. reflexivity.
Qed.

Lemma node_at_backbone cells per s :
  0 <= s < cells -> node_at cells per (0 + s) = mkNode (u32 (0 + s)) Backbone s.
Proof.
  intros Hs. change (0 + s) with s. unfold node_at.
  destruct (Z.ltb_spec s cells); [reflexivity | lia].
Qed.

Lemma node_at_wired cells per i s :
  0 <= i < cells -> 0 <= s < 1 ->
  node_at cells per (cells + i + s) = mkNode (u32 (cells + i + s)) (Wired i) s.
Proof.
  intros Hi Hs. assert (s = 0) as -> by lia. unfold node_at.
  destruct (Z.ltb_spec (cells + i + 0) cells); [lia |].
  destruct (Z.ltb_spec (cells + i + 0) (2 * cells)); [| lia].
  f_equal. f_equal. lia.
Qed.

Lemma node_at_station cells per i s :
  0 <= cells -> 0 <= i -> 0 <= s < per ->
  node_at cells per (2 * cells + i * per + s) =
  mkNode (u32 (2 * cells + i * per + s)) (Station i) s.
Proof.
  intros Hc Hi Hs. unfold node_at.
  destruct (Z.ltb_spec (2 * cells + i * per + s) cells); [nia |].
  destruct (Z.ltb_spec (2 * cells + i * per + s) (2 * cells)); [nia |].
  replace (2 * cells + i * per + s - 2 * cells) with (s + i * per) by lia.
  rewrite Z.div_add, Z.mod_add by lia.
  rewrite Z.div_small, Z.mod_small by lia. reflexivity.
Qed.

Ltac xstep rule :=
  eapply hoare_bind;
  [apply rule | intros ?; cbn beta; try (apply hoare_pure; intros ->)].

Ltac xemit := xstep exact_emit.

Lemma GetN_block_1 cells per first : GetN (block cells per first 1) = 1.
Proof. unfold GetN. rewrite length_block. reflexivity. Qed.

Lemma GetN_cons_block cells per b first count :
  0 <= count -> GetN (b :: block cells per first count) = u32 (1 + count).
Proof.
  intros Hc. unfold GetN. cbn [length]. rewrite length_block. f_equal. lia.
Qed.

(** Equality of two worlds: the node counts by arithmetic, the logs by
    reassociation after [tac]. *)
Ltac xworld tac :=
  f_equal;
  try (f_equal; lia);
  try (tac; rewrite <- ?app_assoc; reflexivity).

Ltac xlast :=
  eapply hoare_conseq; [| | apply exact_emit];
  [intros ? Hpre; exact Hpre | intros ? ? ->; cbn beta].

(** ** edgecloud_Stream2 in closed form *)

Lemma trace_construct_backbone W S X :
  0 <= W ->
  hoare (fun w => w = mkWorld (block W S 0 0) X)
        (edgecloud_Stream2.construct_backbone W)
        (fun k w => k = block W S 0 W /\
                    w = mkWorld (block W S 0 W) (X ++ edgecloud_trace.backbone W S)).
Proof.
  intros HW. unfold edgecloud_Stream2.construct_backbone.
  xstep exact_Create; [lia | exact HW | apply node_at_backbone |].
  repeat xemit.
  intros w ->. eexists _, _. split; [reflexivity |]. split; [reflexivity |].
  f_equal. unfold edgecloud_trace.backbone. rewrite <- ?app_assoc. reflexivity.
Qed.

Lemma trace_p2p_network (fuel : nat) W S i X :
  1 < Z.of_nat fuel -> 0 <= i < W ->
  hoare (fun w => w = mkWorld (block W S 0 (W + i)) X)
        (edgecloud_Stream2.p2p_network fuel (block W S 0 W) i tt)
        (fun _ w => w = mkWorld (block W S 0 (W + i + 1))
                          (X ++ edgecloud_trace.p2p_network W S i)).
Proof.
  intros Hfuel Hi. unfold edgecloud_Stream2.p2p_network.
  xstep exact_Create; [lia | lia | intros s Hs; apply node_at_wired; lia |].
  xstep exact_Get; [apply lookup_block; lia |].
  repeat xemit.
  xstep exact_for_emit; [apply GetN_u32 | rewrite GetN_block_1; lia |].
  xstep exact_Get; [apply lookup_block; lia |].
  repeat xemit.
  xlast. rewrite GetN_block_1. xworld ltac:(unfold edgecloud_trace.p2p_network).
Qed.

Lemma trace_construct_p2p (fuel : nat) W S X :
  is_u32 W -> W < Z.of_nat fuel -> 1 < Z.of_nat fuel ->
  hoare (fun w => w = mkWorld (block W S 0 W) X)
        (edgecloud_Stream2.construct_p2p fuel W (block W S 0 W))
        (fun _ w => w = mkWorld (block W S 0 (2 * W))
                          (X ++ [EvSetBase "172.16.0.0" "255.255.255.0"] ++
                             (seqZ 0 W ≫= edgecloud_trace.p2p_network W S))).
Proof.
  intros HW HfW Hf1. unfold edgecloud_Stream2.construct_p2p. xemit.
  eapply hoare_conseq;
    [| | apply (hoare_for
                  (fun i _ w =>
                     w = mkWorld (block W S 0 (W + i))
                           (X ++ [EvSetBase "172.16.0.0" "255.255.255.0"] ++
                              (seqZ 0 i ≫= edgecloud_trace.p2p_network W S))))].
  - intros w ->. cbn beta. xworld idtac.
  - intros ? w ->. cbn beta. xworld idtac.
  - exact HW.
  - exact HfW.
  - intros i [] Hi.
    eapply hoare_conseq; [| | apply (trace_p2p_network fuel W S i); [exact Hf1 | exact Hi]].
    + intros w Hw. exact Hw.
    + intros ? w ->. cbn beta. xworld ltac:(rewrite bind_seqZ_snoc by lia).
Qed.

Lemma trace_sta_position_loop (fuel : nat) bound L X :
  is_u32 bound -> bound < Z.of_nat fuel ->
  hoare (fun w => w = mkWorld L X)
        (for_u32 fuel 0 bound edgecloud_Stream2.sta_position (0, 0))
        (fun temps w =>
           temps = (u32 (3 * bound), u32 (15 * bound)) /\
           w = mkWorld L (X ++ (edgecloud_trace.sta_position <$> seqZ 0 bound))).
Proof.
  intros Hb Hf.
  eapply hoare_conseq;
    [| | apply (hoare_for
                  (fun j temps w =>
                     temps = (u32 (3 * j), u32 (15 * j)) /\
                     w = mkWorld L (X ++ (edgecloud_trace.sta_position <$> seqZ 0 j))))].
  - intros w ->. cbn beta. split; [reflexivity |]. rewrite app_nil_r. reflexivity.
  - intros temps w Hw. exact Hw.
  - exact Hb.
  - exact Hf.
  - intros j temps Hj. cbn beta. apply hoare_pure. intros ->.
    unfold edgecloud_Stream2.sta_position.
    xemit. intros w ->. eexists _, _. split; [reflexivity |]. split.
    + rewrite !u32_add_l. f_equal; f_equal; lia.
    + rewrite seqZ_snoc, fmap_app by lia. rewrite app_assoc. reflexivity.
Qed.

Lemma trace_mobile_network (fuel : nat) W S i X :
  0 <= W -> is_u32 S -> S + 1 < Z.of_nat fuel -> 0 <= i < W ->
  hoare (fun w => w = mkWorld (block W S 0 (2 * W + i * S)) X)
        (edgecloud_Stream2.mobile_network fuel S (block W S 0 W) i tt)
        (fun _ w => w = mkWorld (block W S 0 (2 * W + i * S + S))
                          (X ++ edgecloud_trace.mobile_network W S i)).
Proof.
  intros HW [HS0 HS] Hfuel Hi. unfold edgecloud_Stream2.mobile_network.
  xstep exact_Create; [nia | lia | intros s Hs; apply node_at_station; lia |].
  xstep exact_Get; [apply lookup_block; lia |].
  repeat xemit.
  xstep exact_Get; [apply lookup_block; lia |].
  repeat xemit.
  rewrite GetN_cons_block by lia.
  xstep trace_sta_position_loop;
    [apply u32_range | pose proof (u32_le (1 + S)); lia |].
  xstep exact_Get; [apply lookup_block; lia |].
  repeat xemit.
  xlast. xworld ltac:(unfold edgecloud_trace.mobile_network).
Qed.

Lemma trace_construct_mobile (fuel : nat) W S X :
  is_u32 W -> is_u32 S -> W < Z.of_nat fuel -> S + 1 < Z.of_nat fuel ->
  hoare (fun w => w = mkWorld (block W S 0 (2 * W)) X)
        (edgecloud_Stream2.construct_mobile fuel W S (block W S 0 W))
        (fun _ w => w = mkWorld (block W S 0 (W * (2 + S)))
                          (X ++ [EvSetBase "10.0.0.0" "255.255.255.0"] ++
                             (seqZ 0 W ≫= edgecloud_trace.mobile_network W S) ++
                             [EvPopulateRoutingTables])).
Proof.
  intros HW HS HfW HfS. unfold edgecloud_Stream2.construct_mobile. xemit.
  eapply hoare_bind.
  - eapply hoare_conseq;
      [| | apply (hoare_for
                    (fun i _ w =>
                       w = mkWorld (block W S 0 (2 * W + i * S))
                             (X ++ [EvSetBase "10.0.0.0" "255.255.255.0"] ++
                                (seqZ 0 i ≫= edgecloud_trace.mobile_network W S))))].
    + intros w ->. cbn beta. xworld idtac.
    + intros ? w Hw. exact Hw.
    + exact HW.
    + exact HfW.
    + intros i [] Hi.
      eapply hoare_conseq;
        [| | apply (trace_mobile_network fuel W S i);
             [apply HW | exact HS | exact HfS | exact Hi]].
      * intros w Hw. exact Hw.
      * intros ? w ->. cbn beta. xworld ltac:(rewrite bind_seqZ_snoc by lia).
  - intros ?. xlast. xworld idtac.
Qed.

Lemma trace_echo_pair W S i m X :
  is_u32 W -> 0 <= S -> 0 <= i -> 0 <= m -> i * S + m < W * S ->
  hoare (fun w => w = mkWorld (block W S 0 (W * (2 + S))) X)
        (edgecloud_Stream2.echo_pair W
           (node_at W S (edgecloud_trace.source W i))
           (GetLocal (node_id (node_at W S (edgecloud_trace.source W i))) 1 0)
           m (u32 (i * S + m)))
        (fun j w => j = u32 (i * S + (m + 1)) /\
                    w = mkWorld (block W S 0 (W * (2 + S)))
                          (X ++ edgecloud_trace.echo_pair W S i m)).
Proof.
  intros HW HS Hi Hm Ht. unfold edgecloud_Stream2.echo_pair.
  xstep exact_GetNode; [apply lookup_block, sink_in_range; [exact HW | nia] |].
  xstep exact_Install.
  repeat xemit.
  xstep exact_Install.
  repeat xemit.
  intros w ->. eexists _, _. split; [reflexivity |]. split.
  - rewrite u32_add_l. f_equal. lia.
  - xworld ltac:(unfold edgecloud_trace.echo_pair, edgecloud_trace.sink).
Qed.

Lemma trace_echo_pairs (fuel : nat) W S i X :
  is_u32 W -> is_u32 S -> S + 1 < Z.of_nat fuel -> 0 <= i < W ->
  hoare (fun w => w = mkWorld (block W S 0 (W * (2 + S))) X)
        (for_u32 fuel 0 S
           (edgecloud_Stream2.echo_pair W
              (node_at W S (edgecloud_trace.source W i))
              (GetLocal (node_id (node_at W S (edgecloud_trace.source W i))) 1 0))
           (u32 (i * S)))
        (fun j w => j = u32 ((i + 1) * S) /\
                    w = mkWorld (block W S 0 (W * (2 + S)))
                          (X ++ (seqZ 0 S ≫= edgecloud_trace.echo_pair W S i))).
Proof.
  intros HW HS Hfuel Hi.
  eapply hoare_conseq;
    [| | apply (hoare_for
                  (fun m j w =>
                     j = u32 (i * S + m) /\
                     w = mkWorld (block W S 0 (W * (2 + S)))
                           (X ++ (seqZ 0 m ≫= edgecloud_trace.echo_pair W S i))))].
  - intros w ->. cbn beta. split; [f_equal; lia |].
    rewrite app_nil_r. reflexivity.
  - intros j w [-> ->]. split; [f_equal; lia | reflexivity].
  - exact HS.
  - lia.
  - intros m j Hm. cbn beta. apply hoare_pure. intros ->.
    eapply hoare_conseq;
      [| | apply (trace_echo_pair W S i m); [exact HW | apply HS | lia | lia | nia]].
    + intros w Hw. exact Hw.
    + intros j w [-> ->]. cbn beta. split; [f_equal; lia |].
      xworld ltac:(rewrite bind_seqZ_snoc by lia).
Qed.

Lemma trace_echo_cell (fuel : nat) W S i k X :
  is_u32 W -> is_u32 S -> S + 1 < Z.of_nat fuel -> 0 <= i < W ->
  k = u32 (2 * ((i + 1) / 2) - 2) ->
  hoare (fun w => w = mkWorld (block W S 0 (W * (2 + S))) X)
        (edgecloud_Stream2.echo_cell fuel W S i (u32 (i * S), k))
        (fun jk w => jk = (u32 ((i + 1) * S), u32 (2 * ((i + 1 + 1) / 2) - 2)) /\
                     w = mkWorld (block W S 0 (W * (2 + S)))
                           (X ++ edgecloud_trace.echo_cell W S i)).
Proof.
  intros HW HS Hfuel Hi Hk. unfold edgecloud_Stream2.echo_cell.
  destruct (k_step i k (proj1 Hi) Hk) as [-> Hnext].
  assert (u32 (2 * (i / 2)) = 2 * (i / 2)) as Hsmall.
  { apply u32_small. destruct HW. unfold is_u32. Z.div_mod_to_equations. lia. }
  rewrite <- Hnext, Hsmall.
  xstep exact_GetNode; [apply lookup_block, source_in_range; [exact HS | exact Hi] |].
  eapply hoare_bind.
  - apply (trace_echo_pairs fuel W S i); assumption.
  - intros j. cbn beta. apply hoare_pure. intros ->.
    intros w ->. eexists _, _. split; [reflexivity |]. split; [reflexivity |].
    xworld ltac:(unfold edgecloud_trace.echo_cell, edgecloud_trace.source).
Qed.

Lemma trace_configure_applications (fuel : nat) W S X :
  is_u32 W -> is_u32 S -> W < Z.of_nat fuel -> S + 1 < Z.of_nat fuel ->
  hoare (fun w => w = mkWorld (block W S 0 (W * (2 + S))) X)
        (edgecloud_Stream2.configure_applications fuel W S)
        (fun _ w => w = mkWorld (block W S 0 (W * (2 + S)))
                          (X ++ (seqZ 0 W ≫= edgecloud_trace.echo_cell W S))).
Proof.
  intros HW HS HfW HfS. unfold edgecloud_Stream2.configure_applications.
  eapply hoare_conseq;
    [| | apply (hoare_for
                  (fun i jk w =>
                     jk = (u32 (i * S), u32 (2 * ((i + 1) / 2) - 2)) /\
                     w = mkWorld (block W S 0 (W * (2 + S)))
                           (X ++ (seqZ 0 i ≫= edgecloud_trace.echo_cell W S))))].
  - intros w ->. cbn beta. split; [reflexivity |].
    rewrite app_nil_r. reflexivity.
  - intros jk w [_ ->]. reflexivity.
  - exact HW.
  - exact HfW.
  - intros i jk Hi. cbn beta. apply hoare_pure. intros ->.
    eapply hoare_conseq;
      [| | apply (trace_echo_cell fuel W S i); [assumption.. | reflexivity]].
    + intros w Hw. exact Hw.
    + intros jk w [-> ->]. cbn beta. split; [reflexivity |].
      xworld ltac:(rewrite bind_seqZ_snoc by lia).
Qed.

(** The complete run of edgecloud_Stream2: the node list and the sequence of
    framework calls, for all parameters. *)
Lemma edgecloud_main_trace (fuel : nat) (p : edgecloud_Stream2.params) :
  edgecloud_ready fuel p ->
  edgecloud_Stream2.main fuel p empty_world =
  Done 0 (mkWorld
            (block (edgecloud_Stream2.nWifis p) (edgecloud_Stream2.nStas p) 0
               (edgecloud_Stream2.nWifis p * (2 + edgecloud_Stream2.nStas p)))
            (edgecloud_trace.whole (edgecloud_Stream2.nWifis p)
               (edgecloud_Stream2.nStas p))).
Proof.
  intros (HW & HS & HfW & HfS).
  set (W := edgecloud_Stream2.nWifis p) in *.
  set (S := edgecloud_Stream2.nStas p) in *.
  assert (hoare (fun w => w = mkWorld (block W S 0 0) [])
            (edgecloud_Stream2.main fuel p)
            (fun a w => a = 0 /\
               w = mkWorld (block W S 0 (W * (2 + S))) (edgecloud_trace.whole W S)))
    as Hmain.
  { unfold edgecloud_Stream2.main. fold W S.
    repeat xemit.
    xstep trace_construct_backbone; [apply HW |].
    xstep trace_construct_p2p; [exact HW | exact HfW | destruct HS; lia |].
    xstep trace_construct_mobile; [assumption.. |].
    xstep trace_configure_applications; [assumption.. |].
    unfold edgecloud_Stream2.configure_tracing, edgecloud_Stream2.run_simulation.
    repeat xemit.
    intros w ->. eexists _, _. split; [reflexivity |]. split; [reflexivity |].
    cbn [nodes log].
    xworld ltac:(unfold edgecloud_trace.whole, edgecloud_trace.tracing,
                 edgecloud_trace.run). }
  destruct (Hmain empty_world eq_refl) as (a & w & Hrun & -> & ->).
  exact Hrun.
Qed.

(** ** wifi_p2p in closed form *)

Lemma wifi_trace_construct_backbone B K X :
  0 <= B ->
  hoare (fun w => w = mkWorld (block B K 0 0) X)
        (wifi_p2p.construct_backbone B)
        (fun k w => k = block B K 0 B /\
                    w = mkWorld (block B K 0 B) (X ++ wifi_trace.backbone B K)).
Proof.
  intros HB. unfold wifi_p2p.construct_backbone.
  xstep exact_Create; [lia | exact HB | apply node_at_backbone |].
  repeat xemit.
  intros w ->. eexists _, _. split; [reflexivity |]. split; [reflexivity |].
  xworld ltac:(unfold wifi_trace.backbone).
Qed.

Lemma wifi_trace_lan_network (fuel : nat) B K i X :
  1 < Z.of_nat fuel -> 0 <= i < B ->
  hoare (fun w => w = mkWorld (block B K 0 (B + i)) X)
        (wifi_p2p.lan_network fuel (block B K 0 B) i tt)
        (fun _ w => w = mkWorld (block B K 0 (B + i + 1))
                          (X ++ wifi_trace.lan_network B K i)).
Proof.
  intros Hfuel Hi. unfold wifi_p2p.lan_network.
  xstep exact_Create; [lia | lia | intros s Hs; apply node_at_wired; lia |].
  xstep exact_Get; [apply lookup_block; lia |].
  repeat xemit.
  xstep exact_for_emit; [apply GetN_u32 | rewrite GetN_block_1; lia |].
  xstep exact_Get; [apply lookup_block; lia |].
  repeat xemit.
  xlast. rewrite GetN_block_1. xworld ltac:(unfold wifi_trace.lan_network).
Qed.

Lemma wifi_trace_construct_lans (fuel : nat) B K X :
  is_u32 B -> B < Z.of_nat fuel -> 1 < Z.of_nat fuel ->
  hoare (fun w => w = mkWorld (block B K 0 B) X)
        (wifi_p2p.construct_lans fuel B (block B K 0 B))
        (fun _ w => w = mkWorld (block B K 0 (2 * B))
                          (X ++ [EvSetBase "172.16.0.0" "255.255.255.0"] ++
                             (seqZ 0 B ≫= wifi_trace.lan_network B K))).
Proof.
  intros HB HfB Hf1. unfold wifi_p2p.construct_lans. xemit.
  eapply hoare_conseq;
    [| | apply (hoare_for
                  (fun i _ w =>
                     w = mkWorld (block B K 0 (B + i))
                           (X ++ [EvSetBase "172.16.0.0" "255.255.255.0"] ++
                              (seqZ 0 i ≫= wifi_trace.lan_network B K))))].
  - intros w ->. cbn beta. xworld idtac.
  - intros ? w ->. cbn beta. xworld idtac.
  - exact HB.
  - exact HfB.
  - intros i [] Hi.
    eapply hoare_conseq;
      [| | apply (wifi_trace_lan_network fuel B K i); [exact Hf1 | exact Hi]].
    + intros w Hw. exact Hw.
    + intros ? w ->. cbn beta. xworld ltac:(rewrite bind_seqZ_snoc by lia).
Qed.

Lemma wifi_trace_mobile_network (fuel : nat) B K i X :
  0 <= B -> is_u32 K -> K + 1 < Z.of_nat fuel -> 0 <= i < B ->
  hoare (fun w => w = mkWorld (block B K 0 (2 * B + i * K)) X)
        (wifi_p2p.mobile_network fuel K (block B K 0 B) i tt)
        (fun _ w => w = mkWorld (block B K 0 (2 * B + i * K + K))
                          (X ++ wifi_trace.mobile_network B K i)).
Proof.
  intros HB [HK0 HK] Hfuel Hi. unfold wifi_p2p.mobile_network.
  xstep exact_Create; [nia | lia | intros s Hs; apply node_at_station; lia |].
  xstep exact_Get; [apply lookup_block; lia |].
  repeat xemit.
  xstep exact_Get; [apply lookup_block; lia |].
  repeat xemit.
  rewrite GetN_cons_block by lia.
  xstep exact_for_emit; [apply u32_range | pose proof (u32_le (1 + K)); lia |].
  xstep exact_Get; [apply lookup_block; lia |].
  repeat xemit.
  xlast. xworld ltac:(unfold wifi_trace.mobile_network).
Qed.

Lemma wifi_trace_construct_mobile (fuel : nat) B K X :
  is_u32 B -> is_u32 K -> B < Z.of_nat fuel -> K + 1 < Z.of_nat fuel ->
  hoare (fun w => w = mkWorld (block B K 0 (2 * B)) X)
        (wifi_p2p.construct_mobile fuel B K (block B K 0 B))
        (fun _ w => w = mkWorld (block B K 0 (B * (2 + K)))
                          (X ++ [EvSetBase "10.0.0.0" "255.255.255.0"] ++
                             (seqZ 0 B ≫= wifi_trace.mobile_network B K) ++
                             [EvPopulateRoutingTables])).
Proof.
  intros HB HK HfB HfK. unfold wifi_p2p.construct_mobile. xemit.
  eapply hoare_bind.
  - eapply hoare_conseq;
      [| | apply (hoare_for
                    (fun i _ w =>
                       w = mkWorld (block B K 0 (2 * B + i * K))
                             (X ++ [EvSetBase "10.0.0.0" "255.255.255.0"] ++
                                (seqZ 0 i ≫= wifi_trace.mobile_network B K))))].
    + intros w ->. cbn beta. xworld idtac.
    + intros ? w Hw. exact Hw.
    + exact HB.
    + exact HfB.
    + intros i [] Hi.
      eapply hoare_conseq;
        [| | apply (wifi_trace_mobile_network fuel B K i);
             [apply HB | exact HK | exact HfK | exact Hi]].
      * intros w Hw. exact Hw.
      * intros ? w ->. cbn beta. xworld ltac:(rewrite bind_seqZ_snoc by lia).
  - intros ?. xlast. xworld idtac.
Qed.

(** Run the first command of the program in the goal from the exact state
    it is applied to. *)
Tactic Notation "xrun" constr(spec) "as" ident(a) :=
  match goal with
  | |- mbind ?f ?c (mkWorld ?L ?X) = _ =>
      let w' := fresh "w" in
      let HQ := fresh "HQ" in
      let E := fresh "E" in
      destruct (hoare_bind_run _ c _ f (mkWorld L X) spec eq_refl)
        as (a & w' & HQ & E);
      rewrite E; clear E; cbn beta in HQ |- *;
      first [subst w' | destruct HQ as [-> ->]]
  end.

Lemma wifi_main_construction (fuel : nat) (p : wifi_p2p.params) :
  wifi_ready fuel p ->
  wifi_p2p.main fuel p empty_world =
    (appSink ← wifi_p2p.configure_applications (wifi_p2p.backboneNodes p)
                 (wifi_p2p.lanNodes p);
     _ ← wifi_p2p.configure_tracing
           (block (wifi_p2p.backboneNodes p) (wifi_p2p.infraNodes p) 0
              (wifi_p2p.backboneNodes p)) appSink;
     _ ← wifi_p2p.run_simulation;
     mret 0)
      (mkWorld
         (block (wifi_p2p.backboneNodes p) (wifi_p2p.infraNodes p) 0
            (wifi_p2p.backboneNodes p * (2 + wifi_p2p.infraNodes p)))
         (wifi_trace.construction (wifi_p2p.backboneNodes p)
            (wifi_p2p.infraNodes p))).
Proof.
  intros (HB & HK & _ & HfB & HfK).
  set (B := wifi_p2p.backboneNodes p) in *.
  set (K := wifi_p2p.infraNodes p) in *.
  unfold wifi_p2p.main. fold B K.
  change empty_world with (mkWorld (block B K 0 0) []).
  xrun (exact_emit (block B K 0 0) [] (EvSetResolution "NS")) as u1.
  xrun (exact_emit (block B K 0 0) [EvSetResolution "NS"]
          (EvLogComponentEnable "UdpEchoClientApplication")) as u2.
  xrun (exact_emit (block B K 0 0)
          [EvSetResolution "NS"; EvLogComponentEnable "UdpEchoClientApplication"]
          (EvLogComponentEnable "UdpEchoServerApplication")) as u3.
  xrun (wifi_trace_construct_backbone B K
          [EvSetResolution "NS"; EvLogComponentEnable "UdpEchoClientApplication";
           EvLogComponentEnable "UdpEchoServerApplication"] (proj1 HB)) as backbone.
  assert (1 < Z.of_nat fuel) as Hf1 by (destruct HK; lia).
  xrun (wifi_trace_construct_lans fuel B K
          ([EvSetResolution "NS"; EvLogComponentEnable "UdpEchoClientApplication";
            EvLogComponentEnable "UdpEchoServerApplication"] ++
             wifi_trace.backbone B K) HB HfB Hf1) as u5.
  xrun (wifi_trace_construct_mobile fuel B K
          (([EvSetResolution "NS"; EvLogComponentEnable "UdpEchoClientApplication";
             EvLogComponentEnable "UdpEchoServerApplication"] ++
              wifi_trace.backbone B K) ++
             [EvSetBase "172.16.0.0" "255.255.255.0"] ++
             (seqZ 0 B ≫= wifi_trace.lan_network B K)) HB HK HfB HfK) as u6.
  reflexivity.
Qed.

Lemma wifi_trace_configure_applications B K lan N X :
  0 <= wifi_p2p.firstNodeIndex B < N ->
  0 <= wifi_p2p.lastNodeIndex B lan < N ->
  hoare (fun w => w = mkWorld (block B K 0 N) X)
        (wifi_p2p.configure_applications B lan)
        (fun r w =>
           r = node_at B K (wifi_p2p.lastNodeIndex B lan) /\
           w = mkWorld (block B K 0 N)
                 (X ++ firstn 11 (wifi_trace.applications B K
                                    (wifi_p2p.firstNodeIndex B)
                                    (wifi_p2p.lastNodeIndex B lan)))).
Proof.
  intros Hf Hl. unfold wifi_p2p.configure_applications.
  xstep exact_GetNode; [apply lookup_block, Hf |].
  xstep exact_GetNode; [apply lookup_block, Hl |].
  xstep exact_Install.
  repeat xemit.
  xstep exact_Install.
  repeat xemit.
  intros w ->. eexists _, _. split; [reflexivity |]. split; [reflexivity |].
  xworld ltac:(unfold wifi_trace.applications; cbn [firstn]).
Qed.

(** The complete run of wifi_p2p, for all parameters: with [N] nodes
    created, the run stops at the first node lookup whose index is not below
    [N], and otherwise returns 0. *)
Lemma wifi_main_trace (fuel : nat) (p : wifi_p2p.params) :
  let B := wifi_p2p.backboneNodes p in
  let K := wifi_p2p.infraNodes p in
  let N := B * (2 + K) in
  let f := wifi_p2p.firstNodeIndex B in
  let l := wifi_p2p.lastNodeIndex B (wifi_p2p.lanNodes p) in
  wifi_ready fuel p ->
  (N <= f /\
   wifi_p2p.main fuel p empty_world =
     Fault (NodeIndexOutOfRange f)
       (mkWorld (block B K 0 N)
          (wifi_trace.construction B K ++ [EvGetNode appSource f]))) \/
  (f < N <= l /\
   wifi_p2p.main fuel p empty_world =
     Fault (NodeIndexOutOfRange l)
       (mkWorld (block B K 0 N)
          (wifi_trace.construction B K ++
             [EvGetNode appSource f; EvGetNode appSink l]))) \/
  (f < N /\ l < N /\
   wifi_p2p.main fuel p empty_world =
     Done 0 (mkWorld (block B K 0 N)
               (wifi_trace.construction B K ++ wifi_trace.applications B K f l))).
Proof.
  intros B K N f l Hr. rewrite (wifi_main_construction fuel p Hr).
  fold B K N.
  assert (0 <= f) as Hf0 by apply u32_range.
  assert (0 <= l) as Hl0 by apply u32_range.
  assert (0 <= N) as HN.
  { destruct Hr as ([? _] & [? _] & _). subst N B K. nia. }
  assert (Z.of_nat (length (block B K 0 N)) = N) as Hlen
    by (rewrite length_block; lia).
  destruct (Z_lt_ge_dec f N) as [Hf | Hf].
  - destruct (Z_lt_ge_dec l N) as [Hl | Hl].
    + right. right. split; [exact Hf |]. split; [exact Hl |].
      xrun (wifi_trace_configure_applications B K (wifi_p2p.lanNodes p) N
              (wifi_trace.construction B K) (conj Hf0 Hf) (conj Hl0 Hl))
        as appSink.
      unfold wifi_p2p.configure_tracing, wifi_p2p.run_simulation.
      fold l f. rewrite node_id_node_at.
      unfold wifi_trace.applications. rewrite !node_id_node_at.
      cbn [firstn]. unfold mbind, M_bind, mret, M_ret, emit. cbn [nodes log].
      f_equal. f_equal. rewrite <- !app_assoc. reflexivity.
    + right. left. split; [lia |].
      unfold wifi_p2p.configure_applications. fold f l.
      apply bind_fault.
      destruct (GetNode_done appSource f (mkWorld (block B K 0 N)
                                            (wifi_trace.construction B K)))
        as (nd & _ & E1); [cbn [nodes]; lia |].
      rewrite (bind_run _ _ _ _ _ E1). cbn [nodes log].
      apply bind_fault.
      rewrite GetNode_fault by (cbn [nodes]; lia).
      cbn [nodes log]. rewrite <- app_assoc. reflexivity.
  - left. split; [lia |].
    unfold wifi_p2p.configure_applications. fold f.
    apply bind_fault. apply bind_fault.
    rewrite GetNode_fault by (cbn [nodes]; lia). reflexivity.
Qed.

(** * Further properties of the two programs *)

(** ** Projections of the closed forms *)

Lemma omap_bind {A B C : Type} (phi : B -> option C) (f : A -> list B) (l : list A) :
  omap phi (l ≫= f) = l ≫= (fun x => omap phi (f x)).
Proof.
  induction l as [| x l IH]; [reflexivity |].
  rewrite !bind_cons, omap_app, IH. reflexivity.
Qed.

Lemma bind_all_nil {A B : Type} (f : A -> list B) (l : list A) :
  (forall x, f x = []) -> l ≫= f = [].
Proof.
  intros Hf. induction l as [| x l IH]; [reflexivity |].
  rewrite bind_cons, Hf, IH. reflexivity.
Qed.

Lemma omap_fmap_none {A B C : Type} (phi : B -> option C) (f : A -> B) (l : list A) :
  (forall x, phi (f x) = None) -> omap phi (f <$> l) = [].
Proof.
  intros Hf. induction l as [| x l IH]; [reflexivity |].
  cbn. rewrite Hf. exact IH.
Qed.

Lemma omap_fmap_some {A B C : Type} (phi : B -> option C) (f : A -> B) (g : A -> C)
    (l : list A) :
  (forall x, phi (f x) = Some (g x)) -> omap phi (f <$> l) = g <$> l.
Proof.
  intros Hf. induction l as [| x l IH]; [reflexivity |].
  cbn. rewrite Hf. cbn. f_equal. exact IH.
Qed.

Lemma bind_seqZ_ext {A : Type} (f g : Z -> list A) (a n : Z) :
  (forall i, a <= i < a + n -> f i = g i) -> seqZ a n ≫= f = seqZ a n ≫= g.
Proof.
  intros Hfg. apply Forall_bind_ext, Forall_forall. intros i Hi.
  apply Hfg. apply elem_of_seqZ in Hi. exact Hi.
Qed.

Lemma fmap_seqZ_ext {A : Type} (f g : Z -> A) (a n : Z) :
  (forall i, a <= i < a + n -> f i = g i) -> f <$> seqZ a n = g <$> seqZ a n.
Proof.
  intros Hfg. apply list_fmap_ext. intros k i Hi.
  apply Hfg. apply lookup_seqZ in Hi. lia.
Qed.

Lemma ids_block cells per first count :
  ids (block cells per first count) = u32 <$> seqZ first count.
Proof.
  unfold ids, block. rewrite <- list_fmap_compose.
  apply list_fmap_ext. intros k n _. apply node_id_node_at.
Qed.

Lemma u32_seqZ_small first count :
  0 <= first -> first + count <= uint32_modulus ->
  u32 <$> seqZ first count = seqZ first count.
Proof.
  intros H0 Hmax. rewrite <- (list_fmap_id (seqZ first count)) at 2.
  apply fmap_seqZ_ext. intros i Hi. unfold id. apply u32_small. unfold is_u32. lia.
Qed.

Lemma bind_singleton_seqZ (c n : Z) :
  seqZ 0 n ≫= (fun m => [c + m]) = seqZ c n.
Proof.
  transitivity (Z.add c <$> seqZ 0 n).
  - induction (seqZ 0 n) as [| x l IH]; [reflexivity |].
    rewrite bind_cons, IH. reflexivity.
  - rewrite fmap_add_seqZ, Z.add_0_r. reflexivity.
Qed.

(** Consecutive blocks of [per] indices make one run of indices. *)
Lemma seqZ_blocks (a per n : Z) :
  0 <= per -> 0 <= n ->
  seqZ 0 n ≫= (fun i => seqZ 0 per ≫= (fun m => [a + i * per + m]))
  = seqZ a (n * per).
Proof.
  intros Hper Hn. revert n Hn. apply natlike_ind.
  - reflexivity.
  - intros n Hn IH. unfold Z.succ.
    rewrite bind_seqZ_snoc, IH, bind_singleton_seqZ by lia.
    replace ((n + 1) * per) with (n * per + per) by lia.
    rewrite seqZ_app by nia. reflexivity.
Qed.

(** The three kinds of nodes in the created node list. *)
Lemma block_layout cells per :
  0 <= cells -> 0 <= per ->
  let L := block cells per 0 (cells * (2 + per)) in
  Z.of_nat (length L) = cells * (2 + per) /\
  (forall i, 0 <= i < cells ->
     L !! Z.to_nat i = Some (mkNode (u32 i) Backbone i)) /\
  (forall i, 0 <= i < cells ->
     L !! Z.to_nat (cells + i) = Some (mkNode (u32 (cells + i)) (Wired i) 0)) /\
  (forall i s, 0 <= i < cells -> 0 <= s < per ->
     L !! Z.to_nat (2 * cells + i * per + s) =
     Some (mkNode (u32 (2 * cells + i * per + s)) (Station i) s)).
Proof.
  intros Hc Hp L. subst L. split; [rewrite length_block; nia |].
  split; [| split].
  - intros i Hi. rewrite lookup_block by nia.
    f_equal. apply (node_at_backbone cells per i Hi).
  - intros i Hi. rewrite lookup_block by nia.
    f_equal. replace (cells + i) with (cells + i + 0) by lia.
    apply node_at_wired; lia.
  - intros i s Hi Hs. rewrite lookup_block by nia.
    f_equal. apply node_at_station; lia.
Qed.

(** What a run of wifi_p2p leaves behind in all three outcomes: the node
    list, and a log made of the construction calls followed by calls of the
    application section and after. *)
Lemma wifi_final (fuel : nat) (p : wifi_p2p.params) :
  wifi_ready fuel p ->
  exists tail,
    final_world (wifi_p2p.main fuel p empty_world) =
      Some (mkWorld
              (block (wifi_p2p.backboneNodes p) (wifi_p2p.infraNodes p) 0
                 (wifi_p2p.backboneNodes p * (2 + wifi_p2p.infraNodes p)))
              (wifi_trace.construction (wifi_p2p.backboneNodes p)
                 (wifi_p2p.infraNodes p) ++ tail)) /\
    setbases tail = [] /\ assigns tail = [] /\ positions tail = [] /\
    internet_installs tail = [] /\ mobility_installs tail = [] /\
    routing_calls tail = [].
Proof.
  intros Hr.
  destruct (wifi_main_trace fuel p Hr)
    as [(_ & ->) | [(_ & ->) | (_ & _ & ->)]];
    eexists; (split; [reflexivity |]); repeat split; reflexivity.
Qed.

Lemma edgecloud_installs W S :
  installs (edgecloud_trace.whole W S) =
  seqZ 0 W ≫= (fun i => seqZ 0 S ≫= (fun m =>
    [mkApp UdpEchoServer (u32 (edgecloud_trace.source W i)) 9 None;
     mkApp UdpEchoClient (u32 (edgecloud_trace.sink W (i * S + m))) 9
           (Some (GetLocal (u32 (edgecloud_trace.source W i)) 1 0))])).
Proof.
  unfold edgecloud_trace.whole, installs.
  rewrite !omap_app, !omap_bind.
  rewrite (bind_all_nil (fun i => omap _ (edgecloud_trace.p2p_network W S i)))
    by reflexivity.
  rewrite (bind_all_nil (fun i => omap _ (edgecloud_trace.mobile_network W S i))).
  2: { intros i. unfold edgecloud_trace.mobile_network.
       rewrite !omap_app, omap_fmap_none by reflexivity. reflexivity. }
  cbn. rewrite app_nil_r.
  apply list_bind_ext; [| reflexivity]. intros i.
  rewrite omap_bind. apply list_bind_ext; [| reflexivity]. intros m.
  unfold edgecloud_trace.echo_pair. cbn. rewrite !node_id_node_at. reflexivity.
Qed.

Lemma edgecloud_pcaps W S :
  pcaps (edgecloud_trace.whole W S) =
  seqZ 0 W ≫= (fun i => seqZ 0 S ≫= (fun m =>
    [u32 (edgecloud_trace.sink W (i * S + m))])).
Proof.
  unfold edgecloud_trace.whole, pcaps.
  rewrite !omap_app, !omap_bind.
  rewrite (bind_all_nil (fun i => omap _ (edgecloud_trace.p2p_network W S i)))
    by reflexivity.
  rewrite (bind_all_nil (fun i => omap _ (edgecloud_trace.mobile_network W S i))).
  2: { intros i. unfold edgecloud_trace.mobile_network.
       rewrite !omap_app, omap_fmap_none by reflexivity. reflexivity. }
  cbn. rewrite app_nil_r.
  apply list_bind_ext; [| reflexivity]. intros i.
  rewrite omap_bind. apply list_bind_ext; [| reflexivity]. intros m.
  unfold edgecloud_trace.echo_pair. cbn. rewrite !node_id_node_at. reflexivity.
Qed.

Lemma edgecloud_positions W S :
  positions (edgecloud_trace.whole W S) =
  (seqZ 0 W ≫= (fun _ => [(0, 10, 0)])) ++
  (seqZ 0 W ≫= (fun _ =>
     (fun j => (15 + u32 (3 * j), u32 (j + 2), 15 + u32 (15 * j)))
       <$> seqZ 0 (u32 (1 + S)))).
Proof.
  unfold edgecloud_trace.whole, positions.
  rewrite !omap_app, !omap_bind.
  rewrite (bind_all_nil (fun i => omap _ (edgecloud_trace.echo_cell W S i))).
  2: { intros i. unfold edgecloud_trace.echo_cell. cbn.
       rewrite omap_bind. apply bind_all_nil. reflexivity. }
  cbn. rewrite app_nil_r. f_equal.
  apply list_bind_ext; [| reflexivity]. intros i.
  unfold edgecloud_trace.mobile_network.
  rewrite !omap_app. cbn. rewrite app_nil_r.
  apply omap_fmap_some. reflexivity.
Qed.

Lemma edgecloud_assigns W S :
  assigns (edgecloud_trace.whole W S) =
  [u32 <$> seqZ 0 W] ++
  (seqZ 0 W ≫= (fun i => [[u32 i; u32 (W + i)]])) ++
  (seqZ 0 W ≫= (fun i => [u32 i :: (u32 <$> seqZ (2 * W + i * S) S)])).
Proof.
  unfold edgecloud_trace.whole, assigns.
  rewrite !omap_app, !omap_bind.
  rewrite (bind_all_nil (fun i => omap _ (edgecloud_trace.echo_cell W S i))).
  2: { intros i. unfold edgecloud_trace.echo_cell. cbn.
       rewrite omap_bind. apply bind_all_nil. reflexivity. }
  cbn. rewrite app_nil_r, ids_block. f_equal. f_equal.
  - apply list_bind_ext; [| reflexivity]. intros i.
    unfold edgecloud_trace.p2p_network. cbn -[block].
    fold (ids (block W S (W + i) 1)).
    rewrite ids_block, !node_id_node_at. reflexivity.
  - apply list_bind_ext; [| reflexivity]. intros i.
    unfold edgecloud_trace.mobile_network.
    rewrite !omap_app, omap_fmap_none by reflexivity. cbn -[block].
    fold (ids (block W S (2 * W + i * S) S)).
    rewrite ids_block, node_id_node_at. reflexivity.
Qed.

Lemma wifi_assigns B K :
  assigns (wifi_trace.construction B K) =
  [u32 <$> seqZ 0 B] ++
  (seqZ 0 B ≫= (fun i => [[u32 i; u32 (B + i)]])) ++
  (seqZ 0 B ≫= (fun i => [u32 i :: (u32 <$> seqZ (2 * B + i * K) K)])).
Proof.
  unfold wifi_trace.construction, assigns.
  rewrite !omap_app, !omap_bind.
  cbn. rewrite app_nil_r, ids_block. f_equal. f_equal.
  - apply list_bind_ext; [| reflexivity]. intros i.
    unfold wifi_trace.lan_network. cbn -[block].
    fold (ids (block B K (B + i) 1)).
    rewrite ids_block, !node_id_node_at. reflexivity.
  - apply list_bind_ext; [| reflexivity]. intros i.
    unfold wifi_trace.mobile_network.
    rewrite !omap_app, omap_fmap_none by reflexivity. cbn -[block].
    fold (ids (block B K (2 * B + i * K) K)).
    rewrite ids_block, node_id_node_at. reflexivity.
Qed.

Lemma wifi_positions B K :
  positions (wifi_trace.construction B K) =
  (seqZ 0 B ≫= (fun _ => [(0, 10, 0)])) ++
  (seqZ 0 B ≫= (fun _ => (fun j => (0, j, 0)) <$> seqZ 0 (u32 (1 + K)))).
Proof.
  unfold wifi_trace.construction, positions.
  rewrite !omap_app, !omap_bind.
  cbn. rewrite app_nil_r. f_equal.
  apply list_bind_ext; [| reflexivity]. intros i.
  unfold wifi_trace.mobile_network.
  rewrite !omap_app. cbn. rewrite app_nil_r.
  apply omap_fmap_some. reflexivity.
Qed.

(** ** Node layout *)

(** X1.  For all parameters edgecloud_Stream2 returns 0 having created
    nWifis * (2 + nStas) nodes in this order: backbone node i at index i, the
    wired node of backbone node i at index nWifis + i, and station s of cell
    i at index 2 * nWifis + i * nStas + s; the id of a node is its index
    modulo 2^32. *)
Theorem X1_edgecloud_node_layout (fuel : nat) (p : edgecloud_Stream2.params) :
  edgecloud_ready fuel p ->
  exists w,
    edgecloud_Stream2.main fuel p empty_world = Done 0 w /\
    let W := edgecloud_Stream2.nWifis p in
    let S := edgecloud_Stream2.nStas p in
    Z.of_nat (length (nodes w)) = W * (2 + S) /\
    (forall i, 0 <= i < W ->
       nodes w !! Z.to_nat i = Some (mkNode (u32 i) Backbone i)) /\
    (forall i, 0 <= i < W ->
       nodes w !! Z.to_nat (W + i) = Some (mkNode (u32 (W + i)) (Wired i) 0)) /\
    (forall i s, 0 <= i < W -> 0 <= s < S ->
       nodes w !! Z.to_nat (2 * W + i * S + s) =
       Some (mkNode (u32 (2 * W + i * S + s)) (Station i) s)).
Proof.
  intros Hr. eexists. split; [apply edgecloud_main_trace, Hr |].
  destruct Hr as (HW & HS & _). unfold is_u32 in HW, HS.
  cbn [nodes]. apply block_layout; lia.
Qed.

Lemma X1_edgecloud_node_layout_witness :
  edgecloud_ready 8 edgecloud_Stream2.default_params /\
  exists w,
    edgecloud_Stream2.main 8 edgecloud_Stream2.default_params empty_world
      = Done 0 w /\
    let W := edgecloud_Stream2.nWifis edgecloud_Stream2.default_params in
    let S := edgecloud_Stream2.nStas edgecloud_Stream2.default_params in
    Z.of_nat (length (nodes w)) = W * (2 + S) /\
    (forall i, 0 <= i < W ->
       nodes w !! Z.to_nat i = Some (mkNode (u32 i) Backbone i)) /\
    (forall i, 0 <= i < W ->
       nodes w !! Z.to_nat (W + i) = Some (mkNode (u32 (W + i)) (Wired i) 0)) /\
    (forall i s, 0 <= i < W -> 0 <= s < S ->
       nodes w !! Z.to_nat (2 * W + i * S + s) =
       Some (mkNode (u32 (2 * W + i * S + s)) (Station i) s)).
Proof.
  assert (edgecloud_ready 8 edgecloud_Stream2.default_params) as Hr by ready.
  split; [exact Hr |].
  exact (X1_edgecloud_node_layout 8 edgecloud_Stream2.default_params Hr).
Defined.

(** X2.  For all parameters wifi_p2p, whether it returns or stops at a node
    lookup, has created backboneNodes * (2 + infraNodes) nodes in this order:
    backbone node i at index i, the single wired node of backbone node i at
    index backboneNodes + i, and station s of cell i at index
    2 * backboneNodes + i * infraNodes + s. *)
Theorem X2_wifi_p2p_node_layout (fuel : nat) (p : wifi_p2p.params) :
  wifi_ready fuel p ->
  exists w,
    final_world (wifi_p2p.main fuel p empty_world) = Some w /\
    let B := wifi_p2p.backboneNodes p in
    let K := wifi_p2p.infraNodes p in
    Z.of_nat (length (nodes w)) = B * (2 + K) /\
    (forall i, 0 <= i < B ->
       nodes w !! Z.to_nat i = Some (mkNode (u32 i) Backbone i)) /\
    (forall i, 0 <= i < B ->
       nodes w !! Z.to_nat (B + i) = Some (mkNode (u32 (B + i)) (Wired i) 0)) /\
    (forall i s, 0 <= i < B -> 0 <= s < K ->
       nodes w !! Z.to_nat (2 * B + i * K + s) =
       Some (mkNode (u32 (2 * B + i * K + s)) (Station i) s)).
Proof.
  intros Hr. destruct (wifi_final fuel p Hr) as (tail & Hfin & _).
  eexists. split; [exact Hfin |].
  destruct Hr as (HB & HK & _). unfold is_u32 in HB, HK.
  cbn [nodes]. apply block_layout; lia.
Qed.

Lemma X2_wifi_p2p_node_layout_witness :
  wifi_ready 4 wifi_p2p.default_params /\
  exists w,
    final_world (wifi_p2p.main 4 wifi_p2p.default_params empty_world)
      = Some w /\
    let B := wifi_p2p.backboneNodes wifi_p2p.default_params in
    let K := wifi_p2p.infraNodes wifi_p2p.default_params in
    Z.of_nat (length (nodes w)) = B * (2 + K) /\
    (forall i, 0 <= i < B ->
       nodes w !! Z.to_nat i = Some (mkNode (u32 i) Backbone i)) /\
    (forall i, 0 <= i < B ->
       nodes w !! Z.to_nat (B + i) = Some (mkNode (u32 (B + i)) (Wired i) 0)) /\
    (forall i s, 0 <= i < B -> 0 <= s < K ->
       nodes w !! Z.to_nat (2 * B + i * K + s) =
       Some (mkNode (u32 (2 * B + i * K + s)) (Station i) s)).
Proof.
  assert (wifi_ready 4 wifi_p2p.default_params) as Hr by ready.
  split; [exact Hr |].
  exact (X2_wifi_p2p_node_layout 4 wifi_p2p.default_params Hr).
Defined.

(** X3.  The parameter lanNodes of wifi_p2p has no effect on the topology:
    two runs that differ only in lanNodes end with the same node list, the
    same address bases, the same calls of Assign and the same positions,
    whatever their outcomes. *)
Theorem X3_wifi_p2p_topology_ignores_lanNodes (fuel : nat)
    (B K lan lan' : Z) :
  wifi_ready fuel (wifi_p2p.mkParams B K lan) ->
  wifi_ready fuel (wifi_p2p.mkParams B K lan') ->
  exists w w',
    final_world (wifi_p2p.main fuel (wifi_p2p.mkParams B K lan) empty_world)
      = Some w /\
    final_world (wifi_p2p.main fuel (wifi_p2p.mkParams B K lan') empty_world)
      = Some w' /\
    nodes w = nodes w' /\
    setbases (log w) = setbases (log w') /\
    assigns (log w) = assigns (log w') /\
    positions (log w) = positions (log w').
Proof.
  intros Hr Hr'.
  destruct (wifi_final fuel _ Hr) as (t & Hfin & Hs & Ha & Hp & _).
  destruct (wifi_final fuel _ Hr') as (t' & Hfin' & Hs' & Ha' & Hp' & _).
  do 2 eexists. split; [exact Hfin |]. split; [exact Hfin' |].
  cbn [nodes log wifi_p2p.backboneNodes wifi_p2p.infraNodes].
  split; [reflexivity |].
  unfold setbases, assigns, positions in *.
  rewrite !omap_app, Hs, Hs', Ha, Ha', Hp, Hp'.
  repeat split; reflexivity.
Qed.

Lemma X3_wifi_p2p_topology_ignores_lanNodes_witness :
  wifi_ready 4 (wifi_p2p.mkParams 3 2 1) /\
  wifi_ready 4 (wifi_p2p.mkParams 3 2 7) /\
  exists w w',
    final_world (wifi_p2p.main 4 (wifi_p2p.mkParams 3 2 1) empty_world)
      = Some w /\
    final_world (wifi_p2p.main 4 (wifi_p2p.mkParams 3 2 7) empty_world)
      = Some w' /\
    nodes w = nodes w' /\
    setbases (log w) = setbases (log w') /\
    assigns (log w) = assigns (log w') /\
    positions (log w) = positions (log w').
Proof.
  assert (wifi_ready 4 (wifi_p2p.mkParams 3 2 1)) as Hr by ready.
  assert (wifi_ready 4 (wifi_p2p.mkParams 3 2 7)) as Hr' by ready.
  split; [exact Hr |]. split; [exact Hr' |].
  exact (X3_wifi_p2p_topology_ignores_lanNodes 4 3 2 1 7 Hr Hr').
Defined.

(** ** Traffic of edgecloud_Stream2 *)

Lemma edgecloud_source_small W S i :
  0 <= S -> W * (2 + S) <= uint32_modulus -> 0 <= i < W ->
  u32 (edgecloud_trace.source W i) = W + 2 * (i / 2).
Proof.
  intros HS HN Hi.
  unfold edgecloud_trace.source, edgecloud_Stream2.firstNodeIndex.
  assert (is_u32 (W + 2 * (i / 2))) as Hs.
  { unfold is_u32. Z.div_mod_to_equations. nia. }
  rewrite !(u32_small _ Hs). reflexivity.
Qed.

Lemma edgecloud_sink_small W S t :
  W * (2 + S) <= uint32_modulus -> 0 <= W -> 0 <= t < W * S ->
  u32 (edgecloud_trace.sink W t) = 2 * W + t.
Proof.
  intros HN HW Ht.
  unfold edgecloud_trace.sink, edgecloud_Stream2.lastNodeIndex,
    edgecloud_Stream2.p2pNode.
  rewrite Z.mul_1_r.
  assert (is_u32 t) as H1 by (unfold is_u32; nia).
  assert (is_u32 W) as H2 by (unfold is_u32; nia).
  assert (is_u32 (W + W)) as H3 by (unfold is_u32; nia).
  assert (is_u32 (W + W + t)) as H4 by (unfold is_u32; nia).
  rewrite (u32_small _ H1), (u32_small _ H2), (u32_small _ H3),
    !(u32_small _ H4).
  lia.
Qed.

Lemma edgecloud_installs_small W S :
  0 <= W -> 0 <= S -> W * (2 + S) <= uint32_modulus ->
  installs (edgecloud_trace.whole W S) =
  seqZ 0 W ≫= (fun i => seqZ 0 S ≫= (fun m =>
    [mkApp UdpEchoServer (W + 2 * (i / 2)) 9 None;
     mkApp UdpEchoClient (2 * W + i * S + m) 9
           (Some (GetLocal (W + 2 * (i / 2)) 1 0))])).
Proof.
  intros HW HS HN. rewrite edgecloud_installs.
  apply bind_seqZ_ext. intros i Hi. apply bind_seqZ_ext. intros m Hm.
  rewrite (edgecloud_source_small W S i) by lia.
  rewrite (edgecloud_sink_small W S (i * S + m)) by nia.
  rewrite Z.add_assoc. reflexivity.
Qed.

Lemma edgecloud_installed_on W S k :
  installed_on k (edgecloud_trace.whole W S) =
  seqZ 0 W ≫= (fun i => seqZ 0 S ≫= (fun m =>
    match k with
    | UdpEchoServer => [u32 (edgecloud_trace.source W i)]
    | UdpEchoClient => [u32 (edgecloud_trace.sink W (i * S + m))]
    end)).
Proof.
  unfold edgecloud_trace.whole, installed_on.
  rewrite !omap_app, !omap_bind.
  rewrite (bind_all_nil (fun i => omap _ (edgecloud_trace.p2p_network W S i)))
    by reflexivity.
  rewrite (bind_all_nil (fun i => omap _ (edgecloud_trace.mobile_network W S i))).
  2: { intros i. unfold edgecloud_trace.mobile_network.
       rewrite !omap_app, omap_fmap_none by reflexivity. reflexivity. }
  cbn. rewrite app_nil_r.
  apply list_bind_ext; [| reflexivity]. intros i.
  rewrite omap_bind. apply list_bind_ext; [| reflexivity]. intros m.
  unfold edgecloud_trace.echo_pair. destruct k; cbn;
    rewrite !node_id_node_at; reflexivity.
Qed.

Lemma bind_const_seqZ {A : Type} (c : A) (n : Z) :
  seqZ 0 n ≫= (fun _ => [c]) = replicate (Z.to_nat n) c.
Proof.
  rewrite <- (length_seqZ 0 n).
  induction (seqZ 0 n) as [| x l IH]; [reflexivity |].
  rewrite bind_cons, IH. reflexivity.
Qed.

(** X4.  When the node ids do not wrap, edgecloud_Stream2 installs, for every
    cell i and every station m of it, in loop order, one echo server on
    node nWifis + 2 * (i / 2), which is the wired node of backbone node
    2 * (i / 2), and one echo client on node 2 * nWifis + i * nStas + m,
    which is station m of cell i, aimed at port 9 of the first address of
    interface 1 of that wired node. *)
Theorem X4_edgecloud_traffic_pattern (fuel : nat)
    (p : edgecloud_Stream2.params) :
  edgecloud_ready fuel p ->
  edgecloud_Stream2.nWifis p * (2 + edgecloud_Stream2.nStas p)
    <= uint32_modulus ->
  exists w,
    edgecloud_Stream2.main fuel p empty_world = Done 0 w /\
    let W := edgecloud_Stream2.nWifis p in
    let S := edgecloud_Stream2.nStas p in
    installs (log w) =
      seqZ 0 W ≫= (fun i => seqZ 0 S ≫= (fun m =>
        [mkApp UdpEchoServer (W + 2 * (i / 2)) 9 None;
         mkApp UdpEchoClient (2 * W + i * S + m) 9
               (Some (GetLocal (W + 2 * (i / 2)) 1 0))])) /\
    (forall i, 0 <= i < W ->
       nodes w !! Z.to_nat (W + 2 * (i / 2)) =
       Some (mkNode (W + 2 * (i / 2)) (Wired (2 * (i / 2))) 0)) /\
    (forall i m, 0 <= i < W -> 0 <= m < S ->
       nodes w !! Z.to_nat (2 * W + i * S + m) =
       Some (mkNode (2 * W + i * S + m) (Station i) m)).
Proof.
  intros Hr HN. eexists. split; [apply edgecloud_main_trace, Hr |].
  set (W := edgecloud_Stream2.nWifis p) in *.
  set (S := edgecloud_Stream2.nStas p) in *.
  destruct Hr as (HW & HS & _). fold W in HW. fold S in HS.
  unfold is_u32 in HW, HS. cbn [nodes log].
  destruct (block_layout W S ltac:(lia) ltac:(lia)) as (_ & _ & Hwired & Hsta).
  split; [| split].
  - apply edgecloud_installs_small; lia.
  - intros i Hi.
    assert (0 <= 2 * (i / 2) < W) as Hc by (Z.div_mod_to_equations; lia).
    rewrite (Hwired _ Hc). rewrite u32_small; [reflexivity |].
    unfold is_u32. lia.
  - intros i m Hi Hm. rewrite (Hsta i m Hi Hm).
    rewrite u32_small; [reflexivity |]. unfold is_u32. nia.
Qed.

Lemma X4_edgecloud_traffic_pattern_witness :
  edgecloud_ready 8 edgecloud_Stream2.default_params /\
  6 * (2 + 4) <= uint32_modulus /\
  exists w,
    edgecloud_Stream2.main 8 edgecloud_Stream2.default_params empty_world
      = Done 0 w /\
    installs (log w) =
      seqZ 0 6 ≫= (fun i => seqZ 0 4 ≫= (fun m =>
        [mkApp UdpEchoServer (6 + 2 * (i / 2)) 9 None;
         mkApp UdpEchoClient (2 * 6 + i * 4 + m) 9
               (Some (GetLocal (6 + 2 * (i / 2)) 1 0))])) /\
    (forall i, 0 <= i < 6 ->
       nodes w !! Z.to_nat (6 + 2 * (i / 2)) =
       Some (mkNode (6 + 2 * (i / 2)) (Wired (2 * (i / 2))) 0)) /\
    (forall i m, 0 <= i < 6 -> 0 <= m < 4 ->
       nodes w !! Z.to_nat (2 * 6 + i * 4 + m) =
       Some (mkNode (2 * 6 + i * 4 + m) (Station i) m)).
Proof.
  assert (edgecloud_ready 8 edgecloud_Stream2.default_params) as Hr by ready.
  assert (6 * (2 + 4) <= uint32_modulus) as HN by (vm_compute; discriminate).
  split; [exact Hr |]. split; [exact HN |].
  exact (X4_edgecloud_traffic_pattern 8 edgecloud_Stream2.default_params Hr HN).
Defined.

(** X5.  When the node ids do not wrap, the echo clients and the packet
    captures of edgecloud_Stream2 go on the stations, each station exactly
    once and in creation order, while the echo server of cell i is installed
    nStas times over on the same wired node nWifis + 2 * (i / 2). *)
Theorem X5_edgecloud_clients_cover_stations (fuel : nat)
    (p : edgecloud_Stream2.params) :
  edgecloud_ready fuel p ->
  edgecloud_Stream2.nWifis p * (2 + edgecloud_Stream2.nStas p)
    <= uint32_modulus ->
  exists w,
    edgecloud_Stream2.main fuel p empty_world = Done 0 w /\
    let W := edgecloud_Stream2.nWifis p in
    let S := edgecloud_Stream2.nStas p in
    installed_on UdpEchoClient (log w) = seqZ (2 * W) (W * S) /\
    pcaps (log w) = seqZ (2 * W) (W * S) /\
    installed_on UdpEchoServer (log w) =
      seqZ 0 W ≫= (fun i => replicate (Z.to_nat S) (W + 2 * (i / 2))).
Proof.
  intros Hr HN. eexists. split; [apply edgecloud_main_trace, Hr |].
  set (W := edgecloud_Stream2.nWifis p) in *.
  set (S := edgecloud_Stream2.nStas p) in *.
  destruct Hr as (HW & HS & _). fold W in HW. fold S in HS.
  unfold is_u32 in HW, HS. cbn [nodes log].
  assert (seqZ 0 W ≫= (fun i => seqZ 0 S ≫= (fun m =>
            [u32 (edgecloud_trace.sink W (i * S + m))]))
          = seqZ (2 * W) (W * S)) as Hsinks.
  { rewrite <- (seqZ_blocks (2 * W) S W) by lia.
    apply bind_seqZ_ext. intros i Hi. apply bind_seqZ_ext. intros m Hm.
    rewrite (edgecloud_sink_small W S (i * S + m)) by nia.
    rewrite Z.add_assoc. reflexivity. }
  split; [| split].
  - rewrite edgecloud_installed_on. exact Hsinks.
  - rewrite edgecloud_pcaps. exact Hsinks.
  - rewrite edgecloud_installed_on.
    apply bind_seqZ_ext. intros i Hi.
    rewrite (edgecloud_source_small W S i) by lia.
    apply bind_const_seqZ.
Qed.

Lemma X5_edgecloud_clients_cover_stations_witness :
  edgecloud_ready 8 edgecloud_Stream2.default_params /\
  6 * (2 + 4) <= uint32_modulus /\
  exists w,
    edgecloud_Stream2.main 8 edgecloud_Stream2.default_params empty_world
      = Done 0 w /\
    installed_on UdpEchoClient (log w) = seqZ (2 * 6) (6 * 4) /\
    pcaps (log w) = seqZ (2 * 6) (6 * 4) /\
    installed_on UdpEchoServer (log w) =
      seqZ 0 6 ≫= (fun i => replicate (Z.to_nat 4) (6 + 2 * (i / 2))).
Proof.
  assert (edgecloud_ready 8 edgecloud_Stream2.default_params) as Hr by ready.
  assert (6 * (2 + 4) <= uint32_modulus) as HN by (vm_compute; discriminate).
  split; [exact Hr |]. split; [exact HN |].
  exact (X5_edgecloud_clients_cover_stations 8
           edgecloud_Stream2.default_params Hr HN).
Defined.

(** X6.  When the node ids do not wrap, edgecloud_Stream2 installs no
    application on a backbone node and none on the wired node of an
    odd-numbered backbone node: every application sits on a node of index at
    least nWifis, and one below 2 * nWifis sits at an even offset from
    nWifis. *)
Theorem X6_edgecloud_no_application_on_backbone_or_odd_wired (fuel : nat)
    (p : edgecloud_Stream2.params) :
  edgecloud_ready fuel p ->
  edgecloud_Stream2.nWifis p * (2 + edgecloud_Stream2.nStas p)
    <= uint32_modulus ->
  exists w,
    edgecloud_Stream2.main fuel p empty_world = Done 0 w /\
    let W := edgecloud_Stream2.nWifis p in
    let S := edgecloud_Stream2.nStas p in
    Forall (fun a =>
              W <= app_node a < W * (2 + S) /\
              (app_node a < 2 * W -> (app_node a - W) mod 2 = 0))
           (installs (log w)).
Proof.
  intros Hr HN. eexists. split; [apply edgecloud_main_trace, Hr |].
  set (W := edgecloud_Stream2.nWifis p) in *.
  set (S := edgecloud_Stream2.nStas p) in *.
  destruct Hr as (HW & HS & _). fold W in HW. fold S in HS.
  unfold is_u32 in HW, HS. cbn [nodes log].
  rewrite edgecloud_installs_small by lia.
  apply Forall_forall. intros a Ha.
  apply list_elem_of_bind in Ha as (i & Ha & Hi).
  apply list_elem_of_bind in Ha as (m & Ha & Hm).
  apply elem_of_seqZ in Hi. apply elem_of_seqZ in Hm.
  rewrite !elem_of_cons, elem_of_nil in Ha.
  destruct Ha as [-> | [-> | []]]; cbn [app_node].
  - split; [Z.div_mod_to_equations; nia |].
    intros _. replace (W + 2 * (i / 2) - W) with ((i / 2) * 2) by lia.
    apply Z.mod_mul. discriminate.
  - split; [nia |]. intros Hlt. nia.
Qed.

Lemma X6_edgecloud_no_application_on_backbone_or_odd_wired_witness :
  edgecloud_ready 8 edgecloud_Stream2.default_params /\
  6 * (2 + 4) <= uint32_modulus /\
  exists w,
    edgecloud_Stream2.main 8 edgecloud_Stream2.default_params empty_world
      = Done 0 w /\
    Forall (fun a =>
              6 <= app_node a < 6 * (2 + 4) /\
              (app_node a < 2 * 6 -> (app_node a - 6) mod 2 = 0))
           (installs (log w)).
Proof.
  assert (edgecloud_ready 8 edgecloud_Stream2.default_params) as Hr by ready.
  assert (6 * (2 + 4) <= uint32_modulus) as HN by (vm_compute; discriminate).
  split; [exact Hr |]. split; [exact HN |].
  exact (X6_edgecloud_no_application_on_backbone_or_odd_wired 8
           edgecloud_Stream2.default_params Hr HN).
Defined.

(** ** Addresses and positions *)

Lemma bind_singleton_fmap {A B : Type} (f : A -> B) (l : list A) :
  l ≫= (fun x => [f x]) = f <$> l.
Proof.
  induction l as [| x l IH]; [reflexivity |].
  rewrite bind_cons, IH. reflexivity.
Qed.

(** The device sets of the three families of networks, when no id wraps. *)
Lemma assigns_small (cells per : Z) :
  0 <= cells -> 0 <= per -> cells * (2 + per) <= uint32_modulus ->
  [u32 <$> seqZ 0 cells] ++
  (seqZ 0 cells ≫= (fun i => [[u32 i; u32 (cells + i)]])) ++
  (seqZ 0 cells ≫= (fun i => [u32 i :: (u32 <$> seqZ (2 * cells + i * per) per)]))
  =
  [seqZ 0 cells] ++
  ((fun i => [i; cells + i]) <$> seqZ 0 cells) ++
  ((fun i => i :: seqZ (2 * cells + i * per) per) <$> seqZ 0 cells).
Proof.
  intros Hc Hp HN.
  rewrite u32_seqZ_small by nia.
  rewrite <- (bind_singleton_fmap (fun i => [i; cells + i])).
  rewrite <- (bind_singleton_fmap (fun i => i :: seqZ (2 * cells + i * per) per)).
  f_equal. f_equal.
  - apply bind_seqZ_ext. intros i Hi.
    rewrite !u32_small by (unfold is_u32; nia). reflexivity.
  - apply bind_seqZ_ext. intros i Hi.
    rewrite u32_seqZ_small by nia.
    rewrite u32_small by (unfold is_u32; nia). reflexivity.
Qed.

(** X7.  When the node ids do not wrap, edgecloud_Stream2 hands to
    Ipv4AddressHelper::Assign first the devices of all backbone nodes, then
    for each i the pair of backbone node i and its wired node, then for each
    i backbone node i with the nStas stations of its cell; every backbone
    node thus gets three addressed interfaces. *)
Theorem X7_edgecloud_address_assignment (fuel : nat)
    (p : edgecloud_Stream2.params) :
  edgecloud_ready fuel p ->
  edgecloud_Stream2.nWifis p * (2 + edgecloud_Stream2.nStas p)
    <= uint32_modulus ->
  exists w,
    edgecloud_Stream2.main fuel p empty_world = Done 0 w /\
    let W := edgecloud_Stream2.nWifis p in
    let S := edgecloud_Stream2.nStas p in
    assigns (log w) =
      [seqZ 0 W] ++
      ((fun i => [i; W + i]) <$> seqZ 0 W) ++
      ((fun i => i :: seqZ (2 * W + i * S) S) <$> seqZ 0 W).
Proof.
  intros Hr HN. eexists. split; [apply edgecloud_main_trace, Hr |].
  set (W := edgecloud_Stream2.nWifis p) in *.
  set (S := edgecloud_Stream2.nStas p) in *.
  destruct Hr as (HW & HS & _). fold W in HW. fold S in HS.
  unfold is_u32 in HW, HS. cbn [nodes log].
  rewrite edgecloud_assigns. apply assigns_small; lia.
Qed.

Lemma X7_edgecloud_address_assignment_witness :
  edgecloud_ready 8 edgecloud_Stream2.default_params /\
  6 * (2 + 4) <= uint32_modulus /\
  exists w,
    edgecloud_Stream2.main 8 edgecloud_Stream2.default_params empty_world
      = Done 0 w /\
    assigns (log w) =
      [seqZ 0 6] ++
      ((fun i => [i; 6 + i]) <$> seqZ 0 6) ++
      ((fun i => i :: seqZ (2 * 6 + i * 4) 4) <$> seqZ 0 6).
Proof.
  assert (edgecloud_ready 8 edgecloud_Stream2.default_params) as Hr by ready.
  assert (6 * (2 + 4) <= uint32_modulus) as HN by (vm_compute; discriminate).
  split; [exact Hr |]. split; [exact HN |].
  exact (X7_edgecloud_address_assignment 8 edgecloud_Stream2.default_params
           Hr HN).
Defined.

(** X8.  In edgecloud_Stream2 every wired node is given the position
    (0, 10, 0), and the position allocator of every cell is given
    nStas + 1 positions, one more than the cell has stations:
    (15 + 3 j, j + 2, 15 + 15 j) for j = 0 .. nStas, the same list for every
    cell since temp1 and temp2 restart at 0 in each.  This holds when
    15 * nStas stays below 2^32. *)
Theorem X8_edgecloud_positions (fuel : nat) (p : edgecloud_Stream2.params) :
  edgecloud_ready fuel p ->
  15 * edgecloud_Stream2.nStas p < uint32_modulus ->
  exists w,
    edgecloud_Stream2.main fuel p empty_world = Done 0 w /\
    let W := edgecloud_Stream2.nWifis p in
    let S := edgecloud_Stream2.nStas p in
    positions (log w) =
      replicate (Z.to_nat W) (0, 10, 0) ++
      (seqZ 0 W ≫= (fun _ =>
         (fun j => (15 + 3 * j, j + 2, 15 + 15 * j)) <$> seqZ 0 (S + 1))).
Proof.
  intros Hr H15. eexists. split; [apply edgecloud_main_trace, Hr |].
  set (W := edgecloud_Stream2.nWifis p) in *.
  set (S := edgecloud_Stream2.nStas p) in *.
  destruct Hr as (HW & HS & _). fold W in HW. fold S in HS.
  unfold is_u32, uint32_modulus in HW, HS, H15. cbn [nodes log].
  rewrite edgecloud_positions, bind_const_seqZ. f_equal.
  apply bind_seqZ_ext. intros i _.
  rewrite (u32_small (1 + S)) by (unfold is_u32, uint32_modulus; lia).
  replace (1 + S) with (S + 1) by lia.
  apply fmap_seqZ_ext. intros j Hj.
  rewrite !u32_small by (unfold is_u32, uint32_modulus; lia). reflexivity.
Qed.

Lemma X8_edgecloud_positions_witness :
  edgecloud_ready 8 edgecloud_Stream2.default_params /\
  15 * 4 < uint32_modulus /\
  exists w,
    edgecloud_Stream2.main 8 edgecloud_Stream2.default_params empty_world
      = Done 0 w /\
    positions (log w) =
      replicate (Z.to_nat 6) (0, 10, 0) ++
      (seqZ 0 6 ≫= (fun _ =>
         (fun j => (15 + 3 * j, j + 2, 15 + 15 * j)) <$> seqZ 0 (4 + 1))).
Proof.
  assert (edgecloud_ready 8 edgecloud_Stream2.default_params) as Hr by ready.
  assert (15 * 4 < uint32_modulus) as H15 by reflexivity.
  split; [exact Hr |]. split; [exact H15 |].
  exact (X8_edgecloud_positions 8 edgecloud_Stream2.default_params Hr H15).
Defined.

(** X9.  With nStas = 0 edgecloud_Stream2 still returns 0: it creates the
    2 * nWifis backbone and wired nodes and looks up one source node per
    cell, but looks up no sink, installs no application and captures no
    packets. *)
Theorem X9_edgecloud_without_stations (fuel : nat) (W : Z) :
  edgecloud_ready fuel (edgecloud_Stream2.mkParams W 0) ->
  exists w,
    edgecloud_Stream2.main fuel (edgecloud_Stream2.mkParams W 0) empty_world
      = Done 0 w /\
    Z.of_nat (length (nodes w)) = 2 * W /\
    lookups appSource (log w) =
      (fun i => edgecloud_Stream2.firstNodeIndex W (2 * (i / 2))) <$> seqZ 0 W /\
    lookups appSink (log w) = [] /\
    installs (log w) = [] /\
    pcaps (log w) = [].
Proof.
  intros Hr.
  destruct (edgecloud_lookups fuel _ Hr) as (w & Hrun & Hsrc & Hsnk).
  exists w. split; [exact Hrun |].
  rewrite (edgecloud_main_trace fuel _ Hr) in Hrun.
  destruct Hr as (HW & _). unfold is_u32 in HW.
  cbn [edgecloud_Stream2.nWifis edgecloud_Stream2.nStas] in *.
  rewrite Z.mul_0_r in Hsnk.
  split; [| split; [exact Hsrc | split; [exact Hsnk |]]].
  - injection Hrun as <-. cbn [nodes]. rewrite length_block; lia.
  - injection Hrun as <-. cbn [log].
    rewrite edgecloud_installs, edgecloud_pcaps.
    split; apply bind_all_nil; reflexivity.
Qed.

Lemma X9_edgecloud_without_stations_witness :
  edgecloud_ready 8 (edgecloud_Stream2.mkParams 6 0) /\
  exists w,
    edgecloud_Stream2.main 8 (edgecloud_Stream2.mkParams 6 0) empty_world
      = Done 0 w /\
    Z.of_nat (length (nodes w)) = 2 * 6 /\
    lookups appSource (log w) =
      (fun i => edgecloud_Stream2.firstNodeIndex 6 (2 * (i / 2))) <$> seqZ 0 6 /\
    lookups appSink (log w) = [] /\
    installs (log w) = [] /\
    pcaps (log w) = [].
Proof.
  assert (edgecloud_ready 8 (edgecloud_Stream2.mkParams 6 0)) as Hr by ready.
  split; [exact Hr |].
  exact (X9_edgecloud_without_stations 8 6 Hr).
Defined.

(** ** Outcomes of wifi_p2p *)

Ltac construction_silent B K :=
  unfold wifi_trace.construction;
  rewrite !omap_app, !omap_bind;
  rewrite (bind_all_nil (fun i => omap _ (wifi_trace.lan_network B K i)))
    by reflexivity;
  rewrite (bind_all_nil (fun i => omap _ (wifi_trace.mobile_network B K i)))
    by (intros i; unfold wifi_trace.mobile_network;
        rewrite !omap_app, omap_fmap_none by reflexivity; reflexivity);
  reflexivity.

Lemma wifi_construction_lookups v B K :
  lookups v (wifi_trace.construction B K) = [].
Proof. unfold lookups. construction_silent B K. Qed.

Lemma wifi_construction_installs B K :
  installs (wifi_trace.construction B K) = [].
Proof. unfold installs. construction_silent B K. Qed.

Lemma wifi_construction_pcaps B K :
  pcaps (wifi_trace.construction B K) = [].
Proof. unfold pcaps. construction_silent B K. Qed.

Lemma wifi_construction_simulator B K :
  simulator_calls (wifi_trace.construction B K) = [].
Proof. unfold simulator_calls. construction_silent B K. Qed.

Lemma wifi_lookups_after v B K tail :
  lookups v (wifi_trace.construction B K ++ tail) = lookups v tail.
Proof.
  pose proof (wifi_construction_lookups v B K) as H.
  unfold lookups in H |- *. rewrite omap_app, H. reflexivity.
Qed.

Lemma wifi_installs_after B K tail :
  installs (wifi_trace.construction B K ++ tail) = installs tail.
Proof.
  pose proof (wifi_construction_installs B K) as H.
  unfold installs in H |- *. rewrite omap_app, H. reflexivity.
Qed.

Lemma wifi_pcaps_after B K tail :
  pcaps (wifi_trace.construction B K ++ tail) = pcaps tail.
Proof.
  pose proof (wifi_construction_pcaps B K) as H.
  unfold pcaps in H |- *. rewrite omap_app, H. reflexivity.
Qed.

Lemma wifi_simulator_after B K tail :
  simulator_calls (wifi_trace.construction B K ++ tail) = simulator_calls tail.
Proof.
  pose proof (wifi_construction_simulator B K) as H.
  unfold simulator_calls in H |- *. rewrite omap_app, H. reflexivity.
Qed.

(** The two node indices of wifi_p2p when the sums do not wrap. *)
Lemma wifi_indices_small B lan :
  is_u32 B -> is_u32 lan ->
  B + 2 < uint32_modulus -> B + B * lan < uint32_modulus ->
  wifi_p2p.firstNodeIndex B = B + 2 /\
  wifi_p2p.lastNodeIndex B lan = B + B * lan.
Proof.
  unfold is_u32. intros HB Hlan Hf Hl.
  unfold wifi_p2p.firstNodeIndex, wifi_p2p.lastNodeIndex.
  rewrite (u32_small (B + 2)) by (unfold is_u32; lia).
  rewrite (u32_small (B * lan)) by (unfold is_u32; nia).
  rewrite (u32_small (B + B * lan)) by (unfold is_u32; nia).
  split; reflexivity.
Qed.

(** X10.  wifi_p2p stops at the lookup of the sink node when the source index
    backboneNodes + 2 is inside the node list but lanNodes exceeds
    infraNodes: the sink index backboneNodes + backboneNodes * lanNodes is
    then at or beyond the backboneNodes * (2 + infraNodes) created nodes.
    Both lookups have been made; no application is installed and the
    simulator is never started. *)
Theorem X10_wifi_p2p_sink_lookup_out_of_range (fuel : nat)
    (p : wifi_p2p.params) :
  wifi_ready fuel p ->
  wifi_p2p.backboneNodes p + wifi_p2p.backboneNodes p * wifi_p2p.lanNodes p
    < uint32_modulus ->
  2 < wifi_p2p.backboneNodes p * (1 + wifi_p2p.infraNodes p) ->
  wifi_p2p.infraNodes p < wifi_p2p.lanNodes p ->
  exists w,
    let B := wifi_p2p.backboneNodes p in
    let K := wifi_p2p.infraNodes p in
    let lan := wifi_p2p.lanNodes p in
    wifi_p2p.main fuel p empty_world
      = Fault (NodeIndexOutOfRange (B + B * lan)) w /\
    Z.of_nat (length (nodes w)) = B * (2 + K) /\
    B * (2 + K) <= B + B * lan /\
    lookups appSource (log w) = [B + 2] /\
    lookups appSink (log w) = [B + B * lan] /\
    installs (log w) = [] /\
    simulator_calls (log w) = [].
Proof.
  intros Hr Hl32 Hsrc Hlan.
  pose proof Hr as (HB & HK & HL & _).
  set (B := wifi_p2p.backboneNodes p) in *.
  set (K := wifi_p2p.infraNodes p) in *.
  set (lan := wifi_p2p.lanNodes p) in *.
  destruct (wifi_indices_small B lan HB HL) as [Ef El];
    [unfold is_u32 in *; nia | exact Hl32 |].
  unfold is_u32 in HB, HK, HL.
  destruct (wifi_main_trace fuel p Hr)
    as [(Hc & Hrun) | [(Hc & Hrun) | (Hf & Hl & Hrun)]];
    fold B K lan in Hc || fold B K lan in Hf, Hl;
    fold B K lan in Hrun; rewrite ?Ef, ?El in *; try nia.
  eexists. cbn zeta. split; [exact Hrun |].
  cbn [nodes log]. split; [rewrite length_block; nia |].
  split; [lia |].
  rewrite !wifi_lookups_after, wifi_installs_after, wifi_simulator_after.
  repeat split; reflexivity.
Qed.

Lemma X10_wifi_p2p_sink_lookup_out_of_range_witness :
  wifi_ready 4 (wifi_p2p.mkParams 3 2 3) /\
  3 + 3 * 3 < uint32_modulus /\
  2 < 3 * (1 + 2) /\
  2 < 3 /\
  exists w,
    wifi_p2p.main 4 (wifi_p2p.mkParams 3 2 3) empty_world
      = Fault (NodeIndexOutOfRange (3 + 3 * 3)) w /\
    Z.of_nat (length (nodes w)) = 3 * (2 + 2) /\
    3 * (2 + 2) <= 3 + 3 * 3 /\
    lookups appSource (log w) = [3 + 2] /\
    lookups appSink (log w) = [3 + 3 * 3] /\
    installs (log w) = [] /\
    simulator_calls (log w) = [].
Proof.
  assert (wifi_ready 4 (wifi_p2p.mkParams 3 2 3)) as Hr by ready.
  assert (3 + 3 * 3 < uint32_modulus) as H1 by reflexivity.
  assert (2 < 3 * (1 + 2)) as H2 by reflexivity.
  assert (2 < 3) as H3 by reflexivity.
  split; [exact Hr |]. split; [exact H1 |]. split; [exact H2 |].
  split; [exact H3 |].
  exact (X10_wifi_p2p_sink_lookup_out_of_range 4 (wifi_p2p.mkParams 3 2 3)
           Hr H1 H2 H3).
Defined.

(** X11.  When the two index sums do not wrap, wifi_p2p returns 0 exactly
    when backboneNodes * (1 + infraNodes) exceeds 2 and lanNodes is at most
    infraNodes.  Otherwise it stops at one of its two node lookups: at the
    lookup of the source node backboneNodes + 2 when
    backboneNodes * (1 + infraNodes) is at most 2, and else, lanNodes
    exceeding infraNodes, at the lookup of the sink node
    backboneNodes + backboneNodes * lanNodes; that lookup is the last call
    the run makes. *)
Theorem X11_wifi_p2p_returns_iff (fuel : nat) (p : wifi_p2p.params) :
  wifi_ready fuel p ->
  wifi_p2p.backboneNodes p + 2 < uint32_modulus ->
  wifi_p2p.backboneNodes p + wifi_p2p.backboneNodes p * wifi_p2p.lanNodes p
    < uint32_modulus ->
  ((exists w, wifi_p2p.main fuel p empty_world = Done 0 w) <->
   (2 < wifi_p2p.backboneNodes p * (1 + wifi_p2p.infraNodes p) /\
    wifi_p2p.lanNodes p <= wifi_p2p.infraNodes p)) /\
  (wifi_p2p.backboneNodes p * (1 + wifi_p2p.infraNodes p) <= 2 ->
   exists w pre,
     wifi_p2p.main fuel p empty_world
       = Fault (NodeIndexOutOfRange (wifi_p2p.backboneNodes p + 2)) w /\
     log w = pre ++ [EvGetNode appSource (wifi_p2p.backboneNodes p + 2)]) /\
  (2 < wifi_p2p.backboneNodes p * (1 + wifi_p2p.infraNodes p) ->
   wifi_p2p.infraNodes p < wifi_p2p.lanNodes p ->
   exists w pre,
     wifi_p2p.main fuel p empty_world
       = Fault (NodeIndexOutOfRange
                  (wifi_p2p.backboneNodes p
                   + wifi_p2p.backboneNodes p * wifi_p2p.lanNodes p)) w /\
     log w = pre ++ [EvGetNode appSink
                       (wifi_p2p.backboneNodes p
                        + wifi_p2p.backboneNodes p * wifi_p2p.lanNodes p)]).
Proof.
  intros Hr Hf32 Hl32.
  pose proof Hr as (HB & HK & HL & _).
  set (B := wifi_p2p.backboneNodes p) in *.
  set (K := wifi_p2p.infraNodes p) in *.
  set (lan := wifi_p2p.lanNodes p) in *.
  destruct (wifi_indices_small B lan HB HL Hf32 Hl32) as [Ef El].
  unfold is_u32 in HB, HK, HL.
  destruct (wifi_main_trace fuel p Hr)
    as [(Hc & Hrun) | [(Hc & Hrun) | (Hf & Hl & Hrun)]];
    fold B K lan in Hc || fold B K lan in Hf, Hl;
    fold B K lan in Hrun; rewrite Hrun; rewrite ?Ef, ?El in *.
  - split; [| split].
    + split; [intros (w & Hw); discriminate Hw | intros (H1 & H2); nia].
    + intros _. do 2 eexists. split; reflexivity.
    + intros H1 H2. nia.
  - split; [| split].
    + split; [intros (w & Hw); discriminate Hw | intros (H1 & H2); nia].
    + intros H1. nia.
    + intros _ _. do 2 eexists. split; [reflexivity |].
      cbn [log].
      change [EvGetNode appSource (B + 2); EvGetNode appSink (B + B * lan)]
        with ([EvGetNode appSource (B + 2)] ++ [EvGetNode appSink (B + B * lan)]).
      rewrite app_assoc. reflexivity.
  - split; [| split].
    + split; [intros _; split; nia | intros _; eexists; reflexivity].
    + intros H1. nia.
    + intros H1 H2. nia.
Qed.

Lemma X11_wifi_p2p_returns_iff_witness :
  wifi_ready 4 wifi_p2p.default_params /\
  3 + 2 < uint32_modulus /\
  3 + 3 * 1 < uint32_modulus /\
  ((exists w, wifi_p2p.main 4 wifi_p2p.default_params empty_world = Done 0 w)
   <-> (2 < 3 * (1 + 2) /\ 1 <= 2)) /\
  (3 * (1 + 2) <= 2 ->
   exists w pre,
     wifi_p2p.main 4 wifi_p2p.default_params empty_world
       = Fault (NodeIndexOutOfRange (3 + 2)) w /\
     log w = pre ++ [EvGetNode appSource (3 + 2)]) /\
  (2 < 3 * (1 + 2) ->
   2 < 1 ->
   exists w pre,
     wifi_p2p.main 4 wifi_p2p.default_params empty_world
       = Fault (NodeIndexOutOfRange (3 + 3 * 1)) w /\
     log w = pre ++ [EvGetNode appSink (3 + 3 * 1)]).
Proof.
  assert (wifi_ready 4 wifi_p2p.default_params) as Hr by ready.
  assert (3 + 2 < uint32_modulus) as H1 by reflexivity.
  assert (3 + 3 * 1 < uint32_modulus) as H2 by reflexivity.
  split; [exact Hr |]. split; [exact H1 |]. split; [exact H2 |].
  exact (X11_wifi_p2p_returns_iff 4 wifi_p2p.default_params Hr H1 H2).
Defined.

(** X12.  Whenever wifi_p2p returns, its one echo server is on node
    f = (backboneNodes + 2) mod 2^32 and its one echo client, which is also
    the one node whose packets are captured by id, on node
    l = (backboneNodes + (backboneNodes * lanNodes) mod 2^32) mod 2^32, both
    inside the node list.  A node of index n is backbone node n if
    n < backboneNodes, the wired node of backbone node n - backboneNodes if
    backboneNodes <= n < 2 * backboneNodes, and otherwise the station
    (n - 2 * backboneNodes) mod infraNodes of cell
    (n - 2 * backboneNodes) / infraNodes.  When the sums do not wrap, f is
    backboneNodes + 2 and l is backboneNodes + backboneNodes * lanNodes. *)
Theorem X12_wifi_p2p_endpoints (fuel : nat) (p : wifi_p2p.params) (w : world) :
  wifi_ready fuel p ->
  wifi_p2p.main fuel p empty_world = Done 0 w ->
  let B := wifi_p2p.backboneNodes p in
  let K := wifi_p2p.infraNodes p in
  let lan := wifi_p2p.lanNodes p in
  let f := wifi_p2p.firstNodeIndex B in
  let l := wifi_p2p.lastNodeIndex B lan in
  installs (log w) =
    [mkApp UdpEchoServer f 9 None;
     mkApp UdpEchoClient l 9 (Some (GetLocal f 1 0))] /\
  pcaps (log w) = [l] /\
  (forall n, n = f \/ n = l ->
     0 <= n < B * (2 + K) /\
     (n < B ->
        nodes w !! Z.to_nat n = Some (mkNode n Backbone n)) /\
     (B <= n < 2 * B ->
        nodes w !! Z.to_nat n = Some (mkNode n (Wired (n - B)) 0)) /\
     (2 * B <= n ->
        nodes w !! Z.to_nat n =
        Some (mkNode n (Station ((n - 2 * B) / K)) ((n - 2 * B) mod K)))) /\
  (B + 2 < uint32_modulus -> f = B + 2) /\
  (B + B * lan < uint32_modulus -> l = B + B * lan).
Proof.
  intros Hr Hdone B K lan f l.
  pose proof Hr as (HB & HK & HL & _). fold B in HB. fold K in HK. fold lan in HL.
  destruct (wifi_main_trace fuel p Hr)
    as [(_ & Hrun) | [(_ & Hrun) | (Hf & Hl & Hrun)]];
    rewrite Hrun in Hdone; try discriminate Hdone.
  fold B K lan f in Hf. fold B K lan l in Hl.
  assert (w = mkWorld (block B K 0 (B * (2 + K)))
                (wifi_trace.construction B K ++ wifi_trace.applications B K f l))
    as -> by (injection Hdone as Hw; symmetry; exact Hw).
  clear Hdone. cbn [nodes log].
  assert (is_u32 f) as Hfu by apply u32_range.
  assert (is_u32 l) as Hlu by apply u32_range.
  rewrite wifi_installs_after, wifi_pcaps_after.
  unfold wifi_trace.applications, installs, pcaps. cbn [omap list_omap].
  rewrite !node_id_node_at, (u32_small f Hfu), (u32_small l Hlu).
  split; [reflexivity |]. split; [reflexivity |].
  unfold is_u32 in HB, HK, HL.
  split; [| split].
  - intros n Hn.
    assert (0 <= n < B * (2 + K) /\ is_u32 n) as [Hn0 Hnu].
    { destruct Hn as [-> | ->]; unfold is_u32 in *; lia. }
    split; [exact Hn0 |].
    rewrite lookup_block by lia. unfold node_at.
    rewrite (u32_small n Hnu).
    split; [| split]; intros Hcase.
    + destruct (Z.ltb_spec n B) as [_|]; [reflexivity | lia].
    + destruct (Z.ltb_spec n B) as [|_]; [lia |].
      destruct (Z.ltb_spec n (2 * B)) as [_|]; [reflexivity | lia].
    + destruct (Z.ltb_spec n B) as [|_]; [lia |].
      destruct (Z.ltb_spec n (2 * B)) as [|_]; [lia | reflexivity].
  - intros H32. subst f. unfold wifi_p2p.firstNodeIndex.
    apply u32_small. unfold is_u32. lia.
  - intros H32. subst l. unfold wifi_p2p.lastNodeIndex.
    rewrite (u32_small (B * lan)) by (unfold is_u32; nia).
    apply u32_small. unfold is_u32. nia.
Qed.

Lemma X12_wifi_p2p_endpoints_witness :
  wifi_ready 4 wifi_p2p.default_params /\
  exists w,
    wifi_p2p.main 4 wifi_p2p.default_params empty_world = Done 0 w /\
    installs (log w) =
      [mkApp UdpEchoServer (wifi_p2p.firstNodeIndex 3) 9 None;
       mkApp UdpEchoClient (wifi_p2p.lastNodeIndex 3 1) 9
             (Some (GetLocal (wifi_p2p.firstNodeIndex 3) 1 0))] /\
    pcaps (log w) = [wifi_p2p.lastNodeIndex 3 1] /\
    (forall n, n = wifi_p2p.firstNodeIndex 3 \/ n = wifi_p2p.lastNodeIndex 3 1 ->
       0 <= n < 3 * (2 + 2) /\
       (n < 3 ->
          nodes w !! Z.to_nat n = Some (mkNode n Backbone n)) /\
       (3 <= n < 2 * 3 ->
          nodes w !! Z.to_nat n = Some (mkNode n (Wired (n - 3)) 0)) /\
       (2 * 3 <= n ->
          nodes w !! Z.to_nat n =
          Some (mkNode n (Station ((n - 2 * 3) / 2)) ((n - 2 * 3) mod 2)))) /\
    (3 + 2 < uint32_modulus -> wifi_p2p.firstNodeIndex 3 = 3 + 2) /\
    (3 + 3 * 1 < uint32_modulus -> wifi_p2p.lastNodeIndex 3 1 = 3 + 3 * 1).
Proof.
  assert (wifi_ready 4 wifi_p2p.default_params) as Hr by ready.
  split; [exact Hr |].
  assert (exists w, wifi_p2p.main 4 wifi_p2p.default_params empty_world
                    = Done 0 w) as [w Hrun]
    by (eexists; vm_compute; reflexivity).
  exists w. split; [exact Hrun |].
  exact (X12_wifi_p2p_endpoints 4 wifi_p2p.default_params w Hr Hrun).
Defined.

(** X13.  Whether wifi_p2p returns or stops at a node lookup, when the node
    ids do not wrap it has handed to Ipv4AddressHelper::Assign the devices
    of all backbone nodes, then for each i the pair of backbone node i and
    its wired node, then for each i backbone node i with the infraNodes
    stations of its cell; every wired node got the position (0, 10, 0) and
    the allocator of every cell got the infraNodes + 1 positions (0, j, 0),
    j = 0 .. infraNodes. *)
Theorem X13_wifi_p2p_addresses_and_positions (fuel : nat)
    (p : wifi_p2p.params) :
  wifi_ready fuel p ->
  wifi_p2p.backboneNodes p * (2 + wifi_p2p.infraNodes p) <= uint32_modulus ->
  exists w,
    final_world (wifi_p2p.main fuel p empty_world) = Some w /\
    let B := wifi_p2p.backboneNodes p in
    let K := wifi_p2p.infraNodes p in
    assigns (log w) =
      [seqZ 0 B] ++
      ((fun i => [i; B + i]) <$> seqZ 0 B) ++
      ((fun i => i :: seqZ (2 * B + i * K) K) <$> seqZ 0 B) /\
    positions (log w) =
      replicate (Z.to_nat B) (0, 10, 0) ++
      (seqZ 0 B ≫= (fun _ => (fun j => (0, j, 0)) <$> seqZ 0 (K + 1))).
Proof.
  intros Hr HN.
  destruct (wifi_final fuel p Hr) as (tail & Hfin & _ & Ha & Hp & _).
  eexists. split; [exact Hfin |].
  destruct Hr as (HB & HK & _).
  set (B := wifi_p2p.backboneNodes p) in *.
  set (K := wifi_p2p.infraNodes p) in *.
  unfold is_u32 in HB, HK. cbn [nodes log].
  pose proof (wifi_assigns B K) as HA. pose proof (wifi_positions B K) as HP.
  unfold assigns, positions in *. rewrite !omap_app, Ha, Hp, !app_nil_r.
  rewrite HA, HP. split; [apply assigns_small; lia |].
  rewrite bind_const_seqZ. f_equal.
  apply bind_seqZ_ext. intros i Hi.
  rewrite (u32_small (1 + K)) by (unfold is_u32; nia).
  rewrite (Z.add_comm 1 K). reflexivity.
Qed.

Lemma X13_wifi_p2p_addresses_and_positions_witness :
  wifi_ready 4 wifi_p2p.default_params /\
  3 * (2 + 2) <= uint32_modulus /\
  exists w,
    final_world (wifi_p2p.main 4 wifi_p2p.default_params empty_world)
      = Some w /\
    assigns (log w) =
      [seqZ 0 3] ++
      ((fun i => [i; 3 + i]) <$> seqZ 0 3) ++
      ((fun i => i :: seqZ (2 * 3 + i * 2) 2) <$> seqZ 0 3) /\
    positions (log w) =
      replicate (Z.to_nat 3) (0, 10, 0) ++
      (seqZ 0 3 ≫= (fun _ => (fun j => (0, j, 0)) <$> seqZ 0 (2 + 1))).
Proof.
  assert (wifi_ready 4 wifi_p2p.default_params) as Hr by ready.
  assert (3 * (2 + 2) <= uint32_modulus) as H1 by (vm_compute; discriminate).
  split; [exact Hr |]. split; [exact H1 |].
  exact (X13_wifi_p2p_addresses_and_positions 4 wifi_p2p.default_params Hr H1).
Defined.

(** ** Protocol stacks and mobility models *)

Lemma mjoin_bind_singleton {A B : Type} (f : A -> list B) (l : list A) :
  mjoin (l ≫= (fun x => [f x])) = l ≫= f.
Proof.
  induction l as [| x l IH]; [reflexivity |].
  rewrite !bind_cons, join_app, IH. cbn. rewrite app_nil_r. reflexivity.
Qed.

Lemma seqZ_runs (a per n : Z) :
  0 <= per -> 0 <= n ->
  seqZ 0 n ≫= (fun i => seqZ (a + i * per) per) = seqZ a (n * per).
Proof.
  intros Hper Hn. rewrite <- (seqZ_blocks a per n Hper Hn).
  apply bind_seqZ_ext. intros i _. symmetry. apply bind_singleton_seqZ.
Qed.

(** The node sets of the backbone, of the wired branches and of the cells,
    taken together, are all nodes in creation order. *)
Lemma node_sets_cover (cells per : Z) :
  0 <= cells -> 0 <= per -> cells * (2 + per) <= uint32_modulus ->
  mjoin ([u32 <$> seqZ 0 cells] ++
         (seqZ 0 cells ≫= (fun i => [u32 <$> seqZ (cells + i) 1])) ++
         (seqZ 0 cells ≫= (fun i => [u32 <$> seqZ (2 * cells + i * per) per])))
  = seqZ 0 (cells * (2 + per)).
Proof.
  intros Hc Hp HN.
  rewrite !join_app, !mjoin_bind_singleton. cbn [mjoin list_join].
  rewrite app_nil_r, u32_seqZ_small by nia.
  rewrite (bind_seqZ_ext _ (fun i => seqZ (cells + i * 1) 1)).
  2: { intros i Hi. rewrite u32_seqZ_small by nia. rewrite Z.mul_1_r. reflexivity. }
  rewrite (bind_seqZ_ext (fun i => u32 <$> seqZ (2 * cells + i * per) per)
             (fun i => seqZ (2 * cells + i * per) per)).
  2: { intros i Hi. apply u32_seqZ_small; nia. }
  rewrite !seqZ_runs by lia.
  replace (cells * (2 + per)) with (cells + (cells * 1 + cells * per)) by lia.
  rewrite !seqZ_app by nia.
  repeat f_equal; lia.
Qed.

Lemma edgecloud_internet_installs W S :
  internet_installs (edgecloud_trace.whole W S) =
  [u32 <$> seqZ 0 W] ++
  (seqZ 0 W ≫= (fun i => [u32 <$> seqZ (W + i) 1])) ++
  (seqZ 0 W ≫= (fun i => [u32 <$> seqZ (2 * W + i * S) S])).
Proof.
  unfold edgecloud_trace.whole, internet_installs.
  rewrite !omap_app, !omap_bind.
  rewrite (bind_all_nil (fun i => omap _ (edgecloud_trace.echo_cell W S i))).
  2: { intros i. unfold edgecloud_trace.echo_cell. cbn.
       rewrite omap_bind. apply bind_all_nil. reflexivity. }
  cbn. rewrite app_nil_r, ids_block. f_equal. f_equal.
  - apply list_bind_ext; [| reflexivity]. intros i.
    unfold edgecloud_trace.p2p_network. cbn -[block].
    fold (ids (block W S (W + i) 1)).
    rewrite ids_block. reflexivity.
  - apply list_bind_ext; [| reflexivity]. intros i.
    unfold edgecloud_trace.mobile_network.
    rewrite !omap_app, omap_fmap_none by reflexivity. cbn -[block].
    fold (ids (block W S (2 * W + i * S) S)).
    rewrite ids_block. reflexivity.
Qed.

Lemma edgecloud_mobility_installs W S :
  mobility_installs (edgecloud_trace.whole W S) =
  [u32 <$> seqZ 0 W] ++
  (seqZ 0 W ≫= (fun i => [u32 <$> seqZ (W + i) 1])) ++
  (seqZ 0 W ≫= (fun i => [u32 <$> seqZ (2 * W + i * S) S])).
Proof.
  unfold edgecloud_trace.whole, mobility_installs.
  rewrite !omap_app, !omap_bind.
  rewrite (bind_all_nil (fun i => omap _ (edgecloud_trace.echo_cell W S i))).
  2: { intros i. unfold edgecloud_trace.echo_cell. cbn.
       rewrite omap_bind. apply bind_all_nil. reflexivity. }
  cbn. rewrite app_nil_r, ids_block. f_equal. f_equal.
  - apply list_bind_ext; [| reflexivity]. intros i.
    unfold edgecloud_trace.p2p_network. cbn -[block].
    fold (ids (block W S (W + i) 1)).
    rewrite ids_block. reflexivity.
  - apply list_bind_ext; [| reflexivity]. intros i.
    unfold edgecloud_trace.mobile_network.
    rewrite !omap_app, omap_fmap_none by reflexivity. cbn -[block].
    fold (ids (block W S (2 * W + i * S) S)).
    rewrite ids_block. reflexivity.
Qed.

(** X14.  When the node ids do not wrap, edgecloud_Stream2 installs the
    internet stack on every created node exactly once, and a mobility model
    on every created node exactly once: the node sets of the Install calls,
    taken in call order, list the nodes 0 .. nWifis * (2 + nStas) - 1 in
    creation order without repetition. *)
Theorem X14_edgecloud_stack_and_mobility_once (fuel : nat)
    (p : edgecloud_Stream2.params) :
  edgecloud_ready fuel p ->
  edgecloud_Stream2.nWifis p * (2 + edgecloud_Stream2.nStas p)
    <= uint32_modulus ->
  exists w,
    edgecloud_Stream2.main fuel p empty_world = Done 0 w /\
    let N := edgecloud_Stream2.nWifis p * (2 + edgecloud_Stream2.nStas p) in
    mjoin (internet_installs (log w)) = seqZ 0 N /\
    mjoin (mobility_installs (log w)) = seqZ 0 N /\
    node_id <$> nodes w = seqZ 0 N.
Proof.
  intros Hr HN. eexists. split; [apply edgecloud_main_trace, Hr |].
  set (W := edgecloud_Stream2.nWifis p) in *.
  set (S := edgecloud_Stream2.nStas p) in *.
  destruct Hr as (HW & HS & _). fold W in HW. fold S in HS.
  unfold is_u32 in HW, HS. cbn [nodes log].
  rewrite edgecloud_internet_installs, edgecloud_mobility_installs.
  rewrite !node_sets_cover by lia.
  split; [reflexivity |]. split; [reflexivity |].
  fold (ids (block W S 0 (W * (2 + S)))).
  rewrite ids_block. apply u32_seqZ_small; lia.
Qed.

Lemma X14_edgecloud_stack_and_mobility_once_witness :
  edgecloud_ready 8 edgecloud_Stream2.default_params /\
  6 * (2 + 4) <= uint32_modulus /\
  exists w,
    edgecloud_Stream2.main 8 edgecloud_Stream2.default_params empty_world
      = Done 0 w /\
    mjoin (internet_installs (log w)) = seqZ 0 (6 * (2 + 4)) /\
    mjoin (mobility_installs (log w)) = seqZ 0 (6 * (2 + 4)) /\
    node_id <$> nodes w = seqZ 0 (6 * (2 + 4)).
Proof.
  assert (edgecloud_ready 8 edgecloud_Stream2.default_params) as Hr by ready.
  assert (6 * (2 + 4) <= uint32_modulus) as HN by (vm_compute; discriminate).
  split; [exact Hr |]. split; [exact HN |].
  exact (X14_edgecloud_stack_and_mobility_once 8
           edgecloud_Stream2.default_params Hr HN).
Defined.

Lemma wifi_internet_installs B K :
  internet_installs (wifi_trace.construction B K) =
  [u32 <$> seqZ 0 B] ++
  (seqZ 0 B ≫= (fun i => [u32 <$> seqZ (B + i) 1])) ++
  (seqZ 0 B ≫= (fun i => [u32 <$> seqZ (2 * B + i * K) K])).
Proof.
  unfold wifi_trace.construction, internet_installs.
  rewrite !omap_app, !omap_bind.
  cbn. rewrite app_nil_r, ids_block. f_equal. f_equal.
  - apply list_bind_ext; [| reflexivity]. intros i.
    unfold wifi_trace.lan_network. cbn -[block].
    fold (ids (block B K (B + i) 1)).
    rewrite ids_block. reflexivity.
  - apply list_bind_ext; [| reflexivity]. intros i.
    unfold wifi_trace.mobile_network.
    rewrite !omap_app, omap_fmap_none by reflexivity. cbn -[block].
    fold (ids (block B K (2 * B + i * K) K)).
    rewrite ids_block. reflexivity.
Qed.

Lemma wifi_mobility_installs B K :
  mobility_installs (wifi_trace.construction B K) =
  [u32 <$> seqZ 0 B] ++
  (seqZ 0 B ≫= (fun i => [u32 <$> seqZ (B + i) 1])) ++
  (seqZ 0 B ≫= (fun i => [u32 <$> seqZ (2 * B + i * K) K])).
Proof.
  unfold wifi_trace.construction, mobility_installs.
  rewrite !omap_app, !omap_bind.
  cbn. rewrite app_nil_r, ids_block. f_equal. f_equal.
  - apply list_bind_ext; [| reflexivity]. intros i.
    unfold wifi_trace.lan_network. cbn -[block].
    fold (ids (block B K (B + i) 1)).
    rewrite ids_block. reflexivity.
  - apply list_bind_ext; [| reflexivity]. intros i.
    unfold wifi_trace.mobile_network.
    rewrite !omap_app, omap_fmap_none by reflexivity. cbn -[block].
    fold (ids (block B K (2 * B + i * K) K)).
    rewrite ids_block. reflexivity.
Qed.

(** X15.  Whether wifi_p2p returns or stops at a node lookup, when the node
    ids do not wrap it has installed the internet stack on every created
    node exactly once and a mobility model on every created node exactly
    once, in creation order. *)
Theorem X15_wifi_p2p_stack_and_mobility_once (fuel : nat)
    (p : wifi_p2p.params) :
  wifi_ready fuel p ->
  wifi_p2p.backboneNodes p * (2 + wifi_p2p.infraNodes p) <= uint32_modulus ->
  exists w,
    final_world (wifi_p2p.main fuel p empty_world) = Some w /\
    let N := wifi_p2p.backboneNodes p * (2 + wifi_p2p.infraNodes p) in
    mjoin (internet_installs (log w)) = seqZ 0 N /\
    mjoin (mobility_installs (log w)) = seqZ 0 N /\
    node_id <$> nodes w = seqZ 0 N.
Proof.
  intros Hr HN.
  destruct (wifi_final fuel p Hr) as (tail & Hfin & _ & _ & _ & Hi & Hm & _).
  eexists. split; [exact Hfin |].
  destruct Hr as (HB & HK & _).
  set (B := wifi_p2p.backboneNodes p) in *.
  set (K := wifi_p2p.infraNodes p) in *.
  unfold is_u32 in HB, HK. cbn [nodes log].
  pose proof (wifi_internet_installs B K) as HI.
  pose proof (wifi_mobility_installs B K) as HM.
  unfold internet_installs, mobility_installs in *.
  rewrite !omap_app, Hi, Hm, !app_nil_r, HI, HM.
  rewrite !node_sets_cover by lia.
  split; [reflexivity |]. split; [reflexivity |].
  fold (ids (block B K 0 (B * (2 + K)))).
  rewrite ids_block. apply u32_seqZ_small; lia.
Qed.

Lemma X15_wifi_p2p_stack_and_mobility_once_witness :
  wifi_ready 4 wifi_p2p.default_params /\
  3 * (2 + 2) <= uint32_modulus /\
  exists w,
    final_world (wifi_p2p.main 4 wifi_p2p.default_params empty_world)
      = Some w /\
    mjoin (internet_installs (log w)) = seqZ 0 (3 * (2 + 2)) /\
    mjoin (mobility_installs (log w)) = seqZ 0 (3 * (2 + 2)) /\
    node_id <$> nodes w = seqZ 0 (3 * (2 + 2)).
Proof.
  assert (wifi_ready 4 wifi_p2p.default_params) as Hr by ready.
  assert (3 * (2 + 2) <= uint32_modulus) as H1 by (vm_compute; discriminate).
  split; [exact Hr |]. split; [exact H1 |].
  exact (X15_wifi_p2p_stack_and_mobility_once 4 wifi_p2p.default_params Hr H1).
Defined.

(** ** Order of the phases *)

Ltac edgecloud_topology_silent W S :=
  rewrite !omap_app, !omap_bind;
  rewrite (bind_all_nil (fun i => omap _ (edgecloud_trace.p2p_network W S i)))
    by reflexivity;
  rewrite (bind_all_nil (fun i => omap _ (edgecloud_trace.mobile_network W S i)))
    by (intros i; unfold edgecloud_trace.mobile_network;
        rewrite !omap_app, omap_fmap_none by reflexivity; reflexivity);
  reflexivity.

Ltac edgecloud_applications_silent W S :=
  rewrite !omap_app, !omap_bind;
  rewrite (bind_all_nil (fun i => omap _ (edgecloud_trace.echo_cell W S i)))
    by (intros i; unfold edgecloud_trace.echo_cell; cbn;
        rewrite omap_bind; apply bind_all_nil; reflexivity);
  reflexivity.

Lemma edgecloud_routed_after_topology W S :
  routed_after_topology (edgecloud_trace.whole W S).
Proof.
  exists ([EvSetResolution "NS";
           EvLogComponentEnable "UdpTraceClient";
           EvLogComponentEnable "UdpEchoServerApplication"] ++
          edgecloud_trace.backbone W S ++
          [EvSetBase "172.16.0.0" "255.255.255.0"] ++
          (seqZ 0 W ≫= edgecloud_trace.p2p_network W S) ++
          [EvSetBase "10.0.0.0" "255.255.255.0"] ++
          (seqZ 0 W ≫= edgecloud_trace.mobile_network W S)).
  exists ((seqZ 0 W ≫= edgecloud_trace.echo_cell W S) ++
          edgecloud_trace.tracing ++ edgecloud_trace.run).
  split; [unfold edgecloud_trace.whole; rewrite <- !app_assoc; reflexivity |].
  split.
  { unfold edgecloud_trace.whole, routing_calls.
    rewrite !omap_app, !omap_bind.
    rewrite (bind_all_nil (fun i => omap _ (edgecloud_trace.p2p_network W S i)))
      by reflexivity.
    rewrite (bind_all_nil (fun i => omap _ (edgecloud_trace.mobile_network W S i)))
      by (intros i; unfold edgecloud_trace.mobile_network;
          rewrite !omap_app, omap_fmap_none by reflexivity; reflexivity).
    rewrite (bind_all_nil (fun i => omap _ (edgecloud_trace.echo_cell W S i)))
      by (intros i; unfold edgecloud_trace.echo_cell; cbn;
          rewrite omap_bind; apply bind_all_nil; reflexivity).
    reflexivity. }
  unfold lookups, installs, setbases, assigns, internet_installs,
    mobility_installs.
  repeat split;
    first [edgecloud_topology_silent W S | edgecloud_applications_silent W S].
Qed.

Lemma wifi_routed_after_topology B K tail :
  setbases tail = [] -> assigns tail = [] ->
  internet_installs tail = [] -> mobility_installs tail = [] ->
  routing_calls tail = [] ->
  routed_after_topology (wifi_trace.construction B K ++ tail).
Proof.
  intros Hs Ha Hi Hm Hr.
  exists ([EvSetResolution "NS";
           EvLogComponentEnable "UdpEchoClientApplication";
           EvLogComponentEnable "UdpEchoServerApplication"] ++
          wifi_trace.backbone B K ++
          [EvSetBase "172.16.0.0" "255.255.255.0"] ++
          (seqZ 0 B ≫= wifi_trace.lan_network B K) ++
          [EvSetBase "10.0.0.0" "255.255.255.0"] ++
          (seqZ 0 B ≫= wifi_trace.mobile_network B K)).
  exists tail.
  split; [unfold wifi_trace.construction; rewrite <- !app_assoc; reflexivity |].
  split.
  { unfold routing_calls in *. rewrite omap_app, Hr.
    unfold wifi_trace.construction.
    rewrite !omap_app, !omap_bind.
    rewrite (bind_all_nil (fun i => omap _ (wifi_trace.lan_network B K i)))
      by reflexivity.
    rewrite (bind_all_nil (fun i => omap _ (wifi_trace.mobile_network B K i)))
      by (intros i; unfold wifi_trace.mobile_network;
          rewrite !omap_app, omap_fmap_none by reflexivity; reflexivity).
    reflexivity. }
  split; [| split; [| split]];
    [| | | repeat split; assumption];
    unfold lookups, installs;
    rewrite !omap_app, !omap_bind;
    rewrite (bind_all_nil (fun i => omap _ (wifi_trace.lan_network B K i)))
      by reflexivity;
    rewrite (bind_all_nil (fun i => omap _ (wifi_trace.mobile_network B K i)))
      by (intros i; unfold wifi_trace.mobile_network;
          rewrite !omap_app, omap_fmap_none by reflexivity; reflexivity);
    reflexivity.
Qed.

(** X16.  Both programs populate the global routing tables exactly once,
    after every call that sets an address base, assigns addresses or
    installs a protocol stack or a mobility model, and before every node
    lookup and every application install; for wifi_p2p also on runs that
    stop at a node lookup. *)
Theorem X16_routing_tables_between_topology_and_applications (fuel : nat)
    (pe : edgecloud_Stream2.params) (pw : wifi_p2p.params) :
  edgecloud_ready fuel pe -> wifi_ready fuel pw ->
  (exists w,
     edgecloud_Stream2.main fuel pe empty_world = Done 0 w /\
     routed_after_topology (log w)) /\
  (exists w,
     final_world (wifi_p2p.main fuel pw empty_world) = Some w /\
     routed_after_topology (log w)).
Proof.
  intros He Hw. split.
  - eexists. split; [apply edgecloud_main_trace, He |].
    cbn [log]. apply edgecloud_routed_after_topology.
  - destruct (wifi_final fuel pw Hw)
      as (tail & Hfin & Hs & Ha & _ & Hi & Hm & Hr).
    eexists. split; [exact Hfin |].
    cbn [log]. apply wifi_routed_after_topology; assumption.
Qed.

Lemma X16_routing_tables_between_topology_and_applications_witness :
  edgecloud_ready 8 edgecloud_Stream2.default_params /\
  wifi_ready 8 wifi_p2p.default_params /\
  (exists w,
     edgecloud_Stream2.main 8 edgecloud_Stream2.default_params empty_world
       = Done 0 w /\
     routed_after_topology (log w)) /\
  (exists w,
     final_world (wifi_p2p.main 8 wifi_p2p.default_params empty_world)
       = Some w /\
     routed_after_topology (log w)).
Proof.
  assert (edgecloud_ready 8 edgecloud_Stream2.default_params) as He by ready.
  assert (wifi_ready 8 wifi_p2p.default_params) as Hw by ready.
  split; [exact He |]. split; [exact Hw |].
  exact (X16_routing_tables_between_topology_and_applications 8
           edgecloud_Stream2.default_params wifi_p2p.default_params He Hw).
Defined.

(** ** Addressing *)

Lemma addressing_after_app st l1 l2 :
  addressing_after st (l1 ++ l2) = addressing_after (addressing_after st l1) l2.
Proof.
  revert st. induction l1 as [| e l1 IH]; intros st; [reflexivity |].
  cbn [app addressing_after]. apply IH.
Qed.

Lemma addressing_from_app st l1 l2 :
  addressing_from st (l1 ++ l2) =
  addressing_from st l1 ++ addressing_from (addressing_after st l1) l2.
Proof.
  revert st. induction l1 as [| e l1 IH]; intros st; [reflexivity |].
  cbn [app addressing_from addressing_after].
  rewrite IH, app_assoc. reflexivity.
Qed.

Lemma addressing_silent_run st l :
  Forall addressing_silent l ->
  addressing_after st l = st /\ addressing_from st l = [].
Proof.
  intros Hl. revert st. induction Hl as [| e l He _ IH]; intros st.
  - split; reflexivity.
  - cbn [addressing_after addressing_from]. rewrite (He st). exact (IH st).
Qed.

(** A loop whose body, entered after [i] NewNetwork calls with no device
    install pending, makes one Assign and one NewNetwork. *)
Lemma addressing_loop (b : option (string * string)) (body : Z -> list event)
    (out : Z -> assignment) (n : Z) :
  0 <= n ->
  (forall i, 0 <= i < n ->
     addressing_after (mkAddressing b i []) (body i) = mkAddressing b (i + 1) [] /\
     addressing_from (mkAddressing b i []) (body i) = [out i]) ->
  addressing_after (mkAddressing b 0 []) (seqZ 0 n ≫= body) = mkAddressing b n [] /\
  addressing_from (mkAddressing b 0 []) (seqZ 0 n ≫= body) = out <$> seqZ 0 n.
Proof.
  intros Hn. revert n Hn. apply (natlike_ind (fun n => _ -> _ /\ _)).
  - intros _. split; reflexivity.
  - intros n Hn IH Hbody. unfold Z.succ.
    destruct IH as [IHa IHf]; [intros i Hi; apply Hbody; lia |].
    destruct (Hbody n ltac:(lia)) as [Ha Hf].
    rewrite bind_seqZ_snoc by lia.
    rewrite addressing_after_app, addressing_from_app, IHa, IHf, Ha, Hf.
    rewrite seqZ_snoc, fmap_app by lia. split; reflexivity.
Qed.

Lemma addressing_seq st l1 l2 st1 o1 st2 o2 :
  addressing_after st l1 = st1 /\ addressing_from st l1 = o1 ->
  addressing_after st1 l2 = st2 /\ addressing_from st1 l2 = o2 ->
  addressing_after st (l1 ++ l2) = st2 /\
  addressing_from st (l1 ++ l2) = o1 ++ o2.
Proof.
  intros [<- <-] [<- <-].
  rewrite addressing_after_app, addressing_from_app. split; reflexivity.
Qed.

Lemma addressing_silent_fmap {A : Type} (f : A -> event) (l : list A) :
  (forall x, addressing_silent (f x)) -> Forall addressing_silent (f <$> l).
Proof. intros Hf. apply Forall_fmap, Forall_forall. intros x _. apply Hf. Qed.

Lemma addressing_silent_bind {A : Type} (f : A -> list event) (l : list A) :
  (forall x, Forall addressing_silent (f x)) ->
  Forall addressing_silent (l ≫= f).
Proof. intros Hf. apply Forall_bind, Forall_forall. intros x _. apply Hf. Qed.

Ltac silent_list :=
  repeat first [apply Forall_nil_2 | apply Forall_cons_2; [intros ?; reflexivity |]].

(** One pass through the loop of the wired branches, and one through the
    loop of the wireless cells; [d] is the delay of the point-to-point link
    and [pos] the calls that fill the position allocator. *)
Lemma addressing_p2p_body (b : option (string * string)) W S i d :
  0 <= i < W -> W <= uint32_modulus ->
  let body :=
    [EvSetAttribute "DataRate" (StringValue "5Mbps");
     EvSetAttribute "Delay" (StringValue d);
     EvInstallDevices PointToPoint (ids (node_at W S i :: block W S (W + i) 1));
     EvInternetInstall (ids (block W S (W + i) 1));
     EvAssign (ids (node_at W S i :: block W S (W + i) 1));
     EvNewNetwork;
     EvPositionAdd 0 10 0;
     EvPushReferenceMobilityModel (node_id (node_at W S i));
     EvSetMobilityModel "ns3::ConstantPositionMobilityModel";
     EvMobilityInstall (ids (block W S (W + i) 1))] in
  addressing_after (mkAddressing b i []) body = mkAddressing b (i + 1) [] /\
  addressing_from (mkAddressing b i []) body =
    [mkAssignment b i [(PointToPoint, [i; u32 (W + i)])] [i; u32 (W + i)]].
Proof.
  intros Hi HW body. subst body.
  assert (ids (node_at W S i :: block W S (W + i) 1) = [i; u32 (W + i)]) as ->.
  { change (ids (node_at W S i :: block W S (W + i) 1))
      with (node_id (node_at W S i) :: ids (block W S (W + i) 1)).
    rewrite ids_block, node_id_node_at.
    rewrite (u32_small i) by (unfold is_u32; lia). reflexivity. }
  split; reflexivity.
Qed.

Lemma addressing_cell_body (b : option (string * string)) W S i
    (pos : list event) :
  0 <= i < W -> W <= uint32_modulus ->
  Forall addressing_silent pos ->
  let body :=
    [EvChannelCreate;
     EvInstallDevices (WifiSta i) (ids (block W S (2 * W + i * S) S));
     EvInstallDevices (WifiAp i) [node_id (node_at W S i)];
     EvInternetInstall (ids (block W S (2 * W + i * S) S));
     EvAssign (node_id (node_at W S i) :: ids (block W S (2 * W + i * S) S));
     EvNewNetwork] ++
    pos ++
    [EvPushReferenceMobilityModel (node_id (node_at W S i));
     EvSetMobilityModel "ns3::ConstantPositionMobilityModel";
     EvMobilityInstall (ids (block W S (2 * W + i * S) S))] in
  addressing_after (mkAddressing b i []) body = mkAddressing b (i + 1) [] /\
  addressing_from (mkAddressing b i []) body =
    [mkAssignment b i
       [(WifiSta i, u32 <$> seqZ (2 * W + i * S) S); (WifiAp i, [i])]
       (i :: (u32 <$> seqZ (2 * W + i * S) S))].
Proof.
  intros Hi HW Hpos body. subst body.
  rewrite ids_block, node_id_node_at.
  rewrite (u32_small i) by (unfold is_u32; lia).
  match goal with
  | |- addressing_after ?st ?l = _ /\ _ =>
      eassert (addressing_after st l = _ /\ addressing_from st l = _) as [Ha Hf]
  end.
  { eapply addressing_seq; [split; reflexivity |].
    eapply addressing_seq;
      [apply addressing_silent_run, Hpos | split; reflexivity]. }
  rewrite Ha, Hf. split; reflexivity.
Qed.

Lemma edgecloud_addressing W S :
  is_u32 W ->
  addressing (edgecloud_trace.whole W S) =
  [mkAssignment (Some ("192.168.0.0", "255.255.255.0")) 0
     [(Csma, seqZ 0 W)] (seqZ 0 W)] ++
  ((fun i => mkAssignment (Some ("172.16.0.0", "255.255.255.0")) i
               [(PointToPoint, [i; u32 (W + i)])] [i; u32 (W + i)])
     <$> seqZ 0 W) ++
  ((fun i => mkAssignment (Some ("10.0.0.0", "255.255.255.0")) i
               [(WifiSta i, u32 <$> seqZ (2 * W + i * S) S); (WifiAp i, [i])]
               (i :: (u32 <$> seqZ (2 * W + i * S) S)))
     <$> seqZ 0 W).
Proof.
  intros HW. unfold is_u32 in HW.
  unfold addressing, edgecloud_trace.whole.
  match goal with
  | |- addressing_from ?st ?l = _ =>
      eassert (addressing_after st l = _ /\ addressing_from st l = _) as [_ Hf]
  end.
  { eapply addressing_seq; [split; reflexivity |].
    eapply addressing_seq.
    { unfold edgecloud_trace.backbone. rewrite ids_block, u32_seqZ_small by lia.
      split; reflexivity. }
    eapply addressing_seq; [split; reflexivity |].
    eapply addressing_seq.
    { apply addressing_loop; [lia |]. intros i Hi.
      apply (addressing_p2p_body _ W S i "5ms"); lia. }
    eapply addressing_seq; [split; reflexivity |].
    eapply addressing_seq.
    { apply addressing_loop; [lia |]. intros i Hi.
      apply (addressing_cell_body _ W S i); [lia | lia |].
      apply addressing_silent_fmap. intros j st. reflexivity. }
    apply addressing_silent_run.
    apply Forall_app. split; [silent_list |].
    apply Forall_app. split; [| apply Forall_app; split; silent_list].
    apply addressing_silent_bind. intros i.
    unfold edgecloud_trace.echo_cell.
    apply Forall_cons_2; [intros ?; reflexivity |].
    apply addressing_silent_bind. intros m.
    unfold edgecloud_trace.echo_pair. silent_list. }
  rewrite Hf. cbn [app]. rewrite !app_nil_r. reflexivity.
Qed.

Lemma wifi_addressing B K tail :
  is_u32 B -> Forall addressing_silent tail ->
  addressing (wifi_trace.construction B K ++ tail) =
  [mkAssignment (Some ("192.168.0.0", "255.255.255.0")) 0
     [(WifiAdhoc, seqZ 0 B)] (seqZ 0 B)] ++
  ((fun i => mkAssignment (Some ("172.16.0.0", "255.255.255.0")) i
               [(PointToPoint, [i; u32 (B + i)])] [i; u32 (B + i)])
     <$> seqZ 0 B) ++
  ((fun i => mkAssignment (Some ("10.0.0.0", "255.255.255.0")) i
               [(WifiSta i, u32 <$> seqZ (2 * B + i * K) K); (WifiAp i, [i])]
               (i :: (u32 <$> seqZ (2 * B + i * K) K)))
     <$> seqZ 0 B).
Proof.
  intros HB Htail. unfold is_u32 in HB.
  unfold addressing, wifi_trace.construction.
  rewrite <- !app_assoc.
  match goal with
  | |- addressing_from ?st ?l = _ =>
      eassert (addressing_after st l = _ /\ addressing_from st l = _) as [_ Hf]
  end.
  { eapply addressing_seq; [split; reflexivity |].
    eapply addressing_seq.
    { unfold wifi_trace.backbone. rewrite ids_block, u32_seqZ_small by lia.
      split; reflexivity. }
    eapply addressing_seq; [split; reflexivity |].
    eapply addressing_seq.
    { apply addressing_loop; [lia |]. intros i Hi.
      apply (addressing_p2p_body _ B K i "2ms"); lia. }
    eapply addressing_seq; [split; reflexivity |].
    eapply addressing_seq.
    { apply addressing_loop; [lia |]. intros i Hi.
      apply (addressing_cell_body _ B K i); [lia | lia |].
      apply addressing_silent_fmap. intros j st. reflexivity. }
    eapply addressing_seq; [split; reflexivity |].
    apply addressing_silent_run, Htail. }
  rewrite Hf. cbn [app]. rewrite !app_nil_r. reflexivity.
Qed.

(** The calls wifi_p2p makes after the construction of the topology, in all
    three outcomes, leave the addressing alone. *)
Lemma wifi_final_addressing (fuel : nat) (p : wifi_p2p.params) :
  wifi_ready fuel p ->
  exists w tail,
    final_world (wifi_p2p.main fuel p empty_world) = Some w /\
    log w = wifi_trace.construction (wifi_p2p.backboneNodes p)
              (wifi_p2p.infraNodes p) ++ tail /\
    Forall addressing_silent tail.
Proof.
  intros Hr.
  destruct (wifi_main_trace fuel p Hr)
    as [(_ & ->) | [(_ & ->) | (_ & _ & ->)]];
    do 2 eexists; (split; [reflexivity |]); (split; [reflexivity |]);
    unfold wifi_trace.applications; silent_list.
Qed.

(** C4.  Each program sets exactly three hard-coded base/mask pairs, in this
    order, and every call of Ipv4AddressHelper::Assign addresses the devices
    of one kind of link under the base of that kind: under
    192.168.0.0/255.255.255.0 the devices installed on all backbone nodes by
    the backbone helper; under 172.16.0.0/255.255.255.0, for each backbone
    node i, the two point-to-point devices of the link to its wired node,
    after i calls of NewNetwork; under 10.0.0.0/255.255.255.0, for each
    backbone node i, the station and access-point devices of wireless cell
    i, after i calls of NewNetwork.  There is no other Assign.  This holds
    whatever the parameters, and whether or not wifi_p2p later stops at a
    node lookup. *)
Theorem C4_three_address_plans (fuel : nat)
    (pe : edgecloud_Stream2.params) (pw : wifi_p2p.params) :
  edgecloud_ready fuel pe -> wifi_ready fuel pw ->
  (exists w,
     edgecloud_Stream2.main fuel pe empty_world = Done 0 w /\
     setbases (log w) =
       [("192.168.0.0", "255.255.255.0"); ("172.16.0.0", "255.255.255.0");
        ("10.0.0.0", "255.255.255.0")] /\
     let W := edgecloud_Stream2.nWifis pe in
     let S := edgecloud_Stream2.nStas pe in
     addressing (log w) =
       [mkAssignment (Some ("192.168.0.0", "255.255.255.0")) 0
          [(Csma, seqZ 0 W)] (seqZ 0 W)] ++
       ((fun i => mkAssignment (Some ("172.16.0.0", "255.255.255.0")) i
                    [(PointToPoint, [i; u32 (W + i)])] [i; u32 (W + i)])
          <$> seqZ 0 W) ++
       ((fun i => mkAssignment (Some ("10.0.0.0", "255.255.255.0")) i
                    [(WifiSta i, u32 <$> seqZ (2 * W + i * S) S);
                     (WifiAp i, [i])]
                    (i :: (u32 <$> seqZ (2 * W + i * S) S)))
          <$> seqZ 0 W)) /\
  (exists w,
     final_world (wifi_p2p.main fuel pw empty_world) = Some w /\
     setbases (log w) =
       [("192.168.0.0", "255.255.255.0"); ("172.16.0.0", "255.255.255.0");
        ("10.0.0.0", "255.255.255.0")] /\
     let B := wifi_p2p.backboneNodes pw in
     let K := wifi_p2p.infraNodes pw in
     addressing (log w) =
       [mkAssignment (Some ("192.168.0.0", "255.255.255.0")) 0
          [(WifiAdhoc, seqZ 0 B)] (seqZ 0 B)] ++
       ((fun i => mkAssignment (Some ("172.16.0.0", "255.255.255.0")) i
                    [(PointToPoint, [i; u32 (B + i)])] [i; u32 (B + i)])
          <$> seqZ 0 B) ++
       ((fun i => mkAssignment (Some ("10.0.0.0", "255.255.255.0")) i
                    [(WifiSta i, u32 <$> seqZ (2 * B + i * K) K);
                     (WifiAp i, [i])]
                    (i :: (u32 <$> seqZ (2 * B + i * K) K)))
          <$> seqZ 0 B)).
Proof.
  intros He Hw. split.
  - pose proof He as (He1 & He2 & He3 & He4).
    destruct (edgecloud_main_spec fuel pe He1 He2 He3 He4) as (w & Hrun & Hv & _).
    exists w. split; [exact Hrun |].
    split; [exact (f_equal v_setbases Hv) |].
    rewrite (edgecloud_main_trace fuel pe He) in Hrun.
    injection Hrun as <-. cbn [log].
    apply edgecloud_addressing, He1.
  - pose proof Hw as (Hw1 & Hw2 & _ & Hw4 & Hw5).
    destruct (wifi_final_addressing fuel pw Hw) as (w & tail & Hfin & Hlog & Ht).
    exists w. split; [exact Hfin |]. split.
    + destruct (wifi_main_spec fuel pw Hw1 Hw2 Hw4 Hw5)
        as [(_ & w' & Hrun & Hv) | [(_ & w' & Hrun & Hv) | (_ & _ & w' & Hrun & Hv & _)]];
        rewrite Hrun in Hfin; injection Hfin as <-;
        exact (f_equal v_setbases Hv).
    + rewrite Hlog. apply wifi_addressing; [exact Hw1 | exact Ht].
Qed.

Lemma C4_three_address_plans_witness :
  edgecloud_ready 8 edgecloud_Stream2.default_params /\
  wifi_ready 8 wifi_p2p.default_params /\
  (exists w,
     edgecloud_Stream2.main 8 edgecloud_Stream2.default_params empty_world
       = Done 0 w /\
     setbases (log w) =
       [("192.168.0.0", "255.255.255.0"); ("172.16.0.0", "255.255.255.0");
        ("10.0.0.0", "255.255.255.0")] /\
     addressing (log w) =
       [mkAssignment (Some ("192.168.0.0", "255.255.255.0")) 0
          [(Csma, seqZ 0 6)] (seqZ 0 6)] ++
       ((fun i => mkAssignment (Some ("172.16.0.0", "255.255.255.0")) i
                    [(PointToPoint, [i; u32 (6 + i)])] [i; u32 (6 + i)])
          <$> seqZ 0 6) ++
       ((fun i => mkAssignment (Some ("10.0.0.0", "255.255.255.0")) i
                    [(WifiSta i, u32 <$> seqZ (2 * 6 + i * 4) 4);
                     (WifiAp i, [i])]
                    (i :: (u32 <$> seqZ (2 * 6 + i * 4) 4)))
          <$> seqZ 0 6)) /\
  (exists w,
     final_world (wifi_p2p.main 8 wifi_p2p.default_params empty_world)
       = Some w /\
     setbases (log w) =
       [("192.168.0.0", "255.255.255.0"); ("172.16.0.0", "255.255.255.0");
        ("10.0.0.0", "255.255.255.0")] /\
     addressing (log w) =
       [mkAssignment (Some ("192.168.0.0", "255.255.255.0")) 0
          [(WifiAdhoc, seqZ 0 3)] (seqZ 0 3)] ++
       ((fun i => mkAssignment (Some ("172.16.0.0", "255.255.255.0")) i
                    [(PointToPoint, [i; u32 (3 + i)])] [i; u32 (3 + i)])
          <$> seqZ 0 3) ++
       ((fun i => mkAssignment (Some ("10.0.0.0", "255.255.255.0")) i
                    [(WifiSta i, u32 <$> seqZ (2 * 3 + i * 2) 2);
                     (WifiAp i, [i])]
                    (i :: (u32 <$> seqZ (2 * 3 + i * 2) 2)))
          <$> seqZ 0 3)).
Proof.
  assert (edgecloud_ready 8 edgecloud_Stream2.default_params) as He by ready.
  assert (wifi_ready 8 wifi_p2p.default_params) as Hw by ready.
  split; [exact He |]. split; [exact Hw |].
  exact (C4_three_address_plans 8 _ _ He Hw).
Defined.
